(** * Jira MCP command layer: a shallow embedding of [src/jira-mcp.ts]

    The development follows the source file top to bottom:
    - [Js]: the fragment of JavaScript values and built-ins the program uses
      (truthiness, property reads, template-literal rendering, [Array.join],
      [JSON.stringify], [Buffer.toString('base64')]);
    - [Async]: [async] function bodies that suspend on [fetch], the log of
      the requests handed to the network, and [Promise.all];
    - [getJiraConfig], [jiraRequest], the [jiraApi] helpers and the
      [commands] table, under the names they have in the source;
    - the properties of the request layer and of the commands. *)

From Stdlib Require Import String Ascii List ZArith Bool Lia DecimalString.
From Stdlib.Strings Require Import Byte.
Import ListNotations.
Local Open Scope string_scope.

(** ** JavaScript values *)

Module Js.

(** The numbers of the model are the safe integers, those a double holds
    exactly and prints in plain decimal digits; a double that is not one of
    them is not represented. *)
Definition MAX_SAFE_INTEGER : Z := 9007199254740991.

Record SafeInt : Type := {
  int_val : Z;
  int_safe : (Z.abs int_val <=? MAX_SAFE_INTEGER)%Z = true
}.

(** JSON-shaped values: what command inputs are made of and what
    [res.json()] produces.  An object is a plain object (its prototype is
    [Object.prototype]), given as the list of its own properties in insertion
    order; where a key occurs twice the first entry is the property. *)
#[warnings="-register-all"]
Inductive JsVal : Type :=
| JUndefined
| JNull
| JBool (b : bool)
| JNum (n : SafeInt)
| JStr (s : string)
| JArr (items : list JsVal)
| JObj (props : list (string * JsVal)).

(** The number literal [n]. *)
Abbreviation JInt n := (JNum {| int_val := n; int_safe := eq_refl |}) (only parsing).

Definition Obj : Type := list (string * JsVal).

(** Characters that cannot be written inside a literal. *)
Definition dquote : string := String "034"%char EmptyString.
Definition newline : string := String "010"%char EmptyString.

(** [ToBoolean]. *)
Definition truthy (v : JsVal) : bool :=
  match v with
  | JUndefined | JNull => false
  | JBool b => b
  | JNum n => negb (int_val n =? 0)%Z
  | JStr s => negb (s =? "")
  | JArr _ | JObj _ => true
  end.

Definition falsy (v : JsVal) : bool := negb (truthy v).

Definition nullish (v : JsVal) : bool :=
  match v with
  | JUndefined | JNull => true
  | _ => false
  end.

(** [a || b]. *)
Definition js_or (a b : JsVal) : JsVal := if truthy a then a else b.

(** [Array.isArray]. *)
Definition isArray (v : JsVal) : bool :=
  match v with
  | JArr _ => true
  | _ => false
  end.

(** The elements of an array. *)
Definition elements (v : JsVal) : list JsVal :=
  match v with
  | JArr items => items
  | _ => []
  end.

(** Own-property lookup of an object. *)
Fixpoint obj_get (name : string) (o : Obj) : JsVal :=
  match o with
  | [] => JUndefined
  | (k, v) :: rest => if k =? name then v else obj_get name rest
  end.

(** [Object.hasOwn(o, name)]. *)
Definition has_own (name : string) (o : Obj) : bool :=
  existsb (fun kv => fst kv =? name) o.

(** [o[name] = v]: overwrite in place or append. *)
Fixpoint obj_set {V : Type} (name : string) (v : V) (o : list (string * V))
  : list (string * V) :=
  match o with
  | [] => [(name, v)]
  | (k, w) :: rest =>
      if k =? name then (k, v) :: rest else (k, w) :: obj_set name v rest
  end.

(** [Object.assign(target, source)]. *)
Definition obj_assign {V : Type} (target source : list (string * V))
  : list (string * V) :=
  fold_left (fun acc kv => obj_set (fst kv) (snd kv) acc) source target.

(** What the engine throws.  [message] is the [e.message] a [catch] block
    reads; the wording of the engine-raised [TypeError]s is V8's. *)
Inductive Exn : Type :=
| Error (msg : string)
| TypeError_read (base : JsVal) (prop : string)
| TypeError_call (callee : string)
| TypeError_convert.

Inductive Settled (A : Type) : Type :=
| Fulfilled (a : A)
| Rejected (e : Exn).
Arguments Fulfilled {A} a.
Arguments Rejected {A} e.

Definition settled_bind {A B : Type} (r : Settled A) (k : A -> Settled B)
  : Settled B :=
  match r with
  | Fulfilled a => k a
  | Rejected e => Rejected e
  end.

Definition string_of_Z (n : Z) : string :=
  NilZero.string_of_int (Z.to_int n).

Section MapSettled.

Context {A B : Type} (f : A -> Settled B).

(** [items.map(f)] for a callback that may throw: the first throw wins. *)
Fixpoint map_settled (items : list A) : Settled (list B) :=
  match items with
  | [] => Fulfilled []
  | x :: rest =>
      settled_bind (f x) (fun y =>
      settled_bind (map_settled rest) (fun ys => Fulfilled (y :: ys)))
  end.

End MapSettled.

(** [ToString(v)], as applied by template literals and by [Array.join].
    It calls the value's [toString]: a plain object inherits the one that
    answers [[object Object]], unless it has an own property of that name,
    which in JSON-shaped data is never a function, and then the conversion
    throws (the inherited [valueOf] returns the object itself); an array
    joins its elements with commas. *)
Fixpoint to_string (v : JsVal) : Settled string :=
  match v with
  | JUndefined => Fulfilled "undefined"
  | JNull => Fulfilled "null"
  | JBool true => Fulfilled "true"
  | JBool false => Fulfilled "false"
  | JNum n => Fulfilled (string_of_Z (int_val n))
  | JStr s => Fulfilled s
  | JArr items =>
      settled_bind
        (map_settled (fun x => if nullish x then Fulfilled "" else to_string x) items)
        (fun texts => Fulfilled (String.concat "," texts))
  | JObj props =>
      if has_own "toString" props then Rejected TypeError_convert
      else Fulfilled "[object Object]"
  end.

(** How [Array.join] renders one element: [undefined] and [null] as
    nothing, anything else by [ToString]. *)
Definition join_element (x : JsVal) : Settled string :=
  if nullish x then Fulfilled "" else to_string x.

(** [items.join(sep)]: the elements are rendered in order, and the first
    one that cannot be rendered throws. *)
Definition join (sep : string) (items : list JsVal) : Settled string :=
  settled_bind (map_settled join_element items)
    (fun texts => Fulfilled (String.concat sep texts)).

Definition message (e : Exn) : string :=
  match e with
  | Error msg => msg
  | TypeError_read base prop =>
      "Cannot read properties of "
        ++ match base with JNull => "null" | _ => "undefined" end
        ++ " (reading '" ++ prop ++ "')"
  | TypeError_call callee => callee ++ " is not a function"
  | TypeError_convert => "Cannot convert object to primitive value"
  end.

(** [v.name].  Reading a property of [undefined] or [null] throws; a
    primitive or an array has none of the properties this program reads
    (it never asks for [length] or for a prototype method by name). *)
Definition get_prop (v : JsVal) (name : string) : Settled JsVal :=
  match v with
  | JUndefined | JNull => Rejected (TypeError_read v name)
  | JObj o => Fulfilled (obj_get name o)
  | _ => Fulfilled JUndefined
  end.

(** [v?.name]. *)
Definition get_prop_opt (v : JsVal) (name : string) : JsVal :=
  match v with
  | JObj o => obj_get name o
  | _ => JUndefined
  end.

(** The receiver of [callee.map(...)]: only an array has a [map]. *)
Definition as_array (v : JsVal) (callee : string) : Settled (list JsVal) :=
  match v with
  | JArr items => Fulfilled items
  | JUndefined | JNull => Rejected (TypeError_read v "map")
  | _ => Rejected (TypeError_call (callee ++ ".map"))
  end.

(** *** [JSON.stringify] *)

Definition hex_digit (n : nat) : ascii :=
  match String.get n "0123456789abcdef" with
  | Some c => c
  | None => "0"%char
  end.

Definition json_escape_char (c : ascii) : string :=
  let n := nat_of_ascii c in
  if Nat.eqb n 34 then "\" ++ dquote
  else if Nat.eqb n 92 then "\\"
  else if Nat.eqb n 8 then "\b"
  else if Nat.eqb n 9 then "\t"
  else if Nat.eqb n 10 then "\n"
  else if Nat.eqb n 12 then "\f"
  else if Nat.eqb n 13 then "\r"
  else if Nat.ltb n 32 then
    "\u00" ++ String (hex_digit (n / 16)) (String (hex_digit (n mod 16)) "")
  else String c "".

Fixpoint json_escape (s : string) : string :=
  match s with
  | EmptyString => ""
  | String c rest => json_escape_char c ++ json_escape rest
  end.

Definition json_quote (s : string) : string :=
  dquote ++ json_escape s ++ dquote.

(** A property key that is an array index: the canonical decimal text of
    an integer below [2^32 - 1]. *)
Fixpoint digits_value (acc : N) (s : string) : option N :=
  match s with
  | EmptyString => Some acc
  | String c rest =>
      let n := N_of_ascii c in
      if ((48 <=? n) && (n <=? 57))%N then digits_value (acc * 10 + (n - 48)) rest
      else None
  end.

Definition array_index (key : string) : option N :=
  match digits_value 0 key with
  | Some n =>
      if (string_of_Z (Z.of_N n) =? key) && (n <? 4294967295)%N then Some n
      else None
  | None => None
  end.

Section OwnProperties.

Context {V : Type}.

(** The entries that are properties: the first one of each key. *)
Fixpoint first_entries (o : list (string * V)) : list (string * V) :=
  match o with
  | [] => []
  | (k, v) :: rest =>
      (k, v) :: filter (fun kv => negb (fst kv =? k)) (first_entries rest)
  end.

Fixpoint insert_index (n : N) (kv : string * V) (l : list (N * (string * V)))
  : list (N * (string * V)) :=
  match l with
  | [] => [(n, kv)]
  | (m, kv') :: rest =>
      if (n <? m)%N then (n, kv) :: l else (m, kv') :: insert_index n kv rest
  end.

(** The order in which an object's own properties are enumerated: the
    array indices in ascending order, then the other keys in insertion
    order. *)
Definition own_properties (o : list (string * V)) : list (string * V) :=
  let entries := first_entries o in
  (map snd
     (fold_left (fun acc kv =>
                   match array_index (fst kv) with
                   | Some n => insert_index n kv acc
                   | None => acc
                   end) entries [])
   ++ filter (fun kv => match array_index (fst kv) with
                        | Some _ => false
                        | None => true
                        end) entries)%list.

End OwnProperties.

(** The text of a value in JSON; [None] is the [undefined] that
    [JSON.stringify(undefined)] returns.  A property whose value is
    [undefined] is left out of an object; inside an array it prints as
    [null].  An own [toJSON] property of JSON-shaped data is not a function
    and is printed like any other. *)
Fixpoint stringify (v : JsVal) : option string :=
  match v with
  | JUndefined => None
  | JNull => Some "null"
  | JBool true => Some "true"
  | JBool false => Some "false"
  | JNum n => Some (string_of_Z (int_val n))
  | JStr s => Some (json_quote s)
  | JArr items =>
      Some ("[" ++ String.concat ","
                     (map (fun x => match stringify x with
                                    | Some t => t
                                    | None => "null"
                                    end) items) ++ "]")
  | JObj props =>
      let printed := map (fun kv => (fst kv, stringify (snd kv))) props in
      Some ("{" ++ String.concat ","
                     (flat_map (fun kt => match snd kt with
                                          | Some t => [json_quote (fst kt) ++ ":" ++ t]
                                          | None => []
                                          end) (own_properties printed)) ++ "}")
  end.

(** *** [Buffer.from(s).toString('base64')] *)

Definition b64_alphabet : string :=
  "ABCDEFGHIJKLMNOPQRSTUVWXYZabcdefghijklmnopqrstuvwxyz0123456789+/".

Definition b64_digit (n : nat) : string :=
  match String.get (n mod 64) b64_alphabet with
  | Some c => String c ""
  | None => "="
  end.

Fixpoint b64_encode (bytes : list nat) : string :=
  match bytes with
  | [] => ""
  | [a] =>
      b64_digit (a / 4) ++ b64_digit (a mod 4 * 16) ++ "=="
  | [a; b] =>
      b64_digit (a / 4) ++ b64_digit (a mod 4 * 16 + b / 16)
        ++ b64_digit (b mod 16 * 4) ++ "="
  | a :: b :: c :: rest =>
      b64_digit (a / 4) ++ b64_digit (a mod 4 * 16 + b / 16)
        ++ b64_digit (b mod 16 * 4 + c / 64) ++ b64_digit (c mod 64)
        ++ b64_encode rest
  end.

Definition base64 (s : string) : string :=
  b64_encode (map nat_of_ascii (list_ascii_of_string s)).

End Js.

Import Js.

(** ** Promises, the network and the process environment *)

Module Async.

(** [process.env]. *)
Definition Env : Type := list (string * string).

Fixpoint env_get (name : string) (env : Env) : option string :=
  match env with
  | [] => None
  | (k, v) :: rest => if k =? name then Some v else env_get name rest
  end.

(** What a caller may put in [RequestInit.body].  [BodyJs] wraps a plain
    value ([undefined], [null], a string, or anything else that is not one of
    the binary or form classes below). *)
Inductive BodyVal : Type :=
| BodyJs (v : JsVal)
| BodyBuffer (bytes : list byte)
| BodyUint8Array (bytes : list byte)
| BodyArrayBuffer (bytes : list byte)
| BodyURLSearchParams (pairs : list (string * string)).

Definition Headers : Type := list (string * string).

(** [RequestInit]: [None] is an absent property; an absent body is
    [BodyJs JUndefined]. *)
Record RequestInit : Type := {
  method : option string;
  headers : option Headers;
  body : BodyVal
}.

(** [{}]. *)
Definition no_options : RequestInit :=
  {| method := None; headers := None; body := BodyJs JUndefined |}.

(** One call of [fetch(url, init)]. *)
Record Request : Type := {
  url : string;
  init : RequestInit
}.

(** The response as the program observes it: [res.status], the result of
    [res.text()] and the result of [res.json()], which rejects when the body
    is not JSON. *)
Record Response : Type := {
  status : Z;
  text : string;
  json : Settled JsVal
}.

(** [res.ok]. *)
Definition ok (res : Response) : bool :=
  ((200 <=? status res) && (status res <=? 299))%Z.

(** An [async] function body: it runs until it returns, throws, reads
    [process.env], or awaits a [fetch]. *)
Inductive Task (A : Type) : Type :=
| Ret (a : A)
| Throw (e : Exn)
| ReadEnv (k : Env -> Task A)
| Fetch (req : Request) (k : Settled Response -> Task A).
Arguments Ret {A} a.
Arguments Throw {A} e.
Arguments ReadEnv {A} k.
Arguments Fetch {A} req k.

Fixpoint bind {A B : Type} (t : Task A) (f : A -> Task B) : Task B :=
  match t with
  | Ret a => f a
  | Throw e => Throw e
  | ReadEnv k => ReadEnv (fun env => bind (k env) f)
  | Fetch req k => Fetch req (fun r => bind (k r) f)
  end.

(** [try { t } catch (e) { handler e }]. *)
Fixpoint try_catch {A : Type} (t : Task A) (handler : Exn -> Task A) : Task A :=
  match t with
  | Ret a => Ret a
  | Throw e => handler e
  | ReadEnv k => ReadEnv (fun env => try_catch (k env) handler)
  | Fetch req k => Fetch req (fun r => try_catch (k r) handler)
  end.

(** A synchronous step that may throw. *)
Definition lift {A : Type} (r : Settled A) : Task A :=
  match r with
  | Fulfilled a => Ret a
  | Rejected e => Throw e
  end.

(** [await fetch(url, init)]: the awaiting code resumes with the response,
    or with the rejection thrown at the [await]. *)
Definition fetch (url : string) (init : RequestInit) : Task Response :=
  Fetch {| url := url; init := init |} lift.

(** What comes back from the outside when an awaited [fetch] settles: the
    outcome of the call, and [process.env] as the resuming code finds it
    (other code of the process may have run in between). *)
Record Reply : Type := {
  settled : Settled Response;
  env_after : Env
}.

(** The remote service: the reply to the [n]-th request handed to the
    network. *)
Definition Remote : Type := nat -> Request -> Reply.

(** The state a running task sees and changes: the current [process.env]
    and the requests handed to the network so far, oldest first. *)
Record World : Type := {
  process_env : Env;
  sent : list Request
}.

(** Running a task to completion. *)
Fixpoint exec {A : Type} (remote : Remote) (t : Task A) (w : World)
  : Settled A * World :=
  match t with
  | Ret a => (Fulfilled a, w)
  | Throw e => (Rejected e, w)
  | ReadEnv k => exec remote (k (process_env w)) w
  | Fetch req k =>
      let reply := remote (List.length (sent w)) req in
      exec remote (k (settled reply))
        {| process_env := env_after reply; sent := (sent w ++ [req])%list |}
  end.

(** *** [Promise.all(items.map(async ...))]

    [map] calls the callback on every item in turn, and each call runs
    synchronously up to its first [await]: all requests are handed to the
    network, in item order, before any reply is looked at. *)
Inductive Pending (A : Type) : Type :=
| Done (r : Settled A)
| Waiting (n : nat) (req : Request) (k : Settled Response -> Task A).
Arguments Done {A} r.
Arguments Waiting {A} n req k.

Fixpoint start {A : Type} (t : Task A) (env : Env) (log : list Request)
  : Pending A * list Request :=
  match t with
  | Ret a => (Done (Fulfilled a), log)
  | Throw e => (Done (Rejected e), log)
  | ReadEnv k => start (k env) env log
  | Fetch req k => (Waiting (List.length log) req k, (log ++ [req])%list)
  end.

Fixpoint start_all {A : Type} (tasks : list (Task A)) (env : Env)
    (log : list Request) : list (Pending A) * list Request :=
  match tasks with
  | [] => ([], log)
  | t :: rest =>
      let '(p, log1) := start t env log in
      let '(ps, log2) := start_all rest env log1 in
      (p :: ps, log2)
  end.

(** A suspended call resumes with its own reply and runs to completion. *)
Definition resume {A : Type} (remote : Remote) (p : Pending A)
    (log : list Request) : Settled A * list Request :=
  match p with
  | Done r => (r, log)
  | Waiting n req k =>
      let reply := remote n req in
      let '(r, w) :=
        exec remote (k (settled reply))
          {| process_env := env_after reply; sent := log |} in
      (r, sent w)
  end.

Fixpoint resume_all {A : Type} (remote : Remote) (ps : list (Pending A))
    (log : list Request) : list (Settled A) * list Request :=
  match ps with
  | [] => ([], log)
  | p :: rest =>
      let '(r, log1) := resume remote p log in
      let '(rs, log2) := resume_all remote rest log1 in
      (r :: rs, log2)
  end.

(** The combined promise: the values in item order, or the rejection of
    the first item that rejected. *)
Fixpoint all_settled {A : Type} (rs : list (Settled A)) : Settled (list A) :=
  match rs with
  | [] => Fulfilled []
  | Fulfilled a :: rest =>
      match all_settled rest with
      | Fulfilled l => Fulfilled (a :: l)
      | Rejected e => Rejected e
      end
  | Rejected e :: _ => Rejected e
  end.

Definition promise_all {A : Type} (remote : Remote) (tasks : list (Task A))
    (env : Env) : Settled (list A) * list Request :=
  let '(ps, log1) := start_all tasks env [] in
  let '(rs, log2) := resume_all remote ps log1 in
  (all_settled rs, log2).

(** A call made from a fresh process state, as its caller sees it: how the
    promise settles and which requests went out. *)
Definition call {A : Type} (remote : Remote) (t : Task A) (env : Env)
  : Settled A * list Request :=
  let '(r, w) := exec remote t {| process_env := env; sent := [] |} in
  (r, sent w).

End Async.

Import Async.

Declare Scope task_scope.
Delimit Scope task_scope with task.
Notation "x <- t ;; k" := (bind t (fun x => k))
  (at level 100, t at next level, right associativity) : task_scope.
Notation "'try' t 'catch' h" := (try_catch t h)
  (at level 100, t at level 200, h at level 9) : task_scope.
Notation "'let*' x ':=' r 'in' k" := (settled_bind r (fun x => k))
  (at level 10, x name, r at level 100, k at level 200, only parsing).

Local Open Scope task_scope.

(** ** The Jira client: configuration and the request layer *)

Record JiraConfig : Type := {
  JIRA_BASE_URL : string;
  JIRA_EMAIL : string;
  JIRA_API_TOKEN : string
}.

(** [process.env.NAME || '']. *)
Definition env_or_empty (env : Env) (name : string) : string :=
  match env_get name env with
  | Some v => v
  | None => ""
  end.

Definition config_missing : string :=
  "Missing required Jira environment variables. Please set JIRA_BASE_URL, JIRA_EMAIL, and JIRA_API_TOKEN.".

Definition getJiraConfig : Task JiraConfig :=
  ReadEnv (fun env =>
    let base := env_or_empty env "JIRA_BASE_URL" in
    let email := env_or_empty env "JIRA_EMAIL" in
    let token := env_or_empty env "JIRA_API_TOKEN" in
    if (base =? "") || (email =? "") || (token =? "") then
      Throw (Error config_missing)
    else
      Ret {| JIRA_BASE_URL := base; JIRA_EMAIL := email; JIRA_API_TOKEN := token |}).

(** [typeof b === 'string'], [b instanceof Buffer] and
    [b instanceof Uint8Array] ([Buffer] is a subclass of [Uint8Array]). *)
Definition typeof_string (b : BodyVal) : bool :=
  match b with
  | BodyJs (JStr _) => true
  | _ => false
  end.

Definition instanceof_Buffer (b : BodyVal) : bool :=
  match b with
  | BodyBuffer _ => true
  | _ => false
  end.

Definition instanceof_Uint8Array (b : BodyVal) : bool :=
  match b with
  | BodyBuffer _ | BodyUint8Array _ => true
  | _ => false
  end.

Definition is_undefined (b : BodyVal) : bool :=
  match b with
  | BodyJs JUndefined => true
  | _ => false
  end.

Definition is_null (b : BodyVal) : bool :=
  match b with
  | BodyJs JNull => true
  | _ => false
  end.

Definition jiraRequest (path : string) (options : RequestInit) : Task JsVal :=
  cfg <- getJiraConfig ;;
  let url := JIRA_BASE_URL cfg ++ path in
  let auth := base64 (JIRA_EMAIL cfg ++ ":" ++ JIRA_API_TOKEN cfg) in
  let baseHeaders : Headers :=
    [("Authorization", "Basic " ++ auth); ("Accept", "application/json")] in
  let mergedHeaders :=
    obj_assign (obj_assign [] baseHeaders)
      (match headers options with Some h => h | None => [] end) in
  let fetchOptions :=
    {| headers := Some mergedHeaders;
       method := match method options with
                 | Some m => if m =? "" then None else Some m
                 | None => None
                 end;
       body := BodyJs JUndefined |} in
  let safeBody :=
    if negb (is_undefined (body options)) && negb (is_null (body options))
       && (typeof_string (body options)
           || instanceof_Buffer (body options)
           || instanceof_Uint8Array (body options))
    then body options
    else BodyJs JUndefined in
  let fetchOptions :=
    if negb (is_undefined safeBody)
    then {| headers := headers fetchOptions;
            method := method fetchOptions;
            body := safeBody |}
    else fetchOptions in
  res <- fetch url fetchOptions ;;
  if negb (ok res) then
    let err := text res in
    Throw (Error ("Jira API error: " ++ string_of_Z (status res) ++ " " ++ err))
  else lift (json res).

(** [body: JSON.stringify(v)]. *)
Definition json_body (v : JsVal) : BodyVal :=
  match stringify v with
  | Some s => BodyJs (JStr s)
  | None => BodyJs JUndefined
  end.

Definition json_headers : Headers := [("Content-Type", "application/json")].

(** [if (c) o[name] = v]. *)
Definition set_if (c : JsVal) (name : string) (v : JsVal) (o : Obj) : Obj :=
  if truthy c then obj_set name v o else o.

Module jiraApi.

Definition getIssue (issueKey : JsVal) : Task JsVal :=
  key <- lift (to_string issueKey) ;;
  jiraRequest ("/rest/api/3/issue/" ++ key) no_options.

Definition createIssue (input : Obj) : Task JsVal :=
  let fields : Obj :=
    [("project", JObj [("key", obj_get "projectKey" input)]);
     ("summary", obj_get "summary" input);
     ("issuetype", JObj [("name", obj_get "issueType" input)])] in
  let fields :=
    set_if (obj_get "description" input) "description" (obj_get "description" input) fields in
  let fields :=
    set_if (obj_get "assignee" input) "assignee"
      (JObj [("name", obj_get "assignee" input)]) fields in
  let fields :=
    set_if (obj_get "priority" input) "priority"
      (JObj [("name", obj_get "priority" input)]) fields in
  let fields :=
    set_if (obj_get "epicLink" input) "customfield_10008" (obj_get "epicLink" input) fields in
  let fields :=
    set_if (obj_get "parent" input) "parent"
      (JObj [("key", obj_get "parent" input)]) fields in
  jiraRequest "/rest/api/3/issue"
    {| method := Some "POST";
       headers := Some json_headers;
       body := json_body (JObj [("fields", JObj fields)]) |}.

Definition addWorklog (issueKey timeSpent comment : JsVal) : Task JsVal :=
  let body : Obj := [("timeSpent", timeSpent)] in
  let body := set_if comment "comment" comment body in
  key <- lift (to_string issueKey) ;;
  jiraRequest ("/rest/api/3/issue/" ++ key ++ "/worklog")
    {| method := Some "POST";
       headers := Some json_headers;
       body := json_body (JObj body) |}.

Definition updateIssue (issueIdOrKey fields : JsVal) : Task JsVal :=
  key <- lift (to_string issueIdOrKey) ;;
  jiraRequest ("/rest/api/3/issue/" ++ key)
    {| method := Some "PUT";
       headers := Some json_headers;
       body := json_body (JObj [("fields", fields)]) |}.

Definition deleteIssue (issueIdOrKey : JsVal) : Task JsVal :=
  key <- lift (to_string issueIdOrKey) ;;
  jiraRequest ("/rest/api/3/issue/" ++ key)
    {| method := Some "DELETE"; headers := None; body := BodyJs JUndefined |}.

Definition listIssues (jql maxResults : JsVal) : Task JsVal :=
  let body : Obj := [] in
  let body := set_if jql "jql" jql body in
  let body := set_if maxResults "maxResults" maxResults body in
  jiraRequest "/rest/api/3/search"
    {| method := Some "POST";
       headers := Some json_headers;
       body := json_body (JObj body) |}.

End jiraApi.

(** ** The command table *)

(** [{ error: true, message: e.message }]. *)
Definition error_result (e : Exn) : JsVal :=
  JObj [("error", JBool true); ("message", JStr (message e))].

Definition error_message (msg : string) : JsVal :=
  JObj [("error", JBool true); ("message", JStr msg)].

(** What running a command amounts to for its caller: how the returned
    promise settles, and the requests that went out. *)
Definition Outcome : Type := (Settled JsVal * list Request)%type.

Module commands.

Module getIssueDetails.

Definition required : list string := ["issueIdOrKey"].

(** [c.content?.map((t) => t.text).join(' ')]. *)
Definition block_text (c : JsVal) : Settled JsVal :=
  let* content := get_prop c "content" in
  if nullish content then Fulfilled JUndefined
  else
    let* nodes := as_array content "c.content?" in
    let* texts := map_settled (fun t => get_prop t "text") nodes in
    let* line := join " " texts in
    Fulfilled (JStr line).

(** [fields.description?.content ? fields.description.content.map(...).join('\n') : null]. *)
Definition description_text (fields : JsVal) : Settled JsVal :=
  let* description := get_prop fields "description" in
  if truthy (get_prop_opt description "content") then
    let* content := get_prop description "content" in
    let* blocks := as_array content "fields.description.content" in
    let* lines := map_settled block_text blocks in
    let* text := join newline lines in
    Fulfilled (JStr text)
  else Fulfilled JNull.

(** [(s) => ({ key: s.key, summary: s.fields?.summary })]. *)
Definition subtask_ref (s : JsVal) : Settled JsVal :=
  let* key := get_prop s "key" in
  let* sfields := get_prop s "fields" in
  Fulfilled (JObj [("key", key); ("summary", get_prop_opt sfields "summary")]).

(** The body of the [try] after the issue has arrived. *)
Definition project (data : JsVal) : Settled JsVal :=
  let* f := get_prop data "fields" in
  let fields := js_or f (JObj []) in
  let* key := get_prop data "key" in
  let* summary := get_prop fields "summary" in
  let* status := get_prop fields "status" in
  let* assignee := get_prop fields "assignee" in
  let* description := description_text fields in
  let* epicLink := get_prop fields "customfield_10008" in
  let* subtasks := get_prop fields "subtasks" in
  let* refs := as_array (js_or subtasks (JArr [])) "(fields.subtasks || [])" in
  let* subtasks := map_settled subtask_ref refs in
  Fulfilled (JObj [("key", key);
                   ("summary", summary);
                   ("status", get_prop_opt status "name");
                   ("assignee", js_or (get_prop_opt assignee "displayName") JNull);
                   ("description", description);
                   ("epicLink", js_or epicLink JNull);
                   ("subtasks", JArr subtasks)]).

Definition run (input : Obj) : Task JsVal :=
  try (data <- jiraApi.getIssue (obj_get "issueIdOrKey" input) ;;
       lift (project data))
  catch (fun e => Ret (error_result e)).

End getIssueDetails.

Module createIssue.

Definition required : list string := ["projectKey"; "summary"; "issueType"].

Definition run (input : Obj) : Task JsVal :=
  if falsy (obj_get "projectKey" input) || falsy (obj_get "summary" input)
     || falsy (obj_get "issueType" input)
  then Ret (error_message "Missing required fields: projectKey, summary, or issueType")
  else
    try (issue <- jiraApi.createIssue input ;;
         key <- lift (get_prop issue "key") ;;
         cfg <- getJiraConfig ;;
         shown <- lift (to_string key) ;;
         Ret (JObj [("key", key);
                    ("url", JStr (JIRA_BASE_URL cfg ++ "/browse/" ++ shown))]))
    catch (fun e => Ret (error_result e)).

End createIssue.

Module transitionIssue.

Definition required : list string := ["issueIdOrKey"; "transitionId"].

Definition run (input : Obj) : Task JsVal :=
  issue <- lift (to_string (obj_get "issueIdOrKey" input)) ;;
  transition <- lift (to_string (obj_get "transitionId" input)) ;;
  Ret (JObj [("success", JBool true);
             ("message",
              JStr ("Transitioned issue " ++ issue
                    ++ " to transition " ++ transition ++ " (placeholder)"))]).

End transitionIssue.

Module batchCreateIssues.

Definition required : list string := ["projectKey"; "issues"].

(** The [async (issue) => ...] callback handed to [map]. *)
Definition create_one (projectKey issue : JsVal) : Task JsVal :=
  try (summary <- lift (get_prop issue "summary") ;;
       description <- lift (get_prop issue "description") ;;
       issueType <- lift (get_prop issue "issueType") ;;
       assignee <- lift (get_prop issue "assignee") ;;
       created <- jiraApi.createIssue
                    [("projectKey", projectKey);
                     ("summary", summary);
                     ("description", description);
                     ("issueType", issueType);
                     ("assignee", assignee)] ;;
       key <- lift (get_prop created "key") ;;
       cfg <- getJiraConfig ;;
       shown <- lift (to_string key) ;;
       Ret (JObj [("key", key);
                  ("url", JStr (JIRA_BASE_URL cfg ++ "/browse/" ++ shown));
                  ("success", JBool true)]))
  catch (fun e =>
         summary <- lift (get_prop issue "summary") ;;
         Ret (JObj [("error", JBool true);
                    ("message", JStr (message e));
                    ("summary", summary)])).

Definition run (input : Obj) (remote : Remote) (env : Env) : Outcome :=
  let issues := obj_get "issues" input in
  if falsy (obj_get "projectKey" input) || negb (isArray issues)
     || (List.length (elements issues) =? 0)%nat
  then (Fulfilled (error_message "Missing projectKey or issues array is empty"), [])
  else
    let '(results, log) :=
      promise_all remote
        (map (create_one (obj_get "projectKey" input)) (elements issues)) env in
    (settled_bind results (fun rs => Fulfilled (JArr rs)), log).

End batchCreateIssues.

Module logWork.

Definition required : list string := ["issueKey"; "timeSpent"].

Definition run (input : Obj) : Task JsVal :=
  if falsy (obj_get "issueKey" input) || falsy (obj_get "timeSpent" input)
  then Ret (error_message "Missing required fields: issueKey or timeSpent")
  else
    try (_ <- jiraApi.addWorklog (obj_get "issueKey" input)
                (obj_get "timeSpent" input) (obj_get "comment" input) ;;
         key <- lift (to_string (obj_get "issueKey" input)) ;;
         Ret (JObj [("success", JBool true);
                    ("message", JStr ("Worklog added to " ++ key))]))
    catch (fun e => Ret (error_result e)).

End logWork.

Module createTask.

Definition required : list string := ["summary"; "projectKey"; "issueType"].

Definition run (input : Obj) : Task JsVal :=
  createIssue.run
    [("projectKey", obj_get "projectKey" input);
     ("summary", obj_get "summary" input);
     ("description", obj_get "description" input);
     ("issueType", obj_get "issueType" input)].

End createTask.

Module getTask.

Definition required : list string := ["issueIdOrKey"].

Definition run (input : Obj) : Task JsVal :=
  getIssueDetails.run [("issueIdOrKey", obj_get "issueIdOrKey" input)].

End getTask.

Module updateTask.

Definition required : list string := ["issueIdOrKey"; "fields"].

Definition run (input : Obj) : Task JsVal :=
  try (_ <- jiraApi.updateIssue (obj_get "issueIdOrKey" input) (obj_get "fields" input) ;;
       Ret (JObj [("success", JBool true);
                  ("message", JStr "Task updated");
                  ("input", JObj input)]))
  catch (fun e => Ret (error_result e)).

End updateTask.

Module deleteTask.

Definition required : list string := ["issueIdOrKey"].

Definition run (input : Obj) : Task JsVal :=
  try (_ <- jiraApi.deleteIssue (obj_get "issueIdOrKey" input) ;;
       Ret (JObj [("success", JBool true);
                  ("message", JStr "Task deleted");
                  ("input", JObj input)]))
  catch (fun e => Ret (error_result e)).

End deleteTask.

Module listTasks.

Definition required : list string := [].

Definition run (input : Obj) : Task JsVal :=
  try (result <- jiraApi.listIssues (obj_get "jql" input) (obj_get "maxResults" input) ;;
       issues <- lift (get_prop result "issues") ;;
       Ret (JObj [("success", JBool true); ("issues", issues)]))
  catch (fun e => Ret (error_result e)).

End listTasks.

End commands.

(** The ten entries of the default export. *)
Inductive CommandName : Type :=
| GetIssueDetails
| CreateIssue
| TransitionIssue
| BatchCreateIssues
| LogWork
| CreateTask
| GetTask
| UpdateTask
| DeleteTask
| ListTasks.

(** The parameters a command declares with [required: true]. *)
Definition required (c : CommandName) : list string :=
  match c with
  | GetIssueDetails => commands.getIssueDetails.required
  | CreateIssue => commands.createIssue.required
  | TransitionIssue => commands.transitionIssue.required
  | BatchCreateIssues => commands.batchCreateIssues.required
  | LogWork => commands.logWork.required
  | CreateTask => commands.createTask.required
  | GetTask => commands.getTask.required
  | UpdateTask => commands.updateTask.required
  | DeleteTask => commands.deleteTask.required
  | ListTasks => commands.listTasks.required
  end.

(** [await command.run(input)] against a remote service, starting from a
    given [process.env]. *)
Definition invoke (c : CommandName) (input : Obj) (remote : Remote) (env : Env)
  : Outcome :=
  match c with
  | GetIssueDetails => call remote (commands.getIssueDetails.run input) env
  | CreateIssue => call remote (commands.createIssue.run input) env
  | TransitionIssue => call remote (commands.transitionIssue.run input) env
  | BatchCreateIssues => commands.batchCreateIssues.run input remote env
  | LogWork => call remote (commands.logWork.run input) env
  | CreateTask => call remote (commands.createTask.run input) env
  | GetTask => call remote (commands.getTask.run input) env
  | UpdateTask => call remote (commands.updateTask.run input) env
  | DeleteTask => call remote (commands.deleteTask.run input) env
  | ListTasks => call remote (commands.listTasks.run input) env
  end.

(** ** Vocabulary of the statements *)

(** All three configuration values are set to something non-empty. *)
Definition configured (env : Env) : bool :=
  negb (env_or_empty env "JIRA_BASE_URL" =? "")
  && negb (env_or_empty env "JIRA_EMAIL" =? "")
  && negb (env_or_empty env "JIRA_API_TOKEN" =? "").

(** [sub] occurs in [s]. *)
Definition contains (sub s : string) : Prop :=
  exists before after, s = before ++ sub ++ after.

(** A string or a binary payload. *)
Definition string_or_binary (b : BodyVal) : Prop :=
  (exists s, b = BodyJs (JStr s))
  \/ (exists bytes, b = BodyBuffer bytes)
  \/ (exists bytes, b = BodyUint8Array bytes).

(** The request carries a body. *)
Definition has_body (req : Request) : Prop := body (init req) <> BodyJs JUndefined.

(** The rich-document shape of a description: text nodes inside content
    blocks inside the document. *)
Definition text_node (t : JsVal) (s : string) : Prop :=
  exists o, t = JObj o /\ obj_get "text" o = JStr s.

Definition content_block (c : JsVal) (texts : list string) : Prop :=
  exists o nodes,
    c = JObj o /\ obj_get "content" o = JArr nodes /\ Forall2 text_node nodes texts.

Definition rich_document (d : JsVal) (blocks : list (list string)) : Prop :=
  exists o cs,
    d = JObj o /\ obj_get "content" o = JArr cs /\ Forall2 content_block cs blocks.

(** What the request layer makes of a settled [fetch]: the parsed body of
    a 2xx response, and a rejection otherwise. *)
Definition received (r : Settled Response) : Settled JsVal :=
  match r with
  | Fulfilled res =>
      if ok res then json res
      else Rejected (Error ("Jira API error: " ++ string_of_Z (status res)
                            ++ " " ++ text res))
  | Rejected e => Rejected e
  end.

(** The subtasks field of a fetched issue: absent, or an array without null
    entries. *)
Definition subtask_list (v : JsVal) : Prop :=
  falsy v = true
  \/ exists refs, v = JArr refs /\ Forall (fun s => nullish s = false) refs.

(** The remote as one call sees it when it is the only one made: whatever
    it sends gets the reply meant for the [n]-th request. *)
Definition alone (remote : Remote) (n : nat) : Remote :=
  fun _ req => remote n req.

(** The task suspends on a [fetch] when started in [env]. *)
Fixpoint awaits {A : Type} (t : Task A) (env : Env) : bool :=
  match t with
  | Ret _ | Throw _ => false
  | ReadEnv k => awaits (k env) env
  | Fetch _ _ => true
  end.

(** Each task settled on its own, the [n]-th reply going to the first task
    that sends a request, the next reply to the next such task, and so on. *)
Fixpoint settle_each {A : Type} (remote : Remote) (env : Env)
    (tasks : list (Task A)) (n : nat) : list (Settled A) :=
  match tasks with
  | [] => []
  | t :: rest =>
      fst (call (alone remote n) t env)
      :: settle_each remote env rest (if awaits t env then S n else n)
  end.

(** A task that never reaches [fetch], and a task that reaches it at most
    once. *)
Inductive sync {A : Type} : Task A -> Prop :=
| sync_ret (a : A) : sync (Ret a)
| sync_throw (e : Exn) : sync (Throw e)
| sync_env (k : Env -> Task A) : (forall env, sync (k env)) -> sync (ReadEnv k).

Inductive one_shot {A : Type} : Task A -> Prop :=
| one_shot_ret (a : A) : one_shot (Ret a)
| one_shot_throw (e : Exn) : one_shot (Throw e)
| one_shot_env (k : Env -> Task A) :
    (forall env, one_shot (k env)) -> one_shot (ReadEnv k)
| one_shot_fetch (req : Request) (k : Settled Response -> Task A) :
    (forall r, sync (k r)) -> one_shot (Fetch req k).

(** The object [batchCreateIssues] hands to [jiraApi.createIssue] for one
    item. *)
Definition item_payload (projectKey issue : JsVal) : Obj :=
  [("projectKey", projectKey);
   ("summary", get_prop_opt issue "summary");
   ("description", get_prop_opt issue "description");
   ("issueType", get_prop_opt issue "issueType");
   ("assignee", get_prop_opt issue "assignee")].

(** A value a required field counts as missing with: absent, or empty. *)
Definition blank (v : JsVal) : Prop := v = JUndefined \/ v = JStr "".

(** Own-property lookup in a record of any value type, with absence made
    explicit. *)
Fixpoint assoc_get {V : Type} (name : string) (o : list (string * V)) : option V :=
  match o with
  | [] => None
  | (k, v) :: rest => if k =? name then Some v else assoc_get name rest
  end.

(** [s] begins with [prefix]. *)
Definition starts_with (prefix s : string) : Prop :=
  exists rest, s = prefix ++ rest.

(** The request a task hands to the network before it first suspends, when
    started in [env]; none if it settles without awaiting. *)
Fixpoint first_request {A : Type} (t : Task A) (env : Env) : list Request :=
  match t with
  | Ret _ | Throw _ => []
  | ReadEnv k => first_request (k env) env
  | Fetch req _ => [req]
  end.

(** The two headers every request starts from. *)
Definition base_headers (env : Env) : Headers :=
  [("Authorization",
    "Basic " ++ base64 (env_or_empty env "JIRA_EMAIL" ++ ":"
                        ++ env_or_empty env "JIRA_API_TOKEN"));
   ("Accept", "application/json")].

(** A request addressed to the REST API of the configured site and
    authenticated with the configured account. *)
Definition api_request (env : Env) (req : Request) : Prop :=
  configured env = true
  /\ starts_with (env_or_empty env "JIRA_BASE_URL" ++ "/rest/api/3/") (url req)
  /\ exists h,
      headers (init req) = Some h
      /\ assoc_get "Authorization" h = assoc_get "Authorization" (base_headers env)
      /\ assoc_get "Accept" h = Some "application/json".

(** The most requests one run of a command can send. *)
Definition request_bound (c : CommandName) (input : Obj) : nat :=
  match c with
  | TransitionIssue => 0
  | BatchCreateIssues => List.length (elements (obj_get "issues" input))
  | _ => 1
  end.

(** The two kinds of options the API helpers pass to the request layer:
    nothing but perhaps a method, or a JSON object as text with its
    content type. *)
Inductive request_options : RequestInit -> Prop :=
| bare_options (m : option string) :
    request_options {| method := m; headers := None; body := BodyJs JUndefined |}
| json_options (m : option string) (o : Obj) :
    request_options {| method := m; headers := Some json_headers;
                       body := json_body (JObj o) |}.

(** The two shapes a command's [run] takes once its input is known: it
    returns at once, or it makes one API request inside a [try] whose handler
    returns [{error: true, message}]. *)
Inductive guarded : Task JsVal -> Prop :=
| guarded_ret (v : JsVal) : guarded (Ret v)
| guarded_request (rest : string) (options : RequestInit)
    (f : JsVal -> Task JsVal) :
    request_options options ->
    (forall a, sync (f a)) ->
    guarded (try_catch (bind (jiraRequest ("/rest/api/3/" ++ rest) options) f)
               (fun e => Ret (error_result e))).

(** A request with a body says so: it carries the JSON content type and the
    body is text; a request without a body has no content type. *)
Definition json_or_bare (req : Request) : Prop :=
  exists h,
    headers (init req) = Some h
    /\ ((body (init req) = BodyJs JUndefined /\ assoc_get "Content-Type" h = None)
        \/ ((exists s, body (init req) = BodyJs (JStr s))
            /\ assoc_get "Content-Type" h = Some "application/json")).

(** A node of a block as the flattening reads it: any value but null, whose
    text is its [text] property when that is a string, and nothing when it
    has no such property (a hard break, a mention, an emoji). *)
Definition inline_node (t : JsVal) (s : string) : Prop :=
  nullish t = false
  /\ (get_prop_opt t "text" = JStr s
      \/ (nullish (get_prop_opt t "text") = true /\ s = "")).

(** A block as the flattening reads it: any value but null, whose line is
    its nodes' texts joined by spaces, and the empty line when it has no
    content (a rule). *)
Definition any_block (c : JsVal) (line : string) : Prop :=
  nullish c = false
  /\ ((nullish (get_prop_opt c "content") = true /\ line = "")
      \/ exists nodes texts,
          get_prop_opt c "content" = JArr nodes
          /\ Forall2 inline_node nodes texts
          /\ line = String.concat " " texts).

(** ** Sample data

    The configuration of the README and replies of a remote service, used to
    run the statements below on concrete inputs. *)

Definition sample_env : Env :=
  [("JIRA_BASE_URL", "https://your-domain.atlassian.net");
   ("JIRA_EMAIL", "your-email@example.com");
   ("JIRA_API_TOKEN", "your-jira-api-token")].

Definition respond (st : Z) (v : JsVal) : Response :=
  {| status := st; text := "remote said no"; json := Fulfilled v |}.

(** A remote that answers every request alike and leaves [process.env]
    as [env']. *)
Definition answering (res : Response) (env' : Env) : Remote :=
  fun _ _ => {| settled := Fulfilled res; env_after := env' |}.

Definition created_PROJ_1 : Response := respond 201 (JObj [("key", JStr "PROJ-1")]).

(** A remote that is down: every [fetch] rejects. *)
Definition unreachable : Remote :=
  fun _ _ => {| settled := Rejected (Error "request to remote failed");
                env_after := sample_env |}.

(** A remote that answers every request with an empty 204. *)
Definition no_content : Remote :=
  fun _ _ =>
    {| settled :=
         Fulfilled {| status := 204; text := "";
                      json := Rejected (Error "Unexpected end of JSON input") |};
       env_after := sample_env |}.

(** An issue whose description has a rule (a block without content) and a
    paragraph that ends in a hard break (a node without text). *)
Definition ruled_description : Obj :=
  [("content",
    JArr [JObj [("type", JStr "rule")];
          JObj [("content",
                 JArr [JObj [("text", JStr "x")];
                       JObj [("type", JStr "hardBreak")]])]])].

Definition ruled_issue : Obj :=
  [("key", JStr "PROJ-7");
   ("fields", JObj [("description", JObj ruled_description)])].

(** The batch of the test suite, and a remote that refuses the first
    request and creates the second. *)
Definition sample_batch : Obj :=
  [("projectKey", JStr "PROJ");
   ("issues",
    JArr [JObj [("summary", JStr "Task 1"); ("issueType", JStr "Task")];
          JObj [("summary", JStr "Task 2"); ("description", JStr "Desc 2");
                ("issueType", JStr "Bug"); ("assignee", JStr "user2")]])].

Definition first_refused : Remote :=
  fun n _ =>
    {| settled := Fulfilled (if Nat.eqb n 0 then respond 500 JNull else created_PROJ_1);
       env_after := sample_env |}.

(** An issue as the remote returns it, with a two-paragraph description. *)
Definition paragraph (texts : list string) : JsVal :=
  JObj [("type", JStr "paragraph");
        ("content",
         JArr (map (fun s => JObj [("type", JStr "text"); ("text", JStr s)]) texts))].

Definition sample_fields : Obj :=
  [("summary", JStr "Test Ticket");
   ("description",
    JObj [("type", JStr "doc");
          ("content", JArr [paragraph ["a"; "b"]; paragraph ["c"]])]);
   ("subtasks", JArr [])].

Definition sample_issue : Obj :=
  [("key", JStr "PROJ-123"); ("fields", JObj sample_fields)].

(** Closes the cases of a body that is, or is not, a string or a binary
    payload. *)
Ltac body_case :=
  repeat split; intros;
  try reflexivity; try discriminate;
  try (left; eexists; reflexivity);
  try (right; left; eexists; reflexivity);
  try (right; right; eexists; reflexivity);
  try match goal with
      | H : ?x <> ?x |- _ => exfalso; apply H; reflexivity
      | H : (exists _, _) \/ _ |- _ =>
          destruct H as [[? H] | [[? H] | [? H]]]; discriminate H
      | H : ~ _ |- _ => exfalso; apply H; eauto
      end.

(** Splits on which optional fields of a create input are given. *)
Ltac issue_fields_cases input :=
  unfold set_if;
  destruct (truthy (obj_get "description" input)),
           (truthy (obj_get "assignee" input)),
           (truthy (obj_get "priority" input)),
           (truthy (obj_get "epicLink" input)),
           (truthy (obj_get "parent" input)).

(** ** How tasks run *)

Section Exec.

Context (remote : Remote).

Lemma exec_bind {A B : Type} (t : Task A) (f : A -> Task B) (w : World) :
  exec remote (bind t f) w =
  match exec remote t w with
  | (Fulfilled a, w') => exec remote (f a) w'
  | (Rejected e, w') => (Rejected e, w')
  end.
Proof.
  revert w; induction t as [a | e | k IH | req k IH]; intros w; simpl; auto.
Qed.

Lemma exec_try_catch {A : Type} (t : Task A) (h : Exn -> Task A) (w : World) :
  exec remote (try_catch t h) w =
  match exec remote t w with
  | (Fulfilled a, w') => (Fulfilled a, w')
  | (Rejected e, w') => exec remote (h e) w'
  end.
Proof.
  revert w; induction t as [a | e | k IH | req k IH]; intros w; simpl; auto.
Qed.

Lemma exec_lift {A : Type} (r : Settled A) (w : World) :
  exec remote (lift r) w = (r, w).
Proof. destruct r; reflexivity. Qed.

Lemma getJiraConfig_exec (w : World) :
  exec remote getJiraConfig w =
  if configured (process_env w)
  then (Fulfilled {| JIRA_BASE_URL := env_or_empty (process_env w) "JIRA_BASE_URL";
                     JIRA_EMAIL := env_or_empty (process_env w) "JIRA_EMAIL";
                     JIRA_API_TOKEN := env_or_empty (process_env w) "JIRA_API_TOKEN" |}, w)
  else (Rejected (Error config_missing), w).
Proof.
  unfold getJiraConfig, configured; simpl.
  destruct (env_or_empty (process_env w) "JIRA_BASE_URL" =? "");
    destruct (env_or_empty (process_env w) "JIRA_EMAIL" =? "");
    destruct (env_or_empty (process_env w) "JIRA_API_TOKEN" =? ""); reflexivity.
Qed.

(** Without a complete configuration the request layer throws before it
    reaches [fetch]. *)
Lemma jiraRequest_unconfigured (path : string) (options : RequestInit) (w : World) :
  configured (process_env w) = false ->
  exec remote (jiraRequest path options) w = (Rejected (Error config_missing), w).
Proof.
  intros H. unfold jiraRequest.
  rewrite exec_bind, getJiraConfig_exec, H. reflexivity.
Qed.

(** With a complete configuration the request layer hands exactly one
    request to the network and settles from its reply. *)
Lemma jiraRequest_configured (path : string) (options : RequestInit) (w : World) :
  configured (process_env w) = true ->
  exists req,
    url req = env_or_empty (process_env w) "JIRA_BASE_URL" ++ path
    /\ method (init req) =
       match method options with
       | Some m => if m =? "" then None else Some m
       | None => None
       end
    /\ body (init req) =
       (if typeof_string (body options) || instanceof_Buffer (body options)
           || instanceof_Uint8Array (body options)
        then body options else BodyJs JUndefined)
    /\ exec remote (jiraRequest path options) w =
       (received (settled (remote (List.length (sent w)) req)),
        {| process_env := env_after (remote (List.length (sent w)) req);
           sent := (sent w ++ [req])%list |}).
Proof.
  intros H. unfold jiraRequest.
  rewrite exec_bind, getJiraConfig_exec, H.
  cbv beta iota zeta. unfold fetch.
  cbn [bind JIRA_BASE_URL JIRA_EMAIL JIRA_API_TOKEN].
  match goal with |- context [Fetch ?r _] => exists r end.
  split; [reflexivity |].
  split; [cbn [init method]; destruct (body options) as [[] | | | |]; reflexivity |].
  split; [cbn [init]; destruct (body options) as [[] | | | |]; reflexivity |].
  cbn [exec]. unfold received.
  match goal with
  | |- context [settled ?reply] =>
      rewrite (exec_bind (lift (settled reply))), exec_lift;
      destruct (settled reply) as [res | e]; [| reflexivity]
  end.
  destruct (ok res); cbn [negb]; [apply exec_lift | reflexivity].
Qed.

End Exec.

(** ** The request layer *)

(** An issue key that cannot be rendered fails the call before the
    configuration is looked at: without a token, [getIssue] of a key with an
    own [toString] rejects with the TypeError of the conversion, not with
    the configuration error. *)
Lemma getIssue_renders_the_key_first :
  env_get "JIRA_API_TOKEN" [("JIRA_BASE_URL", "https://your-domain.atlassian.net");
                            ("JIRA_EMAIL", "your-email@example.com")] = None
  /\ call (answering created_PROJ_1 sample_env)
       (jiraApi.getIssue (JObj [("toString", JInt 1)]))
       [("JIRA_BASE_URL", "https://your-domain.atlassian.net");
        ("JIRA_EMAIL", "your-email@example.com")]
     = (Rejected TypeError_convert, []).
Proof. split; reflexivity. Qed.

(** C6. If any of the three configuration values (base URL,
    account identifier, secret token) is absent from the environment, each
    of the six API client operations rejects and sends nothing, whatever
    the remote would answer: [createIssue] and [listIssues] with the
    configuration error for every argument, and [getIssue], [addWorklog],
    [updateIssue] and [deleteIssue] with the configuration error for every
    issue key that renders as text (every string does).  A key that does not
    render makes these four reject with the TypeError of the conversion
    instead, still before anything is sent. *)
Theorem api_client_needs_configuration :
  forall (remote : Remote) (env : Env),
    env_get "JIRA_BASE_URL" env = None \/ env_get "JIRA_EMAIL" env = None
    \/ env_get "JIRA_API_TOKEN" env = None ->
    (forall issueKey key,
        to_string issueKey = Fulfilled key ->
        call remote (jiraApi.getIssue issueKey) env
        = (Rejected (Error config_missing), []))
    /\ (forall input,
        call remote (jiraApi.createIssue input) env
        = (Rejected (Error config_missing), []))
    /\ (forall issueKey timeSpent comment key,
        to_string issueKey = Fulfilled key ->
        call remote (jiraApi.addWorklog issueKey timeSpent comment) env
        = (Rejected (Error config_missing), []))
    /\ (forall issueIdOrKey fields key,
        to_string issueIdOrKey = Fulfilled key ->
        call remote (jiraApi.updateIssue issueIdOrKey fields) env
        = (Rejected (Error config_missing), []))
    /\ (forall issueIdOrKey key,
        to_string issueIdOrKey = Fulfilled key ->
        call remote (jiraApi.deleteIssue issueIdOrKey) env
        = (Rejected (Error config_missing), []))
    /\ (forall jql maxResults,
        call remote (jiraApi.listIssues jql maxResults) env
        = (Rejected (Error config_missing), []))
    /\ (forall issueKey timeSpent comment fields e,
        to_string issueKey = Rejected e ->
        call remote (jiraApi.getIssue issueKey) env = (Rejected e, [])
        /\ call remote (jiraApi.addWorklog issueKey timeSpent comment) env
           = (Rejected e, [])
        /\ call remote (jiraApi.updateIssue issueKey fields) env = (Rejected e, [])
        /\ call remote (jiraApi.deleteIssue issueKey) env = (Rejected e, [])).
Proof.
  intros remote env Habsent.
  assert (Hc : configured env = false).
  { unfold configured, env_or_empty.
    destruct Habsent as [H | [H | H]]; rewrite H; simpl;
      repeat rewrite ?andb_false_r, ?andb_false_l; reflexivity. }
  assert (Hreq : forall path options,
             call remote (jiraRequest path options) env
             = (Rejected (Error config_missing), [])).
  { intros path options. unfold call.
    rewrite jiraRequest_unconfigured by exact Hc. reflexivity. }
  split; [| split; [| split; [| split; [| split; [| split]]]]].
  - intros issueKey key Hkey. unfold jiraApi.getIssue. rewrite Hkey. apply Hreq.
  - intros input. apply Hreq.
  - intros issueKey timeSpent comment key Hkey. unfold jiraApi.addWorklog.
    rewrite Hkey. apply Hreq.
  - intros issueIdOrKey fields key Hkey. unfold jiraApi.updateIssue.
    rewrite Hkey. apply Hreq.
  - intros issueIdOrKey key Hkey. unfold jiraApi.deleteIssue.
    rewrite Hkey. apply Hreq.
  - intros jql maxResults. apply Hreq.
  - intros issueKey timeSpent comment fields e He.
    unfold jiraApi.getIssue, jiraApi.addWorklog, jiraApi.updateIssue,
      jiraApi.deleteIssue.
    rewrite He. repeat split.
Qed.

Lemma api_client_needs_configuration_witness :
  env_get "JIRA_API_TOKEN" [("JIRA_BASE_URL", "https://your-domain.atlassian.net");
                            ("JIRA_EMAIL", "your-email@example.com")] = None
  /\ call (answering created_PROJ_1 sample_env)
       (jiraApi.addWorklog (JStr "PROJ-123") (JStr "2h") JUndefined)
       [("JIRA_BASE_URL", "https://your-domain.atlassian.net");
        ("JIRA_EMAIL", "your-email@example.com")]
     = (Rejected (Error config_missing), []).
Proof.
  split; [reflexivity |].
  apply (proj1 (proj2 (proj2
           (api_client_needs_configuration (answering created_PROJ_1 sample_env)
              [("JIRA_BASE_URL", "https://your-domain.atlassian.net");
               ("JIRA_EMAIL", "your-email@example.com")]
              (or_intror (or_intror eq_refl)))))
           (JStr "PROJ-123") (JStr "2h") JUndefined "PROJ-123" eq_refl).
Defined.

(** C9. With the configuration in place the request layer sends exactly one
    request whatever body it was given, and that request carries a body if
    and only if the given body is a string, a Buffer or a Uint8Array, in
    which case it is the given body unchanged; any other value (null, an
    object, a number, an ArrayBuffer, URLSearchParams) is dropped and the
    request goes out without a body. *)
Theorem request_body_attached_iff_string_or_binary :
  forall (remote : Remote) (env : Env) (path : string) (options : RequestInit),
    configured env = true ->
    exists req,
      snd (call remote (jiraRequest path options) env) = [req]
      /\ (has_body req <-> string_or_binary (body options))
      /\ (has_body req -> body (init req) = body options)
      /\ (~ string_or_binary (body options) -> body (init req) = BodyJs JUndefined).
Proof.
  intros remote env path options Hc.
  destruct (jiraRequest_configured remote path options
              {| process_env := env; sent := [] |} Hc)
    as (req & _ & _ & Hbody & Hexec).
  exists req. unfold call. rewrite Hexec. cbn [snd sent app].
  split; [reflexivity |]. unfold has_body, string_or_binary. rewrite Hbody.
  destruct (body options) as [[] | | | |]; cbn; body_case.
Qed.

Lemma request_body_attached_iff_string_or_binary_witness :
  configured sample_env = true
  /\ exists req,
      snd (call (answering created_PROJ_1 sample_env)
             (jiraRequest "/rest/api/3/issue"
                {| method := Some "POST"; headers := None;
                   body := BodyJs (JObj [("fields", JObj [])]) |})
             sample_env) = [req]
      /\ (has_body req <-> string_or_binary (BodyJs (JObj [("fields", JObj [])])))
      /\ (has_body req -> body (init req) = BodyJs (JObj [("fields", JObj [])]))
      /\ (~ string_or_binary (BodyJs (JObj [("fields", JObj [])])) ->
          body (init req) = BodyJs JUndefined).
Proof.
  split; [reflexivity |].
  apply (request_body_attached_iff_string_or_binary
           (answering created_PROJ_1 sample_env) sample_env "/rest/api/3/issue"
           {| method := Some "POST"; headers := None;
              body := BodyJs (JObj [("fields", JObj [])]) |}).
  reflexivity.
Defined.

(** ** Commands that validate their input *)

Lemma contains_intro (before sub after : string) :
  contains sub (before ++ sub ++ after).
Proof. exists before, after. reflexivity. Qed.

Lemma append_assoc (a b c : string) : (a ++ b) ++ c = a ++ (b ++ c).
Proof. induction a as [| ch a IH]; simpl; [reflexivity | now rewrite IH]. Qed.

(** [transitionIssue.run] has no [try]: an issue key that cannot be
    rendered into the message makes the returned promise reject. *)
Lemma transitionIssue_rejects_unrenderable_key :
  invoke TransitionIssue
    [("issueIdOrKey", JObj [("toString", JInt 1)]); ("transitionId", JStr "31")]
    (answering (respond 404 JNull) sample_env) sample_env
  = (Rejected TypeError_convert, []).
Proof. reflexivity. Qed.

(** C5. Whatever the input object, the remote service and the environment,
    [transitionIssue.run] sends nothing.  When the issue key and the
    transition id it was given render as text, it returns
    [{success: true, message}] where the message contains both renderings;
    in particular, for a string key [k] and a string id [t] the message is
    [Transitioned issue k to transition t (placeholder)].  When one of
    them does not render, the promise rejects with the TypeError of the
    conversion. *)
Theorem transitionIssue_is_a_placeholder :
  forall (input : Obj) (remote : Remote) (env : Env),
    snd (invoke TransitionIssue input remote env) = []
    /\ (forall key transition,
           to_string (obj_get "issueIdOrKey" input) = Fulfilled key ->
           to_string (obj_get "transitionId" input) = Fulfilled transition ->
           exists m,
             fst (invoke TransitionIssue input remote env)
             = Fulfilled (JObj [("success", JBool true); ("message", JStr m)])
             /\ contains key m
             /\ contains transition m)
    /\ (forall k t,
           obj_get "issueIdOrKey" input = JStr k ->
           obj_get "transitionId" input = JStr t ->
           fst (invoke TransitionIssue input remote env)
           = Fulfilled
               (JObj [("success", JBool true);
                      ("message",
                       JStr ("Transitioned issue " ++ k ++ " to transition " ++ t
                             ++ " (placeholder)"))]))
    /\ (forall e,
           to_string (obj_get "issueIdOrKey" input) = Rejected e
           \/ ((exists key, to_string (obj_get "issueIdOrKey" input) = Fulfilled key)
               /\ to_string (obj_get "transitionId" input) = Rejected e) ->
           fst (invoke TransitionIssue input remote env) = Rejected e).
Proof.
  intros input remote env. cbn [invoke]. unfold commands.transitionIssue.run.
  split; [| split; [| split]].
  - destruct (to_string (obj_get "issueIdOrKey" input)) as [key | e];
      [| reflexivity].
    destruct (to_string (obj_get "transitionId" input)); reflexivity.
  - intros key transition -> ->. eexists. split; [reflexivity |]. split.
    + apply contains_intro.
    + rewrite <- append_assoc, <- append_assoc. apply contains_intro.
  - intros k t -> ->. reflexivity.
  - intros e [-> | ((key & ->) & ->)]; reflexivity.
Qed.

Lemma transitionIssue_is_a_placeholder_witness :
  snd (invoke TransitionIssue [("issueIdOrKey", JStr "PROJ-123"); ("transitionId", JStr "31")]
         (answering (respond 404 JNull) sample_env) []) = []
  /\ fst (invoke TransitionIssue
            [("issueIdOrKey", JStr "PROJ-123"); ("transitionId", JStr "31")]
            (answering (respond 404 JNull) sample_env) [])
     = Fulfilled
         (JObj [("success", JBool true);
                ("message",
                 JStr "Transitioned issue PROJ-123 to transition 31 (placeholder)")])
  /\ exists m,
      fst (invoke TransitionIssue
             [("issueIdOrKey", JInt 10001); ("transitionId", JInt 31)]
             (answering (respond 404 JNull) sample_env) [])
      = Fulfilled (JObj [("success", JBool true); ("message", JStr m)])
      /\ contains "10001" m
      /\ contains "31" m.
Proof.
  split; [| split].
  - exact (proj1 (transitionIssue_is_a_placeholder
                    [("issueIdOrKey", JStr "PROJ-123"); ("transitionId", JStr "31")]
                    (answering (respond 404 JNull) sample_env) [])).
  - exact (proj1 (proj2 (proj2 (transitionIssue_is_a_placeholder
                    [("issueIdOrKey", JStr "PROJ-123"); ("transitionId", JStr "31")]
                    (answering (respond 404 JNull) sample_env) [])))
             "PROJ-123" "31" eq_refl eq_refl).
  - exact (proj1 (proj2 (transitionIssue_is_a_placeholder
                    [("issueIdOrKey", JInt 10001); ("transitionId", JInt 31)]
                    (answering (respond 404 JNull) sample_env) []))
             "10001" "31" eq_refl eq_refl).
Defined.

(** C8. [batchCreateIssues.run] given no projectKey, no issues field, an
    issues field that is not an array, or an empty issues array returns the
    single object [{error: true, message}], not a list, and sends
    nothing. *)
Theorem batchCreateIssues_rejects_missing_input :
  forall (input : Obj) (remote : Remote) (env : Env),
    obj_get "projectKey" input = JUndefined
    \/ obj_get "issues" input = JUndefined
    \/ isArray (obj_get "issues" input) = false
    \/ obj_get "issues" input = JArr [] ->
    invoke BatchCreateIssues input remote env
    = (Fulfilled (error_message "Missing projectKey or issues array is empty"), []).
Proof.
  intros input remote env H. cbn [invoke]. unfold commands.batchCreateIssues.run.
  destruct H as [H | [H | [H | H]]]; rewrite H; cbn.
  - reflexivity.
  - now rewrite orb_true_r.
  - now rewrite orb_true_r.
  - now rewrite orb_true_r.
Qed.

Lemma batchCreateIssues_rejects_missing_input_witness :
  (obj_get "projectKey" [("projectKey", JStr "PROJ"); ("issues", JStr "Task 1")] = JUndefined
   \/ obj_get "issues" [("projectKey", JStr "PROJ"); ("issues", JStr "Task 1")] = JUndefined
   \/ isArray (obj_get "issues" [("projectKey", JStr "PROJ"); ("issues", JStr "Task 1")]) = false
   \/ obj_get "issues" [("projectKey", JStr "PROJ"); ("issues", JStr "Task 1")] = JArr [])
  /\ invoke BatchCreateIssues [("projectKey", JStr "PROJ"); ("issues", JStr "Task 1")]
       (answering created_PROJ_1 sample_env) sample_env
     = (Fulfilled (error_message "Missing projectKey or issues array is empty"), []).
Proof.
  assert (H : obj_get "projectKey" [("projectKey", JStr "PROJ"); ("issues", JStr "Task 1")] = JUndefined
              \/ obj_get "issues" [("projectKey", JStr "PROJ"); ("issues", JStr "Task 1")] = JUndefined
              \/ isArray (obj_get "issues" [("projectKey", JStr "PROJ"); ("issues", JStr "Task 1")]) = false
              \/ obj_get "issues" [("projectKey", JStr "PROJ"); ("issues", JStr "Task 1")] = JArr [])
    by (right; right; left; reflexivity).
  split; [exact H |].
  exact (batchCreateIssues_rejects_missing_input _ (answering created_PROJ_1 sample_env)
           sample_env H).
Defined.

Lemma blank_falsy (v : JsVal) : blank v -> falsy v = true.
Proof. intros [-> | ->]; reflexivity. Qed.

(** C10. The required-field checks go by truthiness, so an empty string is
    treated like an absent field: [createIssue.run] with projectKey, summary
    or issueType absent or equal to the empty string, [logWork.run] with
    issueKey or timeSpent absent or empty, and [batchCreateIssues.run] with
    projectKey absent or empty each return [{error: true, message}] and
    send nothing. *)
Theorem empty_string_counts_as_missing :
  forall (input : Obj) (remote : Remote) (env : Env),
    (blank (obj_get "projectKey" input) \/ blank (obj_get "summary" input)
     \/ blank (obj_get "issueType" input) ->
     invoke CreateIssue input remote env
     = (Fulfilled (error_message "Missing required fields: projectKey, summary, or issueType"), []))
    /\ (blank (obj_get "issueKey" input) \/ blank (obj_get "timeSpent" input) ->
        invoke LogWork input remote env
        = (Fulfilled (error_message "Missing required fields: issueKey or timeSpent"), []))
    /\ (blank (obj_get "projectKey" input) ->
        invoke BatchCreateIssues input remote env
        = (Fulfilled (error_message "Missing projectKey or issues array is empty"), [])).
Proof.
  intros input remote env. repeat split.
  - intros H. cbn [invoke]. unfold commands.createIssue.run.
    destruct H as [H | [H | H]]; rewrite (blank_falsy _ H);
      rewrite ?orb_true_r; reflexivity.
  - intros H. cbn [invoke]. unfold commands.logWork.run.
    destruct H as [H | H]; rewrite (blank_falsy _ H);
      rewrite ?orb_true_r; reflexivity.
  - intros H. cbn [invoke]. unfold commands.batchCreateIssues.run.
    rewrite (blank_falsy _ H). reflexivity.
Qed.

Lemma empty_string_counts_as_missing_witness :
  invoke CreateIssue
    [("projectKey", JStr "PROJ"); ("summary", JStr ""); ("issueType", JStr "Task")]
    (answering created_PROJ_1 sample_env) sample_env
  = (Fulfilled (error_message "Missing required fields: projectKey, summary, or issueType"), [])
  /\ invoke LogWork [("issueKey", JStr "PROJ-123"); ("timeSpent", JStr "")]
       (answering created_PROJ_1 sample_env) sample_env
     = (Fulfilled (error_message "Missing required fields: issueKey or timeSpent"), [])
  /\ invoke BatchCreateIssues
       [("projectKey", JStr ""); ("issues", JArr [JObj [("summary", JStr "Task 1")]])]
       (answering created_PROJ_1 sample_env) sample_env
     = (Fulfilled (error_message "Missing projectKey or issues array is empty"), []).
Proof.
  split; [| split].
  - apply (proj1 (empty_string_counts_as_missing
                    [("projectKey", JStr "PROJ"); ("summary", JStr ""); ("issueType", JStr "Task")]
                    (answering created_PROJ_1 sample_env) sample_env)).
    right; left; right; reflexivity.
  - apply (proj1 (proj2 (empty_string_counts_as_missing
                           [("issueKey", JStr "PROJ-123"); ("timeSpent", JStr "")]
                           (answering created_PROJ_1 sample_env) sample_env))).
    right; right; reflexivity.
  - apply (proj2 (proj2 (empty_string_counts_as_missing
                           [("projectKey", JStr "");
                            ("issues", JArr [JObj [("summary", JStr "Task 1")]])]
                           (answering created_PROJ_1 sample_env) sample_env))).
    right; reflexivity.
Defined.

(** ** Creating an issue *)

(** C4. When the required fields are given, the configuration is in place
    and the remote create answers 2xx with an object whose key is [k]:
    if the configuration is still complete when the command resumes, the
    result is [{key: k, url: baseURL ++ "/browse/" ++ k}] with the base URL
    read at that point; if it is no longer complete, the result is
    [{error: true, message}] with the configuration error, although the
    issue was created. *)
Theorem createIssue_returns_key_and_url :
  forall (input : Obj) (remote : Remote) (env env' : Env) (res : Response)
         (issue : Obj) (k : string),
    truthy (obj_get "projectKey" input) = true ->
    truthy (obj_get "summary" input) = true ->
    truthy (obj_get "issueType" input) = true ->
    configured env = true ->
    (forall req, remote 0 req = {| settled := Fulfilled res; env_after := env' |}) ->
    ok res = true ->
    json res = Fulfilled (JObj issue) ->
    obj_get "key" issue = JStr k ->
    (configured env' = true ->
     fst (invoke CreateIssue input remote env)
     = Fulfilled (JObj [("key", JStr k);
                        ("url", JStr (env_or_empty env' "JIRA_BASE_URL"
                                      ++ "/browse/" ++ k))]))
    /\ (configured env' = false ->
        fst (invoke CreateIssue input remote env)
        = Fulfilled (error_message config_missing)).
Proof.
  intros input remote env env' res issue k Hp Hs Ht Hc Hremote Hok Hjson Hkey.
  assert (Hrun : forall r,
             exec remote (bind getJiraConfig (fun cfg =>
                 Ret (JObj [("key", JStr k);
                            ("url", JStr (JIRA_BASE_URL cfg ++ "/browse/" ++ k))])))
               {| process_env := env'; sent := r |}
             = if configured env'
               then (Fulfilled (JObj [("key", JStr k);
                            ("url", JStr (env_or_empty env' "JIRA_BASE_URL"
                                          ++ "/browse/" ++ k))]),
                     {| process_env := env'; sent := r |})
               else (Rejected (Error config_missing),
                     {| process_env := env'; sent := r |})).
  { intros r. rewrite exec_bind, getJiraConfig_exec. cbn [process_env].
    destruct (configured env'); reflexivity. }
  cbn [invoke]. unfold call, commands.createIssue.run, falsy.
  rewrite Hp, Hs, Ht. cbn [negb orb].
  rewrite exec_try_catch, exec_bind. unfold jiraApi.createIssue. cbv zeta.
  match goal with
  | |- context [jiraRequest ?path ?options] =>
      destruct (jiraRequest_configured remote path options
                  {| process_env := env; sent := [] |} Hc)
        as (req & _ & _ & _ & Hexec)
  end.
  rewrite Hexec. cbn [sent List.length]. rewrite Hremote.
  cbn [settled env_after received]. rewrite Hok, Hjson.
  rewrite exec_bind. cbn [get_prop lift exec]. rewrite Hkey. cbn [to_string].
  rewrite Hrun.
  split; intros H; rewrite H; reflexivity.
Qed.

Lemma createIssue_returns_key_and_url_witness :
  fst (invoke CreateIssue
         [("projectKey", JStr "PROJ"); ("summary", JStr "Test Ticket");
          ("issueType", JStr "Task")]
         (answering created_PROJ_1 sample_env) sample_env)
  = Fulfilled (JObj [("key", JStr "PROJ-1");
                     ("url", JStr "https://your-domain.atlassian.net/browse/PROJ-1")])
  /\ fst (invoke CreateIssue
            [("projectKey", JStr "PROJ"); ("summary", JStr "Test Ticket");
             ("issueType", JStr "Task")]
            (answering created_PROJ_1 []) sample_env)
     = Fulfilled (error_message config_missing).
Proof.
  split.
  - apply (proj1 (createIssue_returns_key_and_url
                    [("projectKey", JStr "PROJ"); ("summary", JStr "Test Ticket");
                     ("issueType", JStr "Task")]
                    (answering created_PROJ_1 sample_env) sample_env sample_env
                    created_PROJ_1 [("key", JStr "PROJ-1")] "PROJ-1"
                    eq_refl eq_refl eq_refl eq_refl (fun _ => eq_refl)
                    eq_refl eq_refl eq_refl)).
    reflexivity.
  - apply (proj2 (createIssue_returns_key_and_url
                    [("projectKey", JStr "PROJ"); ("summary", JStr "Test Ticket");
                     ("issueType", JStr "Task")]
                    (answering created_PROJ_1 []) sample_env []
                    created_PROJ_1 [("key", JStr "PROJ-1")] "PROJ-1"
                    eq_refl eq_refl eq_refl eq_refl (fun _ => eq_refl)
                    eq_refl eq_refl eq_refl)).
    reflexivity.
Defined.

(** ** Logging work *)

(** A comment that is supplied but empty is not sent, and an issue key
    that cannot be rendered stops the command before it sends anything. *)
Lemma logWork_leaves_out_an_empty_comment :
  map (fun req => body (init req))
    (snd (invoke LogWork
            [("issueKey", JStr "PROJ-123"); ("timeSpent", JStr "2h");
             ("comment", JStr "")]
            (answering created_PROJ_1 sample_env) sample_env))
  = [BodyJs (JStr ("{" ++ dquote ++ "timeSpent" ++ dquote ++ ":"
                   ++ dquote ++ "2h" ++ dquote ++ "}"))]
  /\ invoke LogWork
       [("issueKey", JObj [("toString", JInt 1)]); ("timeSpent", JStr "2h")]
       (answering created_PROJ_1 sample_env) sample_env
     = (Fulfilled (error_message "Cannot convert object to primitive value"), []).
Proof. split; reflexivity. Qed.

(** C7. With an issue key that renders as text (every non-empty string
    does), a time-spent value and the configuration in place, [logWork.run]
    sends one request, to the worklog of the issue, whose body is the JSON
    text of an object: with no comment, or an empty one, the object has the
    single field timeSpent; with a non-empty comment it has timeSpent
    followed by comment.  When the remote answers 2xx with a JSON body the
    command returns [{success: true, message}]. *)
Theorem logWork_sends_timeSpent_and_comment :
  forall (input : Obj) (remote : Remote) (env : Env) (key : string),
    truthy (obj_get "issueKey" input) = true ->
    to_string (obj_get "issueKey" input) = Fulfilled key ->
    truthy (obj_get "timeSpent" input) = true ->
    configured env = true ->
    exists req,
      snd (invoke LogWork input remote env) = [req]
      /\ url req = env_or_empty env "JIRA_BASE_URL" ++ "/rest/api/3/issue/"
                   ++ key ++ "/worklog"
      /\ (truthy (obj_get "comment" input) = false ->
          exists s,
            stringify (JObj [("timeSpent", obj_get "timeSpent" input)]) = Some s
            /\ body (init req) = BodyJs (JStr s))
      /\ (truthy (obj_get "comment" input) = true ->
          exists s,
            stringify (JObj [("timeSpent", obj_get "timeSpent" input);
                             ("comment", obj_get "comment" input)]) = Some s
            /\ body (init req) = BodyJs (JStr s))
      /\ (forall res v,
            settled (remote 0 req) = Fulfilled res ->
            ok res = true ->
            json res = Fulfilled v ->
            fst (invoke LogWork input remote env)
            = Fulfilled (JObj [("success", JBool true);
                               ("message", JStr ("Worklog added to " ++ key))])).
Proof.
  intros input remote env key Hk Hrender Ht Hc.
  cbn [invoke]. unfold call, commands.logWork.run, falsy.
  rewrite Hk, Ht. cbn [negb orb].
  unfold jiraApi.addWorklog. cbv zeta. rewrite Hrender. cbn [lift bind].
  rewrite exec_try_catch, exec_bind.
  match goal with
  | |- context [jiraRequest ?path ?options] =>
      destruct (jiraRequest_configured remote path options
                  {| process_env := env; sent := [] |} Hc)
        as (req & Hurl & _ & Hbody & Hexec)
  end.
  exists req. rewrite Hexec. cbn [sent List.length process_env] in *.
  split; [| split; [| split; [| split]]].
  - destruct (received (settled (remote 0 req))); reflexivity.
  - rewrite Hurl. reflexivity.
  - intros Hcomment. rewrite Hbody. unfold set_if. rewrite Hcomment.
    eexists; split; reflexivity.
  - intros Hcomment. rewrite Hbody. unfold set_if. rewrite Hcomment.
    eexists; split; reflexivity.
  - intros res v Hres Hok Hjson. unfold received. rewrite Hres, Hok, Hjson.
    reflexivity.
Qed.

Lemma logWork_sends_timeSpent_and_comment_witness :
  (exists req,
      snd (invoke LogWork [("issueKey", JStr "PROJ-123"); ("timeSpent", JStr "2h")]
             (answering created_PROJ_1 sample_env) sample_env) = [req]
      /\ url req = "https://your-domain.atlassian.net/rest/api/3/issue/PROJ-123/worklog"
      /\ body (init req)
         = BodyJs (JStr ("{" ++ dquote ++ "timeSpent" ++ dquote ++ ":"
                         ++ dquote ++ "2h" ++ dquote ++ "}"))
      /\ fst (invoke LogWork [("issueKey", JStr "PROJ-123"); ("timeSpent", JStr "2h")]
                (answering created_PROJ_1 sample_env) sample_env)
         = Fulfilled (JObj [("success", JBool true);
                            ("message", JStr "Worklog added to PROJ-123")]))
  /\ (exists req,
         snd (invoke LogWork
                [("issueKey", JStr "PROJ-123"); ("timeSpent", JStr "30m");
                 ("comment", JStr "Worked on bugfix")]
                (answering created_PROJ_1 sample_env) sample_env) = [req]
         /\ body (init req)
            = BodyJs (JStr ("{" ++ dquote ++ "timeSpent" ++ dquote ++ ":"
                            ++ dquote ++ "30m" ++ dquote ++ ","
                            ++ dquote ++ "comment" ++ dquote ++ ":"
                            ++ dquote ++ "Worked on bugfix" ++ dquote ++ "}"))).
Proof.
  split.
  - destruct (logWork_sends_timeSpent_and_comment
                [("issueKey", JStr "PROJ-123"); ("timeSpent", JStr "2h")]
                (answering created_PROJ_1 sample_env) sample_env "PROJ-123"
                eq_refl eq_refl eq_refl eq_refl)
      as (req & Hlog & Hurl & Hnone & _ & Hdone).
    exists req. split; [exact Hlog |]. split; [exact Hurl |]. split.
    + destruct (Hnone eq_refl) as (s & Hs & Hb).
      rewrite Hb. injection Hs as <-. reflexivity.
    + exact (Hdone created_PROJ_1 (JObj [("key", JStr "PROJ-1")])
               eq_refl eq_refl eq_refl).
  - destruct (logWork_sends_timeSpent_and_comment
                [("issueKey", JStr "PROJ-123"); ("timeSpent", JStr "30m");
                 ("comment", JStr "Worked on bugfix")]
                (answering created_PROJ_1 sample_env) sample_env "PROJ-123"
                eq_refl eq_refl eq_refl eq_refl)
      as (req & Hlog & _ & _ & Hsome & _).
    exists req. split; [exact Hlog |].
    destruct (Hsome eq_refl) as (s & Hs & Hb).
    rewrite Hb. injection Hs as <-. reflexivity.
Defined.

(** ** Fetching an issue *)

Section Flatten.

Import commands.getIssueDetails.

Lemma join_strings (sep : string) (l : list string) :
  join sep (map JStr l) = Fulfilled (String.concat sep l).
Proof.
  unfold join.
  assert (H : map_settled join_element (map JStr l) = Fulfilled l).
  { induction l as [| x l IH]; cbn; [reflexivity | now rewrite IH]. }
  now rewrite H.
Qed.

Lemma text_nodes_read (nodes : list JsVal) (texts : list string) :
  Forall2 text_node nodes texts ->
  map_settled (fun t => get_prop t "text") nodes = Fulfilled (map JStr texts).
Proof.
  induction 1 as [| t s nodes texts (o & -> & Ht) _ IH]; cbn.
  - reflexivity.
  - rewrite Ht, IH. reflexivity.
Qed.

Lemma block_text_joins (c : JsVal) (texts : list string) :
  content_block c texts ->
  block_text c = Fulfilled (JStr (String.concat " " texts)).
Proof.
  intros (o & nodes & -> & Hc & Hn). unfold block_text.
  cbn [get_prop settled_bind]. rewrite Hc. cbn [nullish as_array settled_bind].
  rewrite (text_nodes_read _ _ Hn). cbn [settled_bind].
  now rewrite join_strings.
Qed.

Lemma blocks_read (cs : list JsVal) (blocks : list (list string)) :
  Forall2 content_block cs blocks ->
  map_settled block_text cs
  = Fulfilled (map JStr (map (String.concat " ") blocks)).
Proof.
  induction 1 as [| c texts cs blocks Hc _ IH]; cbn.
  - reflexivity.
  - rewrite (block_text_joins _ _ Hc), IH. reflexivity.
Qed.

Lemma description_text_flattens (fields : Obj) (blocks : list (list string)) :
  rich_document (obj_get "description" fields) blocks ->
  description_text (JObj fields)
  = Fulfilled (JStr (String.concat newline (map (String.concat " ") blocks))).
Proof.
  intros (o & cs & Hd & Hc & Hb). unfold description_text.
  cbn [get_prop settled_bind]. rewrite Hd. cbn [get_prop_opt get_prop].
  rewrite Hc. cbn [truthy settled_bind as_array].
  rewrite (blocks_read _ _ Hb). cbn [settled_bind].
  now rewrite join_strings.
Qed.

Lemma description_text_absent (fields : Obj) :
  nullish (obj_get "description" fields) = true ->
  description_text (JObj fields) = Fulfilled JNull.
Proof.
  intros H. unfold description_text. cbn [get_prop settled_bind].
  destruct (obj_get "description" fields); try discriminate H; reflexivity.
Qed.

Lemma subtask_refs_read (refs : list JsVal) :
  Forall (fun s => nullish s = false) refs ->
  exists l, map_settled subtask_ref refs = Fulfilled l.
Proof.
  induction 1 as [| s refs Hs _ (l & IH)]; cbn.
  - eexists; reflexivity.
  - rewrite IH. destruct s; try discriminate Hs; eexists; reflexivity.
Qed.

Lemma subtasks_read (v : JsVal) :
  subtask_list v ->
  exists l,
    settled_bind (as_array (js_or v (JArr [])) "(fields.subtasks || [])")
      (map_settled subtask_ref) = Fulfilled l.
Proof.
  intros [H | (refs & -> & H)].
  - unfold js_or, falsy in *. destruct (truthy v); [discriminate H |].
    eexists; reflexivity.
  - cbn. apply subtask_refs_read, H.
Qed.

(** Once the issue has arrived as an object with a fields object and a
    well-formed subtask list, the projection succeeds and its description is
    what [description_text] gives. *)
Lemma project_description (data fields : Obj) (d : JsVal) :
  obj_get "fields" data = JObj fields ->
  subtask_list (obj_get "subtasks" fields) ->
  description_text (JObj fields) = Fulfilled d ->
  exists out,
    project (JObj data) = Fulfilled (JObj out) /\ obj_get "description" out = d.
Proof.
  intros Hf Hs Hd. unfold project.
  cbn [get_prop settled_bind]. rewrite Hf. cbn [js_or truthy get_prop settled_bind].
  rewrite Hd. cbn [settled_bind].
  destruct (subtasks_read _ Hs) as (l & Hl).
  unfold settled_bind in Hl |- *.
  destruct (as_array (js_or (obj_get "subtasks" fields) (JArr [])) _);
    [| discriminate Hl].
  rewrite Hl. eexists; split; reflexivity.
Qed.

End Flatten.

(** ** [Promise.all] over calls that await once *)

Section PromiseAll.

Context {A : Type}.

Lemma exec_ext (remote remote' : Remote) (t : Task A) (w : World) :
  (forall n req, remote n req = remote' n req) ->
  exec remote t w = exec remote' t w.
Proof.
  intros Hext. revert w.
  induction t as [a | e | k IH | req k IH]; intros w; cbn; auto.
  rewrite Hext. apply IH.
Qed.

(** A task that never fetches settles the same way whatever the remote and
    the log, and leaves the world alone. *)
Lemma exec_sync (t : Task A) :
  sync t ->
  forall (remote remote' : Remote) (env : Env) (l l' : list Request),
    exec remote t {| process_env := env; sent := l |}
    = (fst (exec remote' t {| process_env := env; sent := l' |}),
       {| process_env := env; sent := l |}).
Proof.
  induction 1 as [a | e | k _ IH]; intros remote remote' env l l'; cbn.
  - reflexivity.
  - reflexivity.
  - apply IH.
Qed.

Lemma start_one_shot (t : Task A) (env : Env) :
  one_shot t ->
  (awaits t env = false
   /\ exists r,
       (forall log, start t env log = (Done r, log))
       /\ (forall remote l,
              exec remote t {| process_env := env; sent := l |}
              = (r, {| process_env := env; sent := l |})))
  \/ (awaits t env = true
      /\ exists req k,
          (forall log,
              start t env log = (Waiting (List.length log) req k, (log ++ [req])%list))
          /\ (forall r, sync (k r))
          /\ (forall remote l,
                 exec remote t {| process_env := env; sent := l |}
                 = exec remote (k (settled (remote (List.length l) req)))
                     {| process_env := env_after (remote (List.length l) req);
                        sent := (l ++ [req])%list |})).
Proof.
  induction 1 as [a | e | k _ IH | req k Hk]; cbn.
  - left. split; [reflexivity |]. eexists; split; reflexivity.
  - left. split; [reflexivity |]. eexists; split; reflexivity.
  - apply IH.
  - right. split; [reflexivity |]. exists req, k. repeat split; auto.
Qed.

Lemma call_fst (remote : Remote) (t : Task A) (env : Env) :
  fst (call remote t env)
  = fst (exec remote t {| process_env := env; sent := [] |}).
Proof. unfold call. destruct (exec remote t _). reflexivity. Qed.

Lemma start_all_cons (t : Task A) (rest : list (Task A)) (env : Env)
    (log : list Request) :
  fst (start_all (t :: rest) env log)
  = fst (start t env log) :: fst (start_all rest env (snd (start t env log))).
Proof.
  cbn [start_all]. destruct (start t env log) as [p log1]. cbn [fst snd].
  destruct (start_all rest env log1) as [ps log2]. reflexivity.
Qed.

Lemma resume_all_cons (remote : Remote) (p : Pending A) (ps : list (Pending A))
    (L : list Request) :
  resume_all remote (p :: ps) L
  = (fst (resume remote p L) :: fst (resume_all remote ps (snd (resume remote p L))),
     snd (resume_all remote ps (snd (resume remote p L)))).
Proof.
  cbn [resume_all]. destruct (resume remote p L) as [r l1]. cbn [fst snd].
  destruct (resume_all remote ps l1) as [rs l2]. reflexivity.
Qed.

(** Started together and resumed each with its own reply, one-shot tasks
    settle exactly as each would on its own. *)
Lemma resume_all_one_shot (remote : Remote) (env : Env) (tasks : list (Task A)) :
  Forall one_shot tasks ->
  forall (log L : list Request),
    resume_all remote (fst (start_all tasks env log)) L
    = (settle_each remote env tasks (List.length log), L).
Proof.
  induction 1 as [| t rest Ht _ IH]; intros log L.
  - reflexivity.
  - rewrite start_all_cons, resume_all_cons. cbn [settle_each].
    destruct (start_one_shot t env Ht)
      as [(Ha & r & Hstart & Hexec) | (Ha & req & k & Hstart & Hk & Hexec)];
      rewrite Ha, Hstart; cbn [fst snd resume].
    + rewrite IH, call_fst, Hexec. reflexivity.
    + rewrite (exec_sync _ (Hk _) remote (alone remote (List.length log)) _ L [req]).
      cbn [fst snd sent]. rewrite IH, length_app, Nat.add_1_r.
      rewrite call_fst, Hexec. reflexivity.
Qed.

Lemma promise_all_one_shot (remote : Remote) (env : Env) (tasks : list (Task A)) :
  Forall one_shot tasks ->
  fst (promise_all remote tasks env) = all_settled (settle_each remote env tasks 0).
Proof.
  intros H. unfold promise_all.
  pose proof (resume_all_one_shot remote env tasks H [] ) as Hr.
  destruct (start_all tasks env []) as [ps log1]. cbn [fst] in Hr.
  rewrite Hr. reflexivity.
Qed.

Lemma all_settled_fulfilled (rs : list (Settled A)) :
  Forall (fun r => exists a, r = Fulfilled a) rs ->
  exists vs, all_settled rs = Fulfilled vs /\ map Fulfilled vs = rs.
Proof.
  induction 1 as [| r rs (a & ->) _ (vs & IH & Hmap)]; cbn.
  - exists []. split; reflexivity.
  - rewrite IH. exists (a :: vs). split; [reflexivity |]. cbn. now rewrite Hmap.
Qed.

(** When every task awaits, the [i]-th task gets the [i]-th reply. *)
Lemma settle_each_nth (remote : Remote) (env : Env) (tasks : list (Task A)) :
  Forall (fun t => awaits t env = true) tasks ->
  forall (n i : nat) (t : Task A),
    nth_error tasks i = Some t ->
    nth_error (settle_each remote env tasks n) i
    = Some (fst (call (alone remote (n + i)) t env)).
Proof.
  induction 1 as [| t0 rest Ht0 _ IH]; intros n i t Hi.
  - destruct i; discriminate Hi.
  - destruct i as [| i]; cbn in Hi |- *.
    + injection Hi as ->. now rewrite Nat.add_0_r.
    + rewrite Ht0, (IH (S n) i t Hi). now rewrite Nat.add_succ_r.
Qed.

(** When no task awaits, every task settles without the remote. *)
Lemma settle_each_nth_sync (remote : Remote) (env : Env) (tasks : list (Task A)) :
  Forall one_shot tasks ->
  Forall (fun t => awaits t env = false) tasks ->
  forall (n i m : nat) (t : Task A),
    nth_error tasks i = Some t ->
    nth_error (settle_each remote env tasks n) i
    = Some (fst (call (alone remote m) t env)).
Proof.
  intros Hos Haw. revert Hos.
  induction Haw as [| t0 rest Ht0 _ IH]; intros Hos n i m t Hi.
  - destruct i; discriminate Hi.
  - inversion Hos as [| ? ? Hos0 Hos']; subst.
    destruct i as [| i]; cbn in Hi |- *.
    + injection Hi as ->.
      destruct (start_one_shot t env Hos0)
        as [(_ & r & _ & Hexec) | (Ha & _)]; [| congruence].
      now rewrite !call_fst, !Hexec.
    + rewrite Ht0. apply (IH Hos' n i m t Hi).
Qed.

End PromiseAll.

(** ** Which tasks await at most once *)

Lemma sync_lift {A : Type} (r : Settled A) : sync (lift r).
Proof. destruct r; constructor. Qed.

Lemma sync_one_shot {A : Type} (t : Task A) : sync t -> one_shot t.
Proof. induction 1; constructor; auto. Qed.

Section Shapes.

Context {A : Type}.

Lemma sync_bind {B : Type} (t : Task A) (f : A -> Task B) :
  sync t -> (forall a, sync (f a)) -> sync (bind t f).
Proof.
  intros Ht Hf. induction Ht as [a | e | k _ IH]; cbn.
  - apply Hf.
  - constructor.
  - constructor. exact IH.
Qed.

Lemma sync_try_catch (t : Task A) (h : Exn -> Task A) :
  sync t -> (forall e, sync (h e)) -> sync (try_catch t h).
Proof.
  intros Ht Hh. induction Ht as [a | e | k _ IH]; cbn.
  - constructor.
  - apply Hh.
  - constructor. exact IH.
Qed.

Lemma one_shot_bind {B : Type} (t : Task A) (f : A -> Task B) :
  one_shot t -> (forall a, sync (f a)) -> one_shot (bind t f).
Proof.
  intros Ht Hf. induction Ht as [a | e | k _ IH | req k Hk]; cbn.
  - apply sync_one_shot, Hf.
  - constructor.
  - constructor. exact IH.
  - constructor. intros r. apply sync_bind; auto.
Qed.

Lemma one_shot_after_sync {B : Type} (t : Task A) (f : A -> Task B) :
  sync t -> (forall a, one_shot (f a)) -> one_shot (bind t f).
Proof.
  intros Ht Hf. induction Ht as [a | e | k _ IH]; cbn.
  - apply Hf.
  - constructor.
  - constructor. exact IH.
Qed.

Lemma one_shot_try_catch (t : Task A) (h : Exn -> Task A) :
  one_shot t -> (forall e, sync (h e)) -> one_shot (try_catch t h).
Proof.
  intros Ht Hh. induction Ht as [a | e | k _ IH | req k Hk]; cbn.
  - constructor.
  - apply sync_one_shot, Hh.
  - constructor. exact IH.
  - constructor. intros r. apply sync_try_catch; auto.
Qed.

End Shapes.

Lemma getJiraConfig_sync : sync getJiraConfig.
Proof.
  unfold getJiraConfig. constructor. intros env.
  destruct (_ || _); constructor.
Qed.

Lemma jiraRequest_one_shot (path : string) (options : RequestInit) :
  one_shot (jiraRequest path options).
Proof.
  unfold jiraRequest. apply one_shot_after_sync; [apply getJiraConfig_sync |].
  intros cfg. cbv zeta. apply one_shot_bind.
  - unfold fetch. constructor. intros r. apply sync_lift.
  - intros res. destruct (negb (ok res)); [constructor | apply sync_lift].
Qed.

Section BatchItem.

Import commands.batchCreateIssues.

Context (projectKey issue : JsVal).

Lemma get_prop_present (name : string) :
  nullish issue = false -> get_prop issue name = Fulfilled (get_prop_opt issue name).
Proof. destruct issue; intros H; try discriminate H; reflexivity. Qed.

Lemma create_one_one_shot : one_shot (create_one projectKey issue).
Proof.
  unfold create_one. apply one_shot_try_catch.
  - repeat (apply one_shot_after_sync; [apply sync_lift | intros ?]).
    apply one_shot_bind; [apply jiraRequest_one_shot |].
    intros created. apply sync_bind; [apply sync_lift |].
    intros key. apply sync_bind; [apply getJiraConfig_sync |].
    intros cfg. apply sync_bind; [apply sync_lift | intros; constructor].
  - intros e. apply sync_bind; [apply sync_lift | intros; constructor].
Qed.

(** For an item that is not null, the callback is the create call wrapped
    in its [try]/[catch]. *)
Lemma create_one_unfold :
  nullish issue = false ->
  create_one projectKey issue
  = try_catch
      (bind (jiraApi.createIssue (item_payload projectKey issue)) (fun created =>
       bind (lift (get_prop created "key")) (fun key =>
       bind getJiraConfig (fun cfg =>
       bind (lift (to_string key)) (fun shown =>
       Ret (JObj [("key", key);
                  ("url", JStr (JIRA_BASE_URL cfg ++ "/browse/" ++ shown));
                  ("success", JBool true)]))))))
      (fun e => Ret (JObj [("error", JBool true);
                           ("message", JStr (message e));
                           ("summary", get_prop_opt issue "summary")])).
Proof.
  intros H. unfold create_one, item_payload.
  rewrite !(get_prop_present _ H). reflexivity.
Qed.

Lemma create_one_fulfilled (remote : Remote) (w : World) :
  nullish issue = false ->
  exists v, fst (exec remote (create_one projectKey issue) w) = Fulfilled v.
Proof.
  intros H. rewrite (create_one_unfold H), exec_try_catch.
  destruct (exec remote _ w) as [[v | e] w']; eexists; reflexivity.
Qed.

(** A create call that rejects is answered, for its item, by the error
    object that carries the item's summary. *)
Lemma create_one_failure (remote : Remote) (w : World) (e : Exn) :
  nullish issue = false ->
  fst (exec remote (jiraApi.createIssue (item_payload projectKey issue)) w)
  = Rejected e ->
  fst (exec remote (create_one projectKey issue) w)
  = Fulfilled (JObj [("error", JBool true);
                     ("message", JStr (message e));
                     ("summary", get_prop_opt issue "summary")]).
Proof.
  intros H Hcreate. rewrite (create_one_unfold H), exec_try_catch, exec_bind.
  destruct (exec remote (jiraApi.createIssue _) w) as [[v | e'] w'];
    cbn [fst] in Hcreate; [discriminate Hcreate |].
  injection Hcreate as ->. reflexivity.
Qed.

Lemma create_one_awaits (env : Env) :
  nullish issue = false ->
  awaits (create_one projectKey issue) env = configured env.
Proof.
  intros H. rewrite (create_one_unfold H).
  unfold jiraApi.createIssue, jiraRequest, getJiraConfig, configured.
  cbn [bind try_catch awaits].
  destruct (env_or_empty env "JIRA_BASE_URL" =? "");
    destruct (env_or_empty env "JIRA_EMAIL" =? "");
    destruct (env_or_empty env "JIRA_API_TOKEN" =? ""); reflexivity.
Qed.

End BatchItem.

(** ** Creating issues in batch *)

Lemma settle_each_length {A : Type} (remote : Remote) (env : Env)
    (tasks : list (Task A)) (n : nat) :
  List.length (settle_each remote env tasks n) = List.length tasks.
Proof.
  revert n. induction tasks as [| t rest IH]; intros n; cbn; [reflexivity |].
  now rewrite IH.
Qed.

Lemma settle_each_Forall {A : Type} (P : Settled A -> Prop) (remote : Remote)
    (env : Env) (tasks : list (Task A)) (n : nat) :
  Forall (fun t => forall remote', P (fst (call remote' t env))) tasks ->
  Forall P (settle_each remote env tasks n).
Proof.
  intros H. revert n. induction H as [| t rest Ht _ IH]; intros n; cbn.
  - constructor.
  - constructor; [apply Ht | apply IH].
Qed.

Section Batch.

Import commands.batchCreateIssues.

Context (input : Obj) (env : Env) (items : list JsVal).
Context (Hkey : truthy (obj_get "projectKey" input) = true).
Context (Hissues : obj_get "issues" input = JArr items).
Context (Hitems : items <> []).
Context (Hpresent : Forall (fun issue => nullish issue = false) items).

(** The batch settles to the list of what each callback settles to on its
    own with the reply at its position. *)
Lemma batch_outcomes (remote : Remote) :
  exists outcomes,
    fst (invoke BatchCreateIssues input remote env) = Fulfilled (JArr outcomes)
    /\ List.length outcomes = List.length items
    /\ forall i issue,
        nth_error items i = Some issue ->
        exists v,
          nth_error outcomes i = Some v
          /\ fst (call (alone remote i)
                    (create_one (obj_get "projectKey" input) issue) env)
             = Fulfilled v.
Proof.
  set (pk := obj_get "projectKey" input).
  set (tasks := map (create_one pk) items).
  assert (Hshot : Forall one_shot tasks).
  { apply Forall_map, Forall_forall. intros issue _. apply create_one_one_shot. }
  assert (Hful : Forall (fun r => exists v, r = Fulfilled v)
                   (settle_each remote env tasks 0)).
  { apply settle_each_Forall, Forall_map.
    eapply Forall_impl; [| exact Hpresent].
    intros issue Hi remote'. rewrite call_fst. now apply create_one_fulfilled. }
  destruct (all_settled_fulfilled _ Hful) as (outcomes & Hall & Hmap).
  exists outcomes. split; [| split].
  - cbn [invoke]. unfold run, falsy. rewrite Hissues, Hkey. cbn [negb isArray orb elements].
    destruct items as [| i0 rest]; [contradiction Hitems; reflexivity |].
    cbn [List.length Nat.eqb].
    fold pk. fold tasks.
    pose proof (promise_all_one_shot remote env tasks Hshot) as Hp.
    destruct (promise_all remote tasks env) as [results log]. cbn [fst] in Hp |- *.
    rewrite Hp, Hall. reflexivity.
  - rewrite <- (length_map Fulfilled outcomes), Hmap, settle_each_length.
    apply length_map.
  - intros i issue Hi.
    assert (Ht : nth_error tasks i = Some (create_one pk issue)).
    { unfold tasks. rewrite nth_error_map, Hi. reflexivity. }
    assert (Hr : nth_error (settle_each remote env tasks 0) i
                 = Some (fst (call (alone remote i) (create_one pk issue) env))).
    { destruct (configured env) eqn:Hc.
      - apply (settle_each_nth remote env tasks) with (n := 0); [| exact Ht].
        apply Forall_map. eapply Forall_impl; [| exact Hpresent].
        intros x Hx. cbv beta. now rewrite create_one_awaits.
      - apply settle_each_nth_sync; [exact Hshot | | exact Ht].
        apply Forall_map. eapply Forall_impl; [| exact Hpresent].
        intros x Hx. cbv beta. now rewrite create_one_awaits. }
    rewrite <- Hmap, nth_error_map in Hr.
    destruct (nth_error outcomes i) as [v |]; [| discriminate Hr].
    exists v. split; [reflexivity |]. cbn in Hr. now injection Hr as <-.
Qed.

End Batch.

(** A list with a null item makes the whole batch reject, whatever the
    other items are: the [catch] block of the callback reads [issue.summary]
    again.  And without a project key the batch returns one error object,
    not a list. *)
Lemma batchCreateIssues_rejects_a_list_with_null :
  fst (invoke BatchCreateIssues
         [("projectKey", JStr "PROJ");
          ("issues", JArr [JObj [("summary", JStr "Task 1"); ("issueType", JStr "Task")];
                           JNull])]
         (answering created_PROJ_1 sample_env) sample_env)
  = Rejected (TypeError_read JNull "summary")
  /\ fst (invoke BatchCreateIssues
            [("issues", JArr [JObj [("summary", JStr "Task 1");
                                    ("issueType", JStr "Task")]])]
            (answering created_PROJ_1 sample_env) sample_env)
     = Fulfilled (error_message "Missing projectKey or issues array is empty").
Proof. split; reflexivity. Qed.

(** C2. For a project key and a non-empty list of issue items none of
    which is null or undefined, [batchCreateIssues.run] does not throw and
    returns a list with one outcome per item, in item order: the outcome at
    position [i] is what the create callback produces for item [i] with the
    reply to request [i].  If the create call of item [i] fails with [e],
    that outcome is [{error: true, message: e.message, summary}] with the
    item's summary.  Changing the reply to one item leaves the outcome of
    every other item as it was. *)
Theorem batchCreateIssues_isolates_items :
  forall (input : Obj) (remote : Remote) (env : Env) (items : list JsVal),
    truthy (obj_get "projectKey" input) = true ->
    obj_get "issues" input = JArr items ->
    items <> [] ->
    Forall (fun issue => nullish issue = false) items ->
    exists outcomes,
      fst (invoke BatchCreateIssues input remote env) = Fulfilled (JArr outcomes)
      /\ List.length outcomes = List.length items
      /\ (forall i issue,
             nth_error items i = Some issue ->
             exists v,
               nth_error outcomes i = Some v
               /\ fst (call (alone remote i)
                         (commands.batchCreateIssues.create_one
                            (obj_get "projectKey" input) issue) env)
                  = Fulfilled v
               /\ forall e,
                   fst (call (alone remote i)
                          (jiraApi.createIssue
                             (item_payload (obj_get "projectKey" input) issue)) env)
                   = Rejected e ->
                   v = JObj [("error", JBool true);
                             ("message", JStr (message e));
                             ("summary", get_prop_opt issue "summary")])
      /\ (forall remote' i,
             (forall n req, n <> i -> remote' n req = remote n req) ->
             exists outcomes',
               fst (invoke BatchCreateIssues input remote' env)
               = Fulfilled (JArr outcomes')
               /\ forall j, j <> i -> nth_error outcomes' j = nth_error outcomes j).
Proof.
  intros input remote env items Hkey Hissues Hitems Hpresent.
  destruct (batch_outcomes input env items Hkey Hissues Hitems Hpresent remote)
    as (outcomes & Hrun & Hlen & Hnth).
  exists outcomes. split; [exact Hrun |]. split; [exact Hlen |]. split.
  - intros i issue Hi. destruct (Hnth i issue Hi) as (v & Hv & Hone).
    exists v. split; [exact Hv |]. split; [exact Hone |].
    intros e He.
    assert (Hp : nullish issue = false).
    { rewrite Forall_forall in Hpresent. apply Hpresent.
      eapply nth_error_In, Hi. }
    rewrite call_fst in He, Hone.
    rewrite (create_one_failure _ _ _ _ e Hp He) in Hone.
    now injection Hone as <-.
  - intros remote' i Hagree.
    destruct (batch_outcomes input env items Hkey Hissues Hitems Hpresent remote')
      as (outcomes' & Hrun' & Hlen' & Hnth').
    exists outcomes'. split; [exact Hrun' |].
    intros j Hj. destruct (nth_error items j) as [issue |] eqn:Hitem.
    + destruct (Hnth j issue Hitem) as (v & Hv & Hone).
      destruct (Hnth' j issue Hitem) as (v' & Hv' & Hone').
      rewrite Hv, Hv'. f_equal.
      rewrite call_fst in Hone, Hone'.
      rewrite (exec_ext (alone remote' j) (alone remote j)) in Hone'
        by (intros n req; unfold alone; now apply Hagree).
      rewrite Hone in Hone'. now injection Hone' as <-.
    + apply nth_error_None in Hitem.
      rewrite (proj2 (nth_error_None outcomes j)) by now rewrite Hlen.
      now rewrite (proj2 (nth_error_None outcomes' j)) by now rewrite Hlen'.
Qed.

Lemma batchCreateIssues_isolates_items_witness :
  exists outcomes,
    fst (invoke BatchCreateIssues sample_batch first_refused sample_env)
    = Fulfilled (JArr outcomes)
    /\ List.length outcomes = 2
    /\ nth_error outcomes 0
       = Some (JObj [("error", JBool true);
                     ("message", JStr "Jira API error: 500 remote said no");
                     ("summary", JStr "Task 1")])
    /\ nth_error outcomes 1
       = Some (JObj [("key", JStr "PROJ-1");
                     ("url", JStr "https://your-domain.atlassian.net/browse/PROJ-1");
                     ("success", JBool true)]).
Proof.
  destruct (batchCreateIssues_isolates_items sample_batch first_refused sample_env
              (elements (obj_get "issues" sample_batch)) eq_refl eq_refl
              ltac:(discriminate)
              ltac:(repeat constructor))
    as (outcomes & Hrun & Hlen & Hnth & _).
  exists outcomes. split; [exact Hrun |]. split; [exact Hlen |]. split.
  - destruct (Hnth 0 _ eq_refl) as (v & Hv & _ & Hfail).
    rewrite Hv. f_equal.
    apply (Hfail (Error "Jira API error: 500 remote said no")). reflexivity.
  - destruct (Hnth 1 _ eq_refl) as (v & Hv & Hone & _).
    rewrite Hv. f_equal.
    assert (H : Fulfilled v
                = Fulfilled (JObj [("key", JStr "PROJ-1");
                                   ("url", JStr "https://your-domain.atlassian.net/browse/PROJ-1");
                                   ("success", JBool true)]))
      by (rewrite <- Hone; reflexivity).
    now injection H.
Defined.

(** ** Required fields across the command table *)

(** The commands whose [run] checks required fields do so before anything
    else: with a required field absent or empty, [createIssue],
    [createTask], [logWork] and [batchCreateIssues] return
    [{error: true, message}] and send nothing. *)
Lemma checked_commands_reject_missing_field :
  forall (c : CommandName) (field : string) (input : Obj) (remote : Remote) (env : Env),
    c = CreateIssue \/ c = CreateTask \/ c = LogWork
    \/ (c = BatchCreateIssues /\ field = "projectKey") ->
    In field (required c) ->
    blank (obj_get field input) ->
    exists msg, invoke c input remote env = (Fulfilled (error_message msg), []).
Proof.
  intros c field input remote env Hc Hin Hblank.
  apply blank_falsy in Hblank.
  destruct Hc as [-> | [-> | [-> | [-> ->]]]]; cbn in Hin.
  - unfold invoke, call, commands.createIssue.run.
    destruct Hin as [<- | [<- | [<- | []]]]; rewrite Hblank, ?orb_true_r;
      eexists; reflexivity.
  - unfold invoke, call, commands.createTask.run, commands.createIssue.run.
    cbn [obj_get String.eqb Ascii.eqb Bool.eqb].
    destruct Hin as [<- | [<- | [<- | []]]]; rewrite Hblank, ?orb_true_r;
      eexists; reflexivity.
  - unfold invoke, call, commands.logWork.run.
    destruct Hin as [<- | [<- | []]]; rewrite Hblank, ?orb_true_r;
      eexists; reflexivity.
  - unfold invoke, commands.batchCreateIssues.run. rewrite Hblank.
    eexists; reflexivity.
Qed.

(** C1 (the code departs from it).  [getIssueDetails] declares
    [issueIdOrKey] required but its [run] checks nothing: called with no
    field at all, it asks the remote for the issue named "undefined", and
    with a 2xx reply it returns the projected issue, not an error.
    [updateTask] and [deleteTask] go to the network the same way. *)
Theorem getIssueDetails_without_key_reaches_the_network :
  In "issueIdOrKey" (required GetIssueDetails)
  /\ obj_get "issueIdOrKey" [] = JUndefined
  /\ invoke GetIssueDetails []
       (answering (respond 200 (JObj sample_issue)) sample_env) sample_env
     = (Fulfilled
          (JObj [("key", JStr "PROJ-123");
                 ("summary", JStr "Test Ticket");
                 ("status", JUndefined);
                 ("assignee", JNull);
                 ("description", JStr ("a b" ++ newline ++ "c"));
                 ("epicLink", JNull);
                 ("subtasks", JArr [])]),
        [{| url := "https://your-domain.atlassian.net/rest/api/3/issue/undefined";
            init :=
              {| method := None;
                 headers :=
                   Some [("Authorization",
                          "Basic " ++ base64 "your-email@example.com:your-jira-api-token");
                         ("Accept", "application/json")];
                 body := BodyJs JUndefined |} |}])
  /\ (exists req,
         snd (invoke GetIssueDetails [("issueIdOrKey", JStr "")]
                (answering (respond 200 (JObj sample_issue)) sample_env) sample_env)
         = [req]
         /\ url req = "https://your-domain.atlassian.net/rest/api/3/issue/")
  /\ (exists req,
         snd (invoke UpdateTask []
                (answering (respond 204 JNull) sample_env) sample_env) = [req]
         /\ url req = "https://your-domain.atlassian.net/rest/api/3/issue/undefined"
         /\ method (init req) = Some "PUT")
  /\ (exists req,
         snd (invoke DeleteTask []
                (answering (respond 204 JNull) sample_env) sample_env) = [req]
         /\ url req = "https://your-domain.atlassian.net/rest/api/3/issue/undefined"
         /\ method (init req) = Some "DELETE").
Proof.
  split; [left; reflexivity |]. split; [reflexivity |]. split; [reflexivity |].
  split; [eexists; split; reflexivity |].
  split; eexists; (split; [reflexivity | split; reflexivity]).
Qed.

(** ** The built-ins on small inputs *)

Example base64_basic_auth :
  base64 "user@example.com:secret" = "dXNlckBleGFtcGxlLmNvbTpzZWNyZXQ=".
Proof. reflexivity. Qed.

Example stringify_skips_undefined :
  stringify (JObj [("timeSpent", JStr "2h"); ("comment", JUndefined);
                   ("n", JArr [JInt 5; JUndefined]); ("q", JStr dquote)])
  = Some ("{" ++ dquote ++ "timeSpent" ++ dquote ++ ":" ++ dquote ++ "2h" ++ dquote
          ++ "," ++ dquote ++ "n" ++ dquote ++ ":[5,null],"
          ++ dquote ++ "q" ++ dquote ++ ":" ++ dquote ++ "\" ++ dquote ++ dquote ++ "}").
Proof. reflexivity. Qed.

Example stringify_prints_array_indices_first :
  stringify (JObj [("b", JInt 1); ("10", JInt 2); ("9", JInt 3); ("01", JInt 4)])
  = Some ("{" ++ dquote ++ "9" ++ dquote ++ ":3," ++ dquote ++ "10" ++ dquote ++ ":2,"
          ++ dquote ++ "b" ++ dquote ++ ":1," ++ dquote ++ "01" ++ dquote ++ ":4}").
Proof. reflexivity. Qed.

Example join_renders_null_as_nothing :
  join "," [JStr "a"; JNull; JUndefined; JInt 7; JArr [JBool true; JStr "b"]]
  = Fulfilled "a,,,7,true,b".
Proof. reflexivity. Qed.

Example to_string_of_objects :
  to_string (JObj [("key", JStr "PROJ-1")]) = Fulfilled "[object Object]"
  /\ to_string (JObj [("toString", JNull)]) = Rejected TypeError_convert
  /\ to_string (JArr [JInt (-3); JObj [("toString", JStr "x")]])
     = Rejected TypeError_convert.
Proof. repeat split. Qed.

(** ** What a command sends *)

Section Sending.

Context {A : Type}.

(** A task that never fetches leaves the world as it found it. *)
Lemma exec_sync_world (remote : Remote) (t : Task A) (w : World) :
  sync t -> snd (exec remote t w) = w.
Proof.
  intros H. destruct w as [env l].
  now rewrite (exec_sync t H remote remote env l l).
Qed.

Lemma start_log (t : Task A) (env : Env) (log : list Request) :
  snd (start t env log) = (log ++ first_request t env)%list.
Proof.
  induction t as [a | e | k IH | req k _]; cbn; auto using app_nil_r.
Qed.

Lemma start_all_log (tasks : list (Task A)) (env : Env) (log : list Request) :
  snd (start_all tasks env log)
  = (log ++ flat_map (fun t => first_request t env) tasks)%list.
Proof.
  revert log. induction tasks as [| t rest IH]; intros log; cbn [start_all flat_map].
  - now rewrite app_nil_r.
  - pose proof (start_log t env log) as Ht.
    destruct (start t env log) as [p log1]. cbn [snd] in Ht. subst log1.
    specialize (IH (log ++ first_request t env)%list).
    destruct (start_all rest env _) as [ps log2]. cbn [snd] in IH |- *.
    now rewrite IH, app_assoc.
Qed.

(** What a one-shot task sends is decided before any reply arrives. *)
Lemma exec_one_shot_log (remote : Remote) (t : Task A) (env : Env)
    (l : list Request) :
  one_shot t ->
  sent (snd (exec remote t {| process_env := env; sent := l |}))
  = (l ++ first_request t env)%list.
Proof.
  induction 1 as [a | e | k _ IH | req k Hk]; cbn.
  - now rewrite app_nil_r.
  - now rewrite app_nil_r.
  - apply IH.
  - now rewrite (exec_sync_world _ _ _ (Hk _)).
Qed.

Lemma call_snd (remote : Remote) (t : Task A) (env : Env) :
  snd (call remote t env)
  = sent (snd (exec remote t {| process_env := env; sent := [] |})).
Proof. unfold call. destruct (exec remote t _). reflexivity. Qed.

Lemma call_one_shot_log (remote : Remote) (t : Task A) (env : Env) :
  one_shot t -> snd (call remote t env) = first_request t env.
Proof. intros H. now rewrite call_snd, exec_one_shot_log. Qed.

(** [Promise.all] over one-shot tasks sends what the tasks send first, in
    task order, and nothing else. *)
Lemma promise_all_log (remote : Remote) (tasks : list (Task A)) (env : Env) :
  Forall one_shot tasks ->
  snd (promise_all remote tasks env)
  = flat_map (fun t => first_request t env) tasks.
Proof.
  intros H. unfold promise_all.
  pose proof (resume_all_one_shot remote env tasks H []) as Hr.
  pose proof (start_all_log tasks env []) as Hs.
  destruct (start_all tasks env []) as [ps log1]. cbn [fst snd] in Hr, Hs.
  rewrite Hr. cbn [snd]. exact Hs.
Qed.

(** A [try] whose handler returns never lets a rejection out. *)
Lemma exec_catch_all (remote : Remote) (t : Task A) (g : Exn -> A) (w : World) :
  exists v, fst (exec remote (try_catch t (fun e => Ret (g e))) w) = Fulfilled v.
Proof.
  rewrite exec_try_catch.
  destruct (exec remote t w) as [[a | e] w']; eexists; reflexivity.
Qed.

End Sending.

(** The request the request layer builds depends on the configuration, the
    path and the options only; the reply decides how the call settles. *)
Lemma jiraRequest_sends (path : string) (options : RequestInit) (env : Env) :
  configured env = true ->
  exists req,
    url req = env_or_empty env "JIRA_BASE_URL" ++ path
    /\ method (init req) =
       match method options with
       | Some m => if m =? "" then None else Some m
       | None => None
       end
    /\ body (init req) =
       (if typeof_string (body options) || instanceof_Buffer (body options)
           || instanceof_Uint8Array (body options)
        then body options else BodyJs JUndefined)
    /\ headers (init req) =
       Some (obj_assign (base_headers env)
               (match headers options with Some h => h | None => [] end))
    /\ forall (remote : Remote) (l : list Request),
        exec remote (jiraRequest path options) {| process_env := env; sent := l |}
        = (received (settled (remote (List.length l) req)),
           {| process_env := env_after (remote (List.length l) req);
              sent := (l ++ [req])%list |}).
Proof.
  intros Hc.
  set (quiet := (fun _ _ => {| settled := Rejected (Error ""); env_after := env |})
                : Remote).
  destruct (jiraRequest_configured quiet path options
              {| process_env := env; sent := [] |} Hc)
    as (req & Hurl & Hmethod & Hbody & Hexec).
  assert (Hfirst : first_request (jiraRequest path options) env = [req]).
  { pose proof (exec_one_shot_log quiet _ env [] (jiraRequest_one_shot path options))
      as Hlog.
    rewrite Hexec in Hlog. cbn [snd sent app] in Hlog. now symmetry. }
  exists req. split; [exact Hurl |]. split; [exact Hmethod |]. split; [exact Hbody |].
  split.
  - revert Hfirst. unfold jiraRequest, getJiraConfig. cbn [bind first_request].
    unfold configured in Hc.
    destruct (env_or_empty env "JIRA_BASE_URL" =? ""); [discriminate Hc |].
    destruct (env_or_empty env "JIRA_EMAIL" =? ""); [discriminate Hc |].
    destruct (env_or_empty env "JIRA_API_TOKEN" =? ""); [discriminate Hc |].
    cbn [orb bind fetch first_request JIRA_BASE_URL JIRA_EMAIL JIRA_API_TOKEN].
    unfold fetch. cbn [bind first_request].
    intros Hreq. injection Hreq as <-.
    destruct (body options) as [[] | | | |]; reflexivity.
  - intros remote l.
    destruct (jiraRequest_configured remote path options
                {| process_env := env; sent := l |} Hc)
      as (req' & _ & _ & _ & Hexec').
    pose proof (exec_one_shot_log remote _ env l (jiraRequest_one_shot path options))
      as Hlog.
    rewrite Hexec', Hfirst in Hlog. cbn [snd sent] in Hlog.
    apply app_inv_head in Hlog. injection Hlog as ->. exact Hexec'.
Qed.

Create HintDb sync_db.
#[local] Hint Resolve sync_lift getJiraConfig_sync sync_bind : sync_db.
#[local] Hint Constructors sync : sync_db.
#[local] Hint Extern 1 (sync _) => progress cbv beta : sync_db.

Section Guarded.

Context (path : string) (options : RequestInit).
Context (f : JsVal -> Task JsVal) (g : Exn -> JsVal) (env : Env).
Context (Hf : forall a, sync (f a)).

(** Without a complete configuration a guarded request sends nothing and
    settles to what the handler makes of the configuration error. *)
Lemma guarded_unconfigured (remote : Remote) :
  configured env = false ->
  call remote (try_catch (bind (jiraRequest path options) f) (fun e => Ret (g e))) env
  = (Fulfilled (g (Error config_missing)), []).
Proof.
  intros Hc. unfold call. rewrite exec_try_catch, exec_bind.
  rewrite jiraRequest_unconfigured by exact Hc. reflexivity.
Qed.

(** With it, one request goes out; a failed call settles to what the
    handler makes of the failure, a successful one to what the rest of the
    [try] makes of the parsed body. *)
Lemma guarded_configured :
  configured env = true ->
  exists req,
    url req = env_or_empty env "JIRA_BASE_URL" ++ path
    /\ method (init req) =
       match method options with
       | Some m => if m =? "" then None else Some m
       | None => None
       end
    /\ body (init req) =
       (if typeof_string (body options) || instanceof_Buffer (body options)
           || instanceof_Uint8Array (body options)
        then body options else BodyJs JUndefined)
    /\ headers (init req) =
       Some (obj_assign (base_headers env)
               (match headers options with Some h => h | None => [] end))
    /\ forall remote : Remote,
        snd (call remote
               (try_catch (bind (jiraRequest path options) f) (fun e => Ret (g e)))
               env) = [req]
        /\ (forall e,
               received (settled (remote 0 req)) = Rejected e ->
               fst (call remote
                      (try_catch (bind (jiraRequest path options) f)
                         (fun e => Ret (g e))) env)
               = Fulfilled (g e))
        /\ (forall v,
               received (settled (remote 0 req)) = Fulfilled v ->
               fst (call remote
                      (try_catch (bind (jiraRequest path options) f)
                         (fun e => Ret (g e))) env)
               = fst (exec remote (try_catch (f v) (fun e => Ret (g e)))
                        {| process_env := env_after (remote 0 req);
                           sent := [req] |})).
Proof.
  intros Hc.
  destruct (jiraRequest_sends path options env Hc)
    as (req & Hurl & Hmethod & Hbody & Hheaders & Hexec).
  exists req. repeat (split; [assumption |]).
  intros remote. unfold call.
  rewrite exec_try_catch, exec_bind, Hexec. cbn [List.length app].
  destruct (received (settled (remote 0 req))) as [v | e].
  - rewrite <- exec_try_catch.
    pose proof (exec_sync_world remote
                  (try_catch (f v) (fun e => Ret (g e)))
                  {| process_env := env_after (remote 0 req); sent := [req] |}
                  ltac:(apply sync_try_catch; [apply Hf | intros; constructor]))
      as Hw.
    split; [| split].
    + destruct (exec remote (try_catch (f v) _) _) as [r w].
      cbn [snd] in Hw |- *. now subst w.
    + intros e He. discriminate He.
    + intros v' Hv. injection Hv as <-.
      destruct (exec remote (try_catch (f v) _) _) as [r w]. reflexivity.
  - cbn [exec]. split; [reflexivity | split].
    + intros e' He. injection He as <-. reflexivity.
    + intros v Hv. discriminate Hv.
Qed.

(** A guarded request that did go out went out with the configuration in
    place, and the call settles from the reply to it. *)
Lemma guarded_sent (remote : Remote) (req : Request) :
  snd (call remote
         (try_catch (bind (jiraRequest path options) f) (fun e => Ret (g e))) env)
  = [req] ->
  configured env = true
  /\ url req = env_or_empty env "JIRA_BASE_URL" ++ path
  /\ method (init req) =
     match method options with
     | Some m => if m =? "" then None else Some m
     | None => None
     end
  /\ body (init req) =
     (if typeof_string (body options) || instanceof_Buffer (body options)
         || instanceof_Uint8Array (body options)
      then body options else BodyJs JUndefined)
  /\ (forall e,
         received (settled (remote 0 req)) = Rejected e ->
         fst (call remote
                (try_catch (bind (jiraRequest path options) f)
                   (fun e => Ret (g e))) env)
         = Fulfilled (g e))
  /\ (forall v,
         received (settled (remote 0 req)) = Fulfilled v ->
         fst (call remote
                (try_catch (bind (jiraRequest path options) f)
                   (fun e => Ret (g e))) env)
         = fst (exec remote (try_catch (f v) (fun e => Ret (g e)))
                  {| process_env := env_after (remote 0 req);
                     sent := [req] |})).
Proof.
  intros Hlog. destruct (configured env) eqn:Hc.
  - destruct (guarded_configured Hc) as (req0 & Hurl & Hm & Hb & _ & Hrun).
    destruct (Hrun remote) as (Hlog0 & Hfail & Hdone).
    rewrite Hlog0 in Hlog. injection Hlog as <-. repeat split; assumption.
  - rewrite (guarded_unconfigured remote Hc) in Hlog. discriminate Hlog.
Qed.

End Guarded.

(** [transitionIssue] never reaches the network. *)
Lemma transitionIssue_log (input : Obj) (remote : Remote) (env : Env) :
  snd (invoke TransitionIssue input remote env) = [].
Proof.
  cbn [invoke]. unfold commands.transitionIssue.run.
  destruct (to_string (obj_get "issueIdOrKey" input)); [| reflexivity].
  destruct (to_string (obj_get "transitionId" input)); reflexivity.
Qed.

(** Every command but the batch one and the placeholder is a guarded task
    of its input: a key that cannot be rendered is caught by the [try]
    before anything is requested. *)
Lemma invoke_guarded (c : CommandName) (input : Obj) :
  c <> BatchCreateIssues ->
  c <> TransitionIssue ->
  exists t,
    guarded t
    /\ forall (remote : Remote) (env : Env), invoke c input remote env = call remote t env.
Proof.
  intros Hc Ht. destruct c; try contradiction.
  - eexists; split; [| reflexivity].
    unfold commands.getIssueDetails.run, jiraApi.getIssue, no_options.
    destruct (to_string _); cbn [lift bind try_catch]; [| constructor].
    eapply guarded_request; [constructor | auto 20 with sync_db].
  - eexists; split; [| reflexivity].
    unfold commands.createIssue.run.
    destruct (_ || _); [constructor |].
    unfold jiraApi.createIssue. cbv zeta.
    eapply (guarded_request "issue"); [constructor | auto 20 with sync_db].
  - eexists; split; [| reflexivity].
    unfold commands.logWork.run.
    destruct (_ || _); [constructor |].
    unfold jiraApi.addWorklog. cbv zeta.
    destruct (to_string _); cbn [lift bind try_catch]; [| constructor].
    eapply guarded_request; [constructor | auto 20 with sync_db].
  - eexists; split; [| reflexivity].
    unfold commands.createTask.run, commands.createIssue.run.
    destruct (_ || _); [constructor |].
    unfold jiraApi.createIssue. cbv zeta.
    eapply (guarded_request "issue"); [constructor | auto 20 with sync_db].
  - eexists; split; [| reflexivity].
    unfold commands.getTask.run, commands.getIssueDetails.run, jiraApi.getIssue,
      no_options.
    destruct (to_string _); cbn [lift bind try_catch]; [| constructor].
    eapply guarded_request; [constructor | auto 20 with sync_db].
  - eexists; split; [| reflexivity].
    unfold commands.updateTask.run, jiraApi.updateIssue.
    destruct (to_string _); cbn [lift bind try_catch]; [| constructor].
    eapply guarded_request; [constructor | auto 20 with sync_db].
  - eexists; split; [| reflexivity].
    unfold commands.deleteTask.run, jiraApi.deleteIssue.
    destruct (to_string _); cbn [lift bind try_catch]; [| constructor].
    eapply guarded_request; [constructor | auto 20 with sync_db].
  - eexists; split; [| reflexivity].
    unfold commands.listTasks.run, jiraApi.listIssues. cbv zeta.
    eapply (guarded_request "search"); [constructor | auto 20 with sync_db].
Qed.

Lemma first_request_short {A : Type} (t : Task A) (env : Env) :
  List.length (first_request t env) <= 1.
Proof. induction t; cbn; auto. Qed.

Lemma flat_map_short {A B : Type} (f : A -> list B) (l : list A) :
  (forall x, List.length (f x) <= 1) ->
  List.length (flat_map f l) <= List.length l.
Proof.
  intros H. induction l as [| x l IH]; cbn; [lia |].
  rewrite length_app. specialize (H x). lia.
Qed.

Lemma flat_map_nil {A B : Type} (f : A -> list B) (l : list A) :
  (forall x, f x = []) -> flat_map f l = [].
Proof.
  intros H. induction l as [| x l IH]; cbn; [reflexivity |].
  now rewrite H, IH.
Qed.

(** What a guarded request sends, if anything, is addressed to the API of
    the configured site, authenticated, and typed by its body. *)
Lemma request_facts (rest : string) (options : RequestInit)
    (f : JsVal -> Task JsVal) (g : Exn -> JsVal) (env : Env) (remote : Remote) :
  request_options options ->
  (forall a, sync (f a)) ->
  (configured env = false ->
   snd (call remote
          (try_catch (bind (jiraRequest ("/rest/api/3/" ++ rest) options) f)
             (fun e => Ret (g e))) env) = [])
  /\ (forall req,
         In req (snd (call remote
                        (try_catch (bind (jiraRequest ("/rest/api/3/" ++ rest) options) f)
                           (fun e => Ret (g e))) env)) ->
         api_request env req /\ json_or_bare req).
Proof.
  intros Ho Hf. destruct (configured env) eqn:Hc.
  - split; [discriminate |].
    destruct (guarded_configured ("/rest/api/3/" ++ rest) options f g env Hf Hc)
      as (req0 & Hurl & _ & Hbody & Hheaders & Hrun).
    destruct (Hrun remote) as (Hlog & _). rewrite Hlog.
    intros req [<- | []]. split.
    + split; [exact Hc |]. split.
      * exists rest. rewrite Hurl. now rewrite append_assoc.
      * eexists. split; [exact Hheaders |].
        destruct Ho; split; reflexivity.
    + eexists. split; [exact Hheaders |]. rewrite Hbody.
      destruct Ho; [left | right]; split; try reflexivity.
      eexists. reflexivity.
  - rewrite (guarded_unconfigured ("/rest/api/3/" ++ rest) options f g env remote Hc).
    split; [reflexivity |]. intros req [].
Qed.

Section GuardedTasks.

Context (t : Task JsVal) (Ht : guarded t).

Lemma guarded_one_shot : one_shot t.
Proof.
  destruct Ht as [v | rest options f Ho Hf]; [constructor |].
  apply one_shot_try_catch; [| intros; constructor].
  apply one_shot_bind; [apply jiraRequest_one_shot | exact Hf].
Qed.

Lemma guarded_fulfils (remote : Remote) (env : Env) :
  exists v, fst (call remote t env) = Fulfilled v.
Proof.
  rewrite call_fst.
  destruct Ht as [v | rest options f Ho Hf]; [eexists; reflexivity |].
  apply exec_catch_all.
Qed.

Lemma guarded_log (remote : Remote) (env : Env) :
  (configured env = false -> snd (call remote t env) = [])
  /\ (forall req,
         In req (snd (call remote t env)) -> api_request env req /\ json_or_bare req).
Proof.
  destruct Ht as [v | rest options f Ho Hf].
  - split; [reflexivity | intros req []].
  - now apply request_facts.
Qed.

(** A failed call is reported with the failure's own message. *)
Lemma guarded_failure (remote : Remote) (env : Env) (req : Request) (e : Exn) :
  snd (call remote t env) = [req] ->
  received (settled (remote 0 req)) = Rejected e ->
  fst (call remote t env) = Fulfilled (error_result e).
Proof.
  intros Hlog He. destruct Ht as [v | rest options f Ho Hf]; [discriminate Hlog |].
  destruct (configured env) eqn:Hc.
  - destruct (guarded_configured ("/rest/api/3/" ++ rest) options f error_result
                env Hf Hc)
      as (req0 & _ & _ & _ & _ & Hrun).
    destruct (Hrun remote) as (Hlog0 & Hfail & _).
    rewrite Hlog0 in Hlog. injection Hlog as ->. now apply Hfail.
  - rewrite (guarded_unconfigured ("/rest/api/3/" ++ rest) options f error_result
               env remote Hc) in Hlog.
    discriminate Hlog.
Qed.

End GuardedTasks.

Section BatchLog.

Import commands.batchCreateIssues.

Lemma create_one_absent (projectKey issue : JsVal) :
  nullish issue = true ->
  create_one projectKey issue = Throw (TypeError_read issue "summary").
Proof. destruct issue; intros H; try discriminate H; reflexivity. Qed.

Lemma create_one_requests (projectKey issue : JsVal) (env : Env) :
  (configured env = false -> first_request (create_one projectKey issue) env = [])
  /\ (forall req,
         In req (first_request (create_one projectKey issue) env) ->
         api_request env req /\ json_or_bare req).
Proof.
  destruct (nullish issue) eqn:Hn.
  - rewrite (create_one_absent _ _ Hn). split; [reflexivity | intros req []].
  - set (quiet := (fun _ _ => {| settled := Rejected (Error ""); env_after := env |})
                  : Remote).
    rewrite <- (call_one_shot_log quiet _ env (create_one_one_shot projectKey issue)).
    rewrite (create_one_unfold _ _ Hn).
    unfold jiraApi.createIssue. cbv zeta.
    apply (request_facts "issue"); [constructor | auto 20 with sync_db].
Qed.

(** The batch sends what its callbacks send first, item by item; invalid
    input sends nothing. *)
Lemma batch_log (input : Obj) (remote : Remote) (env : Env) :
  snd (invoke BatchCreateIssues input remote env)
  = flat_map (fun issue =>
                first_request (create_one (obj_get "projectKey" input) issue) env)
      (if falsy (obj_get "projectKey" input) || negb (isArray (obj_get "issues" input))
          || (List.length (elements (obj_get "issues" input)) =? 0)%nat
       then [] else elements (obj_get "issues" input)).
Proof.
  cbn [invoke]. unfold run. cbv zeta.
  destruct (_ || _); [reflexivity |].
  pose proof (promise_all_log remote
                (map (create_one (obj_get "projectKey" input))
                   (elements (obj_get "issues" input))) env) as Hlog.
  destruct (promise_all remote _ env) as [results log]. cbn [snd] in Hlog |- *.
  rewrite Hlog.
  - now rewrite flat_map_concat_map, map_map, <- flat_map_concat_map.
  - apply Forall_map, Forall_forall. intros issue _. apply create_one_one_shot.
Qed.

End BatchLog.

(** ** Properties of the whole command table *)

Lemma command_cases (c : CommandName) :
  c = BatchCreateIssues \/ c = TransitionIssue
  \/ (c <> BatchCreateIssues /\ c <> TransitionIssue).
Proof. destruct c; auto; right; right; split; discriminate. Qed.

(** X1. Every command other than [batchCreateIssues] and
    [transitionIssue] (the two whose [run] can throw outside a [try])
    fulfils its promise whatever the input object, the replies of the remote
    and the environment: a failure of any kind comes back as a value, never
    as a rejection. *)
Theorem commands_never_reject :
  forall (c : CommandName) (input : Obj) (remote : Remote) (env : Env),
    c <> BatchCreateIssues ->
    c <> TransitionIssue ->
    exists v, fst (invoke c input remote env) = Fulfilled v.
Proof.
  intros c input remote env Hc Hp.
  destruct (invoke_guarded c input Hc Hp) as (t & Ht & Heq).
  rewrite Heq. now apply guarded_fulfils.
Qed.

Lemma commands_never_reject_witness :
  exists v,
    fst (invoke DeleteTask [("issueIdOrKey", JStr "PROJ-123")] unreachable sample_env)
    = Fulfilled v.
Proof.
  apply (commands_never_reject DeleteTask [("issueIdOrKey", JStr "PROJ-123")]
           unreachable sample_env); discriminate.
Defined.

(** X3. Every request any command sends goes to a URL that starts with the
    configured base URL followed by [/rest/api/3/], and carries the
    [Authorization] header [Basic base64(email:token)] of the configured
    account and [Accept: application/json]. *)
Theorem every_request_is_addressed_and_authenticated :
  forall (c : CommandName) (input : Obj) (remote : Remote) (env : Env)
         (req : Request),
    In req (snd (invoke c input remote env)) ->
    api_request env req.
Proof.
  intros c input remote env req Hin.
  destruct (command_cases c) as [-> | [-> | (Hc & Hp)]].
  - rewrite batch_log in Hin. apply in_flat_map in Hin.
    destruct Hin as (issue & _ & Hin).
    now apply (create_one_requests (obj_get "projectKey" input) issue env).
  - rewrite transitionIssue_log in Hin. destruct Hin.
  - destruct (invoke_guarded c input Hc Hp) as (t & Ht & Heq).
    rewrite Heq in Hin. now apply (guarded_log t Ht remote env).
Qed.

Lemma every_request_is_addressed_and_authenticated_witness :
  api_request sample_env
    {| url := "https://your-domain.atlassian.net/rest/api/3/issue/PROJ-123/worklog";
       init :=
         {| method := Some "POST";
            headers :=
              Some [("Authorization",
                     "Basic " ++ base64 "your-email@example.com:your-jira-api-token");
                    ("Accept", "application/json");
                    ("Content-Type", "application/json")];
            body := BodyJs (JStr ("{" ++ dquote ++ "timeSpent" ++ dquote ++ ":"
                                  ++ dquote ++ "2h" ++ dquote ++ "}")) |} |}.
Proof.
  apply (every_request_is_addressed_and_authenticated LogWork
           [("issueKey", JStr "PROJ-123"); ("timeSpent", JStr "2h")]
           unreachable sample_env).
  left. reflexivity.
Defined.

(** X4. A request has a body exactly when it says so: every request any
    command sends either has no body and no [Content-Type] header, or has a
    text body and [Content-Type: application/json]. *)
Theorem every_request_body_is_typed :
  forall (c : CommandName) (input : Obj) (remote : Remote) (env : Env)
         (req : Request),
    In req (snd (invoke c input remote env)) ->
    json_or_bare req.
Proof.
  intros c input remote env req Hin.
  destruct (command_cases c) as [-> | [-> | (Hc & Hp)]].
  - rewrite batch_log in Hin. apply in_flat_map in Hin.
    destruct Hin as (issue & _ & Hin).
    now apply (create_one_requests (obj_get "projectKey" input) issue env).
  - rewrite transitionIssue_log in Hin. destruct Hin.
  - destruct (invoke_guarded c input Hc Hp) as (t & Ht & Heq).
    rewrite Heq in Hin. now apply (guarded_log t Ht remote env).
Qed.

Lemma every_request_body_is_typed_witness :
  json_or_bare
    {| url := "https://your-domain.atlassian.net/rest/api/3/issue/PROJ-123";
       init :=
         {| method := Some "DELETE";
            headers :=
              Some [("Authorization",
                     "Basic " ++ base64 "your-email@example.com:your-jira-api-token");
                    ("Accept", "application/json")];
            body := BodyJs JUndefined |} |}.
Proof.
  apply (every_request_body_is_typed DeleteTask [("issueIdOrKey", JStr "PROJ-123")]
           no_content sample_env).
  left. reflexivity.
Defined.

(** X5. While any of the three configuration values is absent or empty, no
    command sends anything, whatever its input. *)
Theorem nothing_is_sent_without_configuration :
  forall (c : CommandName) (input : Obj) (remote : Remote) (env : Env),
    configured env = false ->
    snd (invoke c input remote env) = [].
Proof.
  intros c input remote env Hcfg.
  destruct (command_cases c) as [-> | [-> | (Hc & Hp)]].
  - rewrite batch_log. apply flat_map_nil. intros issue.
    now apply (create_one_requests (obj_get "projectKey" input) issue env).
  - apply transitionIssue_log.
  - destruct (invoke_guarded c input Hc Hp) as (t & Ht & Heq).
    rewrite Heq. now apply (guarded_log t Ht remote env).
Qed.

Lemma nothing_is_sent_without_configuration_witness :
  snd (invoke BatchCreateIssues sample_batch first_refused
         [("JIRA_BASE_URL", "https://your-domain.atlassian.net");
          ("JIRA_EMAIL", ""); ("JIRA_API_TOKEN", "your-jira-api-token")])
  = [].
Proof.
  apply (nothing_is_sent_without_configuration BatchCreateIssues sample_batch
           first_refused).
  reflexivity.
Defined.

(** X6. One run of a command sends at most one request, [transitionIssue]
    none, and [batchCreateIssues] at most one per item: nothing is retried
    and nothing is followed up. *)
Theorem request_count_is_bounded :
  forall (c : CommandName) (input : Obj) (remote : Remote) (env : Env),
    List.length (snd (invoke c input remote env)) <= request_bound c input.
Proof.
  intros c input remote env.
  destruct (command_cases c) as [-> | [-> | (Hc & Hp)]].
  - rewrite batch_log. cbn [request_bound].
    etransitivity; [apply flat_map_short; intros; apply first_request_short |].
    destruct (_ || _); cbn; lia.
  - rewrite transitionIssue_log. cbn. lia.
  - destruct (invoke_guarded c input Hc Hp) as (t & Ht & Heq).
    rewrite Heq, (call_one_shot_log remote t env (guarded_one_shot t Ht)).
    destruct c; try contradiction; cbn [request_bound];
      apply first_request_short.
Qed.

(** X7. What a command sends is decided by its input and the environment
    alone: two remotes that answer differently are sent the same requests in
    the same order. *)
Theorem requests_do_not_depend_on_replies :
  forall (c : CommandName) (input : Obj) (remote remote' : Remote) (env : Env),
    snd (invoke c input remote env) = snd (invoke c input remote' env).
Proof.
  intros c input remote remote' env.
  destruct (command_cases c) as [-> | [-> | (Hc & Hp)]].
  - now rewrite !batch_log.
  - now rewrite !transitionIssue_log.
  - destruct (invoke_guarded c input Hc Hp) as (t & Ht & Heq).
    rewrite !Heq, !(call_one_shot_log _ t env (guarded_one_shot t Ht)).
    reflexivity.
Qed.

(** X8. When a command other than [batchCreateIssues] has sent its request
    and the call fails, the command returns [{error: true, message}] with
    the failure's message: the rejection of [fetch] itself, [Jira API error:
    <status> <body>] for a reply outside 2xx, or the parser's complaint for a
    2xx reply whose body is not JSON. *)
Theorem failed_call_is_reported :
  forall (c : CommandName) (input : Obj) (remote : Remote) (env : Env)
         (req : Request),
    c <> BatchCreateIssues ->
    snd (invoke c input remote env) = [req] ->
    (forall e,
        settled (remote 0 req) = Rejected e ->
        fst (invoke c input remote env) = Fulfilled (error_message (message e)))
    /\ (forall res,
           settled (remote 0 req) = Fulfilled res ->
           ok res = false ->
           fst (invoke c input remote env)
           = Fulfilled (error_message ("Jira API error: " ++ string_of_Z (status res)
                                       ++ " " ++ text res)))
    /\ (forall res e,
           settled (remote 0 req) = Fulfilled res ->
           ok res = true ->
           json res = Rejected e ->
           fst (invoke c input remote env) = Fulfilled (error_message (message e))).
Proof.
  intros c input remote env req Hc Hlog.
  assert (Hp : c <> TransitionIssue).
  { intros ->. rewrite transitionIssue_log in Hlog. discriminate Hlog. }
  destruct (invoke_guarded c input Hc Hp) as (t & Ht & Heq).
  rewrite Heq in *.
  split; [| split].
  - intros e He. apply (guarded_failure t Ht remote env req e Hlog).
    unfold received. now rewrite He.
  - intros res Hres Hok.
    apply (guarded_failure t Ht remote env req
             (Error ("Jira API error: " ++ string_of_Z (status res) ++ " " ++ text res))
             Hlog).
    unfold received. now rewrite Hres, Hok.
  - intros res e Hres Hok Hjson.
    apply (guarded_failure t Ht remote env req e Hlog).
    unfold received. now rewrite Hres, Hok.
Qed.

Lemma failed_call_is_reported_witness :
  fst (invoke GetIssueDetails [("issueIdOrKey", JStr "PROJ-404")]
         (answering (respond 404 JNull) sample_env) sample_env)
  = Fulfilled (error_message "Jira API error: 404 remote said no")
  /\ fst (invoke DeleteTask [("issueIdOrKey", JStr "PROJ-123")] no_content sample_env)
     = Fulfilled (error_message "Unexpected end of JSON input")
  /\ fst (invoke ListTasks [] unreachable sample_env)
     = Fulfilled (error_message "request to remote failed").
Proof.
  split; [| split].
  - exact (proj1 (proj2 (failed_call_is_reported GetIssueDetails
                           [("issueIdOrKey", JStr "PROJ-404")]
                           (answering (respond 404 JNull) sample_env) sample_env _
                           ltac:(discriminate) eq_refl))
             (respond 404 JNull) eq_refl eq_refl).
  - exact (proj2 (proj2 (failed_call_is_reported DeleteTask
                           [("issueIdOrKey", JStr "PROJ-123")]
                           no_content sample_env _ ltac:(discriminate) eq_refl))
             _ (Error "Unexpected end of JSON input") eq_refl eq_refl eq_refl).
  - exact (proj1 (failed_call_is_reported ListTasks [] unreachable sample_env _
                    ltac:(discriminate) eq_refl)
             (Error "request to remote failed") eq_refl).
Defined.

(** ** A null item in a batch *)

Lemma all_settled_rejected {A : Type} (rs1 rs2 : list (Settled A)) (e : Exn) :
  Forall (fun r => exists a, r = Fulfilled a) rs1 ->
  all_settled (rs1 ++ Rejected e :: rs2) = Rejected e.
Proof.
  induction 1 as [| r rs1 (a & ->) _ IH]; cbn; [reflexivity |].
  now rewrite IH.
Qed.

Lemma settle_each_app {A : Type} (remote : Remote) (env : Env)
    (l1 l2 : list (Task A)) (n : nat) :
  exists n',
    settle_each remote env (l1 ++ l2) n
    = (settle_each remote env l1 n ++ settle_each remote env l2 n')%list.
Proof.
  revert n. induction l1 as [| t l1 IH]; intros n; cbn.
  - exists n. reflexivity.
  - destruct (IH (if awaits t env then S n else n)) as (n' & ->).
    exists n'. reflexivity.
Qed.

(** X2. [batchCreateIssues] does reject when an item is null or undefined:
    with a project key and an issues array whose first such item is [bad],
    the returned promise rejects with the TypeError of reading [summary] of
    [bad] (the [catch] block reads [issue.summary] again), whatever the
    remote answers for the other items. *)
Theorem batchCreateIssues_rejects_on_null_item :
  forall (input : Obj) (remote : Remote) (env : Env)
         (before after : list JsVal) (bad : JsVal),
    truthy (obj_get "projectKey" input) = true ->
    obj_get "issues" input = JArr (before ++ bad :: after) ->
    Forall (fun issue => nullish issue = false) before ->
    nullish bad = true ->
    fst (invoke BatchCreateIssues input remote env)
    = Rejected (TypeError_read bad "summary").
Proof.
  intros input remote env before after bad Hkey Hissues Hbefore Hbad.
  cbn [invoke]. unfold commands.batchCreateIssues.run, falsy. cbv zeta.
  rewrite Hissues, Hkey. cbn [negb isArray orb elements].
  replace (List.length (before ++ bad :: after) =? 0)%nat with false
    by (symmetry; apply Nat.eqb_neq; rewrite length_app; cbn; lia).
  set (pk := obj_get "projectKey" input).
  pose proof (promise_all_one_shot remote env
                (map (commands.batchCreateIssues.create_one pk) (before ++ bad :: after)))
    as Hp.
  destruct (promise_all remote _ env) as [results log]. cbn [fst] in Hp |- *.
  rewrite Hp.
  - rewrite map_app. cbn [map].
    destruct (settle_each_app remote env
                (map (commands.batchCreateIssues.create_one pk) before)
                (commands.batchCreateIssues.create_one pk bad
                 :: map (commands.batchCreateIssues.create_one pk) after) 0)
      as (n' & ->).
    cbn [settle_each]. rewrite (create_one_absent pk bad Hbad).
    cbn [call exec fst].
    rewrite all_settled_rejected; [reflexivity |].
    apply settle_each_Forall, Forall_map.
    eapply Forall_impl; [| exact Hbefore].
    intros issue Hi remote'. rewrite call_fst. now apply create_one_fulfilled.
  - apply Forall_map, Forall_forall. intros issue _. apply create_one_one_shot.
Qed.

Lemma batchCreateIssues_rejects_on_null_item_witness :
  fst (invoke BatchCreateIssues
         [("projectKey", JStr "PROJ");
          ("issues", JArr [JObj [("summary", JStr "Task 1"); ("issueType", JStr "Task")];
                           JNull])]
         (answering created_PROJ_1 sample_env) sample_env)
  = Rejected (TypeError_read JNull "summary").
Proof.
  apply (batchCreateIssues_rejects_on_null_item
           [("projectKey", JStr "PROJ");
            ("issues", JArr [JObj [("summary", JStr "Task 1"); ("issueType", JStr "Task")];
                             JNull])]
           (answering created_PROJ_1 sample_env) sample_env
           [JObj [("summary", JStr "Task 1"); ("issueType", JStr "Task")]] [] JNull
           eq_refl eq_refl);
    [repeat constructor | reflexivity].
Defined.

(** ** Task commands *)

(** X9. With the configuration in place and an issue key that renders as
    text, [updateTask] sends one [PUT] to the issue's URL whose body is the
    JSON text of [{fields}] with the fields it was given, and when the reply
    is 2xx with a JSON body it returns
    [{success: true, message: 'Task updated', input}] echoing its input. *)
Theorem updateTask_puts_the_fields :
  forall (input : Obj) (remote : Remote) (env : Env) (key : string),
    configured env = true ->
    to_string (obj_get "issueIdOrKey" input) = Fulfilled key ->
    exists req s,
      snd (invoke UpdateTask input remote env) = [req]
      /\ url req = env_or_empty env "JIRA_BASE_URL" ++ "/rest/api/3/issue/" ++ key
      /\ method (init req) = Some "PUT"
      /\ stringify (JObj [("fields", obj_get "fields" input)]) = Some s
      /\ body (init req) = BodyJs (JStr s)
      /\ forall res v,
          settled (remote 0 req) = Fulfilled res ->
          ok res = true ->
          json res = Fulfilled v ->
          fst (invoke UpdateTask input remote env)
          = Fulfilled (JObj [("success", JBool true);
                             ("message", JStr "Task updated");
                             ("input", JObj input)]).
Proof.
  intros input remote env key Hc Hkey. cbn [invoke].
  unfold commands.updateTask.run, jiraApi.updateIssue.
  rewrite Hkey. cbn [lift bind].
  match goal with
  | |- context [try_catch (bind (jiraRequest ?path ?options) ?f) _] =>
      destruct (guarded_configured path options f error_result env
                  ltac:(auto 20 with sync_db) Hc)
        as (req & Hurl & Hmethod & Hbody & _ & Hrun)
  end.
  destruct (Hrun remote) as (Hlog & _ & Hdone).
  exists req. eexists. split; [exact Hlog |]. split; [exact Hurl |].
  split; [exact Hmethod |]. split; [reflexivity |]. split; [exact Hbody |].
  intros res v Hres Hok Hjson. rewrite (Hdone v); [reflexivity |].
  unfold received. now rewrite Hres, Hok.
Qed.

Lemma updateTask_puts_the_fields_witness :
  exists req,
    snd (invoke UpdateTask
           [("issueIdOrKey", JStr "PROJ-123");
            ("fields", JObj [("summary", JStr "Updated")])]
           (answering (respond 200 (JObj [])) sample_env) sample_env) = [req]
    /\ url req = "https://your-domain.atlassian.net/rest/api/3/issue/PROJ-123"
    /\ method (init req) = Some "PUT"
    /\ body (init req)
       = BodyJs (JStr ("{" ++ dquote ++ "fields" ++ dquote ++ ":{"
                       ++ dquote ++ "summary" ++ dquote ++ ":"
                       ++ dquote ++ "Updated" ++ dquote ++ "}}"))
    /\ fst (invoke UpdateTask
              [("issueIdOrKey", JStr "PROJ-123");
               ("fields", JObj [("summary", JStr "Updated")])]
              (answering (respond 200 (JObj [])) sample_env) sample_env)
       = Fulfilled (JObj [("success", JBool true);
                          ("message", JStr "Task updated");
                          ("input",
                           JObj [("issueIdOrKey", JStr "PROJ-123");
                                 ("fields", JObj [("summary", JStr "Updated")])])]).
Proof.
  destruct (updateTask_puts_the_fields
              [("issueIdOrKey", JStr "PROJ-123");
               ("fields", JObj [("summary", JStr "Updated")])]
              (answering (respond 200 (JObj [])) sample_env) sample_env "PROJ-123"
              eq_refl eq_refl)
    as (req & s & Hlog & Hurl & Hmethod & Hs & Hbody & Hdone).
  exists req. split; [exact Hlog |]. split; [exact Hurl |]. split; [exact Hmethod |].
  split.
  - rewrite Hbody. injection Hs as <-. reflexivity.
  - exact (Hdone (respond 200 (JObj [])) (JObj []) eq_refl eq_refl eq_refl).
Defined.

(** X10. With the configuration in place and an issue key that renders
    as text, [deleteTask] sends one [DELETE] to the issue's URL, without a
    body, and when the reply is 2xx with a JSON body it returns
    [{success: true, message: 'Task deleted', input}]. *)
Theorem deleteTask_deletes_the_issue :
  forall (input : Obj) (remote : Remote) (env : Env) (key : string),
    configured env = true ->
    to_string (obj_get "issueIdOrKey" input) = Fulfilled key ->
    exists req,
      snd (invoke DeleteTask input remote env) = [req]
      /\ url req = env_or_empty env "JIRA_BASE_URL" ++ "/rest/api/3/issue/" ++ key
      /\ method (init req) = Some "DELETE"
      /\ body (init req) = BodyJs JUndefined
      /\ forall res v,
          settled (remote 0 req) = Fulfilled res ->
          ok res = true ->
          json res = Fulfilled v ->
          fst (invoke DeleteTask input remote env)
          = Fulfilled (JObj [("success", JBool true);
                             ("message", JStr "Task deleted");
                             ("input", JObj input)]).
Proof.
  intros input remote env key Hc Hkey. cbn [invoke].
  unfold commands.deleteTask.run, jiraApi.deleteIssue.
  rewrite Hkey. cbn [lift bind].
  match goal with
  | |- context [try_catch (bind (jiraRequest ?path ?options) ?f) _] =>
      destruct (guarded_configured path options f error_result env
                  ltac:(auto 20 with sync_db) Hc)
        as (req & Hurl & Hmethod & Hbody & _ & Hrun)
  end.
  destruct (Hrun remote) as (Hlog & _ & Hdone).
  exists req. split; [exact Hlog |]. split; [exact Hurl |].
  split; [exact Hmethod |]. split; [exact Hbody |].
  intros res v Hres Hok Hjson. rewrite (Hdone v); [reflexivity |].
  unfold received. now rewrite Hres, Hok.
Qed.

Lemma deleteTask_deletes_the_issue_witness :
  exists req,
    snd (invoke DeleteTask [("issueIdOrKey", JStr "PROJ-123")]
           (answering (respond 200 JNull) sample_env) sample_env) = [req]
    /\ url req = "https://your-domain.atlassian.net/rest/api/3/issue/PROJ-123"
    /\ method (init req) = Some "DELETE"
    /\ body (init req) = BodyJs JUndefined
    /\ fst (invoke DeleteTask [("issueIdOrKey", JStr "PROJ-123")]
              (answering (respond 200 JNull) sample_env) sample_env)
       = Fulfilled (JObj [("success", JBool true);
                          ("message", JStr "Task deleted");
                          ("input", JObj [("issueIdOrKey", JStr "PROJ-123")])]).
Proof.
  destruct (deleteTask_deletes_the_issue [("issueIdOrKey", JStr "PROJ-123")]
              (answering (respond 200 JNull) sample_env) sample_env "PROJ-123"
              eq_refl eq_refl)
    as (req & Hlog & Hurl & Hmethod & Hbody & Hdone).
  exists req. split; [exact Hlog |]. split; [exact Hurl |]. split; [exact Hmethod |].
  split; [exact Hbody |].
  exact (Hdone (respond 200 JNull) JNull eq_refl eq_refl eq_refl).
Defined.

(** X11. With the configuration in place, [listTasks] sends one [POST] to
    the search URL whose body is the JSON text of an object that holds [jql]
    exactly when a truthy jql was given and [maxResults] exactly when a
    truthy maxResults was given (so a maxResults of 0 is not sent); when the
    reply is 2xx with a JSON object it returns
    [{success: true, issues}] with that object's [issues]. *)
Theorem listTasks_searches :
  forall (input : Obj) (remote : Remote) (env : Env),
    configured env = true ->
    exists req query s,
      snd (invoke ListTasks input remote env) = [req]
      /\ url req = env_or_empty env "JIRA_BASE_URL" ++ "/rest/api/3/search"
      /\ method (init req) = Some "POST"
      /\ stringify (JObj query) = Some s
      /\ body (init req) = BodyJs (JStr s)
      /\ obj_get "jql" query
         = (if truthy (obj_get "jql" input) then obj_get "jql" input else JUndefined)
      /\ obj_get "maxResults" query
         = (if truthy (obj_get "maxResults" input)
            then obj_get "maxResults" input else JUndefined)
      /\ incl (map fst query) ["jql"; "maxResults"]
      /\ forall res result,
          settled (remote 0 req) = Fulfilled res ->
          ok res = true ->
          json res = Fulfilled (JObj result) ->
          fst (invoke ListTasks input remote env)
          = Fulfilled (JObj [("success", JBool true);
                             ("issues", obj_get "issues" result)]).
Proof.
  intros input remote env Hc. cbn [invoke].
  unfold commands.listTasks.run, jiraApi.listIssues. cbv zeta.
  match goal with
  | |- context [try_catch (bind (jiraRequest ?path ?options) ?f) _] =>
      destruct (guarded_configured path options f error_result env
                  ltac:(auto 20 with sync_db) Hc)
        as (req & Hurl & Hmethod & Hbody & _ & Hrun)
  end.
  destruct (Hrun remote) as (Hlog & _ & Hdone).
  exists req. eexists. eexists. split; [exact Hlog |]. split; [exact Hurl |].
  split; [exact Hmethod |]. split; [reflexivity |]. split; [exact Hbody |].
  split; [| split; [| split]].
  - unfold set_if.
    destruct (truthy (obj_get "jql" input)), (truthy (obj_get "maxResults" input));
      reflexivity.
  - unfold set_if.
    destruct (truthy (obj_get "jql" input)), (truthy (obj_get "maxResults" input));
      reflexivity.
  - unfold set_if.
    destruct (truthy (obj_get "jql" input)), (truthy (obj_get "maxResults" input));
      cbn; intros x Hx; cbn in *; tauto.
  - intros res result Hres Hok Hjson. rewrite (Hdone (JObj result)); [reflexivity |].
    unfold received. now rewrite Hres, Hok.
Qed.

Lemma listTasks_searches_witness :
  exists req,
    snd (invoke ListTasks [("jql", JStr "project=PROJ"); ("maxResults", JInt 0)]
           (answering (respond 200 (JObj [("issues", JArr [JObj sample_issue])]))
              sample_env) sample_env) = [req]
    /\ url req = "https://your-domain.atlassian.net/rest/api/3/search"
    /\ body (init req)
       = BodyJs (JStr ("{" ++ dquote ++ "jql" ++ dquote ++ ":"
                       ++ dquote ++ "project=PROJ" ++ dquote ++ "}"))
    /\ fst (invoke ListTasks [("jql", JStr "project=PROJ"); ("maxResults", JInt 0)]
              (answering (respond 200 (JObj [("issues", JArr [JObj sample_issue])]))
                 sample_env) sample_env)
       = Fulfilled (JObj [("success", JBool true);
                          ("issues", JArr [JObj sample_issue])]).
Proof.
  destruct (listTasks_searches [("jql", JStr "project=PROJ"); ("maxResults", JInt 0)]
              (answering (respond 200 (JObj [("issues", JArr [JObj sample_issue])]))
                 sample_env) sample_env eq_refl)
    as (req & query & s & Hlog & Hurl & _ & Hs & Hbody & _ & _ & _ & Hdone).
  exists req. split; [exact Hlog |]. split; [exact Hurl |]. split.
  - clear - Hlog. vm_compute in Hlog. injection Hlog as <-. reflexivity.
  - exact (Hdone _ [("issues", JArr [JObj sample_issue])] eq_refl eq_refl eq_refl).
Defined.

(** ** The fields of a created issue *)

(** X12. With its required fields and the configuration in place,
    [createIssue] sends one [POST] to the issue URL whose body is the JSON
    text of [{fields}], where [fields] maps the input to Jira's names:
    project is [{key: projectKey}], issuetype is [{name: issueType}],
    summary is the summary; description, assignee (as [{name}]), priority
    (as [{name}]), the epic link (as [customfield_10008]) and parent (as
    [{key}]) are present exactly when the input gives a truthy value; and
    [fields] has no other property. *)
Theorem createIssue_maps_the_fields :
  forall (input : Obj) (remote : Remote) (env : Env),
    truthy (obj_get "projectKey" input) = true ->
    truthy (obj_get "summary" input) = true ->
    truthy (obj_get "issueType" input) = true ->
    configured env = true ->
    exists req fields s,
      snd (invoke CreateIssue input remote env) = [req]
      /\ url req = env_or_empty env "JIRA_BASE_URL" ++ "/rest/api/3/issue"
      /\ method (init req) = Some "POST"
      /\ stringify (JObj [("fields", JObj fields)]) = Some s
      /\ body (init req) = BodyJs (JStr s)
      /\ obj_get "project" fields = JObj [("key", obj_get "projectKey" input)]
      /\ obj_get "summary" fields = obj_get "summary" input
      /\ obj_get "issuetype" fields = JObj [("name", obj_get "issueType" input)]
      /\ obj_get "description" fields
         = (if truthy (obj_get "description" input)
            then obj_get "description" input else JUndefined)
      /\ obj_get "assignee" fields
         = (if truthy (obj_get "assignee" input)
            then JObj [("name", obj_get "assignee" input)] else JUndefined)
      /\ obj_get "priority" fields
         = (if truthy (obj_get "priority" input)
            then JObj [("name", obj_get "priority" input)] else JUndefined)
      /\ obj_get "customfield_10008" fields
         = (if truthy (obj_get "epicLink" input)
            then obj_get "epicLink" input else JUndefined)
      /\ obj_get "parent" fields
         = (if truthy (obj_get "parent" input)
            then JObj [("key", obj_get "parent" input)] else JUndefined)
      /\ incl (map fst fields)
           ["project"; "summary"; "issuetype"; "description"; "assignee";
            "priority"; "customfield_10008"; "parent"].
Proof.
  intros input remote env Hp Hs Ht Hc. cbn [invoke].
  unfold commands.createIssue.run, falsy. rewrite Hp, Hs, Ht. cbn [negb orb].
  unfold jiraApi.createIssue. cbv zeta.
  match goal with
  | |- context [try_catch (bind (jiraRequest ?path ?options) ?f) _] =>
      destruct (guarded_configured path options f error_result env
                  ltac:(auto 20 with sync_db) Hc)
        as (req & Hurl & Hmethod & Hbody & _ & Hrun)
  end.
  destruct (Hrun remote) as (Hlog & _).
  exists req. eexists. eexists. split; [exact Hlog |]. split; [exact Hurl |].
  split; [exact Hmethod |]. split; [reflexivity |]. split; [exact Hbody |].
  repeat split; try (issue_fields_cases input; reflexivity).
  issue_fields_cases input; cbn; intros x Hx; cbn in *; tauto.
Qed.

Lemma createIssue_maps_the_fields_witness :
  exists req,
    snd (invoke CreateIssue
           [("projectKey", JStr "PROJ"); ("summary", JStr "Test Ticket");
            ("description", JStr ""); ("issueType", JStr "Task");
            ("epicLink", JStr "EPIC-1"); ("parent", JStr "PROJ-100")]
           (answering created_PROJ_1 sample_env) sample_env) = [req]
    /\ url req = "https://your-domain.atlassian.net/rest/api/3/issue"
    /\ method (init req) = Some "POST"
    /\ body (init req)
       = BodyJs (JStr ("{" ++ dquote ++ "fields" ++ dquote ++ ":{"
                       ++ dquote ++ "project" ++ dquote ++ ":{"
                       ++ dquote ++ "key" ++ dquote ++ ":"
                       ++ dquote ++ "PROJ" ++ dquote ++ "},"
                       ++ dquote ++ "summary" ++ dquote ++ ":"
                       ++ dquote ++ "Test Ticket" ++ dquote ++ ","
                       ++ dquote ++ "issuetype" ++ dquote ++ ":{"
                       ++ dquote ++ "name" ++ dquote ++ ":"
                       ++ dquote ++ "Task" ++ dquote ++ "},"
                       ++ dquote ++ "customfield_10008" ++ dquote ++ ":"
                       ++ dquote ++ "EPIC-1" ++ dquote ++ ","
                       ++ dquote ++ "parent" ++ dquote ++ ":{"
                       ++ dquote ++ "key" ++ dquote ++ ":"
                       ++ dquote ++ "PROJ-100" ++ dquote ++ "}}}")).
Proof.
  destruct (createIssue_maps_the_fields
              [("projectKey", JStr "PROJ"); ("summary", JStr "Test Ticket");
               ("description", JStr ""); ("issueType", JStr "Task");
               ("epicLink", JStr "EPIC-1"); ("parent", JStr "PROJ-100")]
              (answering created_PROJ_1 sample_env) sample_env
              eq_refl eq_refl eq_refl eq_refl)
    as (req & fields & s & Hlog & Hurl & Hmethod & _).
  exists req. split; [exact Hlog |]. split; [exact Hurl |]. split; [exact Hmethod |].
  clear - Hlog. vm_compute in Hlog. injection Hlog as <-. reflexivity.
Defined.

(** X13. [createTask] forwards only projectKey, summary, description and
    issueType: with those required fields and the configuration in place it
    sends one [POST] to the issue URL whose [fields] hold project, summary
    and issuetype, description when truthy, and nothing else, whatever other
    properties (assignee, priority, epicLink, parent) its input has. *)
Theorem createTask_forwards_four_fields :
  forall (input : Obj) (remote : Remote) (env : Env),
    truthy (obj_get "projectKey" input) = true ->
    truthy (obj_get "summary" input) = true ->
    truthy (obj_get "issueType" input) = true ->
    configured env = true ->
    exists req fields s,
      snd (invoke CreateTask input remote env) = [req]
      /\ url req = env_or_empty env "JIRA_BASE_URL" ++ "/rest/api/3/issue"
      /\ method (init req) = Some "POST"
      /\ stringify (JObj [("fields", JObj fields)]) = Some s
      /\ body (init req) = BodyJs (JStr s)
      /\ obj_get "project" fields = JObj [("key", obj_get "projectKey" input)]
      /\ obj_get "summary" fields = obj_get "summary" input
      /\ obj_get "issuetype" fields = JObj [("name", obj_get "issueType" input)]
      /\ obj_get "description" fields
         = (if truthy (obj_get "description" input)
            then obj_get "description" input else JUndefined)
      /\ incl (map fst fields) ["project"; "summary"; "issuetype"; "description"].
Proof.
  intros input remote env Hp Hs Ht Hc. cbn [invoke].
  unfold commands.createTask.run, commands.createIssue.run, falsy.
  cbn [obj_get String.eqb Ascii.eqb Bool.eqb].
  rewrite Hp, Hs, Ht. cbn [negb orb].
  unfold jiraApi.createIssue. cbv zeta.
  cbn [obj_get String.eqb Ascii.eqb Bool.eqb].
  match goal with
  | |- context [try_catch (bind (jiraRequest ?path ?options) ?f) _] =>
      destruct (guarded_configured path options f error_result env
                  ltac:(auto 20 with sync_db) Hc)
        as (req & Hurl & Hmethod & Hbody & _ & Hrun)
  end.
  destruct (Hrun remote) as (Hlog & _).
  exists req. eexists. eexists. split; [exact Hlog |]. split; [exact Hurl |].
  split; [exact Hmethod |]. split; [reflexivity |]. split; [exact Hbody |].
  unfold set_if. cbn [truthy].
  repeat split; try (destruct (truthy (obj_get "description" input)); reflexivity).
  destruct (truthy (obj_get "description" input)); cbn; intros x Hx; cbn in *; tauto.
Qed.

Lemma createTask_forwards_four_fields_witness :
  snd (invoke CreateTask
         [("summary", JStr "Task summary"); ("projectKey", JStr "PROJ");
          ("issueType", JStr "Task"); ("assignee", JStr "user1");
          ("priority", JStr "High")]
         (answering created_PROJ_1 sample_env) sample_env)
  = snd (invoke CreateTask
           [("summary", JStr "Task summary"); ("projectKey", JStr "PROJ");
            ("issueType", JStr "Task")]
           (answering created_PROJ_1 sample_env) sample_env)
  /\ exists req fields s,
      snd (invoke CreateTask
             [("summary", JStr "Task summary"); ("projectKey", JStr "PROJ");
              ("issueType", JStr "Task"); ("assignee", JStr "user1");
              ("priority", JStr "High")]
             (answering created_PROJ_1 sample_env) sample_env) = [req]
      /\ stringify (JObj [("fields", JObj fields)]) = Some s
      /\ body (init req) = BodyJs (JStr s)
      /\ incl (map fst fields) ["project"; "summary"; "issuetype"; "description"].
Proof.
  split; [reflexivity |].
  destruct (createTask_forwards_four_fields
              [("summary", JStr "Task summary"); ("projectKey", JStr "PROJ");
               ("issueType", JStr "Task"); ("assignee", JStr "user1");
               ("priority", JStr "High")]
              (answering created_PROJ_1 sample_env) sample_env
              eq_refl eq_refl eq_refl eq_refl)
    as (req & fields & s & Hlog & _ & _ & Hs & Hbody & _ & _ & _ & _ & Hincl).
  exists req, fields, s. repeat split; assumption.
Defined.

(** ** The projection of a fetched issue *)

Lemma subtask_refs_project (refs : list JsVal) :
  Forall (fun s => nullish s = false) refs ->
  map_settled commands.getIssueDetails.subtask_ref refs
  = Fulfilled
      (map (fun s =>
              JObj [("key", get_prop_opt s "key");
                    ("summary", get_prop_opt (get_prop_opt s "fields") "summary")])
         refs).
Proof.
  induction 1 as [| s refs Hs _ IH]; cbn [map_settled map].
  - reflexivity.
  - rewrite IH. unfold commands.getIssueDetails.subtask_ref.
    rewrite !(get_prop_present s _ Hs). reflexivity.
Qed.

(** When [getIssueDetails] has sent its request, the key it was given did
    render, the request asks for that issue, and a reply the request layer
    accepts is projected inside the [try]. *)
Lemma getIssueDetails_sent (input : Obj) (remote : Remote) (env : Env)
    (req : Request) :
  snd (invoke GetIssueDetails input remote env) = [req] ->
  exists key,
    to_string (obj_get "issueIdOrKey" input) = Fulfilled key
    /\ url req = env_or_empty env "JIRA_BASE_URL" ++ "/rest/api/3/issue/" ++ key
    /\ method (init req) = None
    /\ body (init req) = BodyJs JUndefined
    /\ forall data out,
        received (settled (remote 0 req)) = Fulfilled data ->
        commands.getIssueDetails.project data = Fulfilled out ->
        fst (invoke GetIssueDetails input remote env) = Fulfilled out.
Proof.
  cbn [invoke]. unfold commands.getIssueDetails.run, jiraApi.getIssue, no_options.
  destruct (to_string (obj_get "issueIdOrKey" input)) as [key | e];
    cbn [lift bind try_catch]; intros Hlog; [| discriminate Hlog].
  exists key. split; [reflexivity |].
  match type of Hlog with
  | context [try_catch (bind (jiraRequest ?path ?options) ?f) _] =>
      destruct (guarded_sent path options f error_result env
                  ltac:(auto 20 with sync_db) remote req Hlog)
        as (_ & Hurl & Hmethod & Hbody & _ & Hdone)
  end.
  split; [exact Hurl |]. split; [exact Hmethod |]. split; [exact Hbody |].
  intros data out Hdata Hout.
  rewrite (Hdone data Hdata), exec_try_catch, exec_lift, Hout. reflexivity.
Qed.

(** C3. When the issue has been fetched (the request went out and the
    reply to it is 2xx, with a JSON object that has a fields object and a
    well-formed subtask list), [getIssueDetails.run] returns an object whose
    description is: for a rich-document description, the text nodes of each
    block joined by a single space and the blocks joined by a newline; for
    an absent (undefined or null) description, null. *)
Theorem getIssueDetails_flattens_description :
  forall (input : Obj) (remote : Remote) (env : Env) (req : Request)
         (res : Response) (data fields : Obj),
    snd (invoke GetIssueDetails input remote env) = [req] ->
    settled (remote 0 req) = Fulfilled res ->
    ok res = true ->
    json res = Fulfilled (JObj data) ->
    obj_get "fields" data = JObj fields ->
    subtask_list (obj_get "subtasks" fields) ->
    (forall blocks,
        rich_document (obj_get "description" fields) blocks ->
        exists out,
          fst (invoke GetIssueDetails input remote env) = Fulfilled (JObj out)
          /\ obj_get "description" out
             = JStr (String.concat newline (map (String.concat " ") blocks)))
    /\ (nullish (obj_get "description" fields) = true ->
        exists out,
          fst (invoke GetIssueDetails input remote env) = Fulfilled (JObj out)
          /\ obj_get "description" out = JNull).
Proof.
  intros input remote env req res data fields Hlog Hres Hok Hjson Hf Hs.
  destruct (getIssueDetails_sent input remote env req Hlog)
    as (key & _ & _ & _ & _ & Hdone).
  assert (Hrun : forall d,
             commands.getIssueDetails.description_text (JObj fields) = Fulfilled d ->
             exists out,
               fst (invoke GetIssueDetails input remote env) = Fulfilled (JObj out)
               /\ obj_get "description" out = d).
  { intros d Hd.
    destruct (project_description data fields d Hf Hs Hd) as (out & Hp & Hout).
    exists out. split; [| exact Hout].
    apply (Hdone (JObj data)); [| exact Hp].
    unfold received. now rewrite Hres, Hok. }
  split.
  - intros blocks Hd. apply Hrun, description_text_flattens, Hd.
  - intros Hd. apply Hrun, description_text_absent, Hd.
Qed.

Lemma getIssueDetails_flattens_description_witness :
  exists out,
    fst (invoke GetIssueDetails [("issueIdOrKey", JStr "PROJ-123")]
           (answering (respond 200 (JObj sample_issue)) sample_env) sample_env)
    = Fulfilled (JObj out)
    /\ obj_get "description" out = JStr ("a b" ++ newline ++ "c").
Proof.
  apply (proj1 (getIssueDetails_flattens_description
                  [("issueIdOrKey", JStr "PROJ-123")]
                  (answering (respond 200 (JObj sample_issue)) sample_env) sample_env
                  _ (respond 200 (JObj sample_issue)) sample_issue
                  sample_fields
                  eq_refl eq_refl eq_refl eq_refl eq_refl
                  (or_intror (ex_intro _ [] (conj eq_refl (Forall_nil _)))))
           [["a"; "b"]; ["c"]]).
  repeat econstructor.
Defined.

(** X14. With the configuration in place and an issue key that renders as
    text, [getIssueDetails] sends one request without method or body to the
    issue's URL; when the reply to it is 2xx with a JSON object that has a
    fields object, a subtasks array without null entries, and a description
    that is absent or a rich document, it returns exactly seven properties:
    the issue key, the summary, the status name, the assignee's display
    name or null, the flattened description or null, the epic link
    ([customfield_10008]) or null, and the subtasks in their order, each
    reduced to its key and its summary. *)
Theorem getIssueDetails_projects_the_issue :
  forall (input : Obj) (remote : Remote) (env : Env) (key : string),
    configured env = true ->
    to_string (obj_get "issueIdOrKey" input) = Fulfilled key ->
    exists req,
      snd (invoke GetIssueDetails input remote env) = [req]
      /\ url req = env_or_empty env "JIRA_BASE_URL" ++ "/rest/api/3/issue/" ++ key
      /\ method (init req) = None
      /\ body (init req) = BodyJs JUndefined
      /\ forall (res : Response) (data fields : Obj) (refs : list JsVal) (d : JsVal),
          settled (remote 0 req) = Fulfilled res ->
          ok res = true ->
          json res = Fulfilled (JObj data) ->
          obj_get "fields" data = JObj fields ->
          obj_get "subtasks" fields = JArr refs ->
          Forall (fun s => nullish s = false) refs ->
          (nullish (obj_get "description" fields) = true /\ d = JNull)
          \/ (exists blocks,
                 rich_document (obj_get "description" fields) blocks
                 /\ d = JStr (String.concat newline (map (String.concat " ") blocks))) ->
          fst (invoke GetIssueDetails input remote env)
          = Fulfilled
              (JObj [("key", obj_get "key" data);
                     ("summary", obj_get "summary" fields);
                     ("status", get_prop_opt (obj_get "status" fields) "name");
                     ("assignee",
                      js_or (get_prop_opt (obj_get "assignee" fields) "displayName")
                        JNull);
                     ("description", d);
                     ("epicLink", js_or (obj_get "customfield_10008" fields) JNull);
                     ("subtasks",
                      JArr (map (fun s =>
                                   JObj [("key", get_prop_opt s "key");
                                         ("summary",
                                          get_prop_opt (get_prop_opt s "fields")
                                            "summary")])
                              refs))]).
Proof.
  intros input remote env key Hc Hkey.
  assert (Hlog : exists req, snd (invoke GetIssueDetails input remote env) = [req]).
  { cbn [invoke]. unfold commands.getIssueDetails.run, jiraApi.getIssue, no_options.
    rewrite Hkey. cbn [lift bind].
    match goal with
    | |- context [try_catch (bind (jiraRequest ?path ?options) ?f) _] =>
        destruct (guarded_configured path options f error_result env
                    ltac:(auto 20 with sync_db) Hc)
          as (req & _ & _ & _ & _ & Hrun)
    end.
    exists req. apply (Hrun remote). }
  destruct Hlog as (req & Hlog). exists req. split; [exact Hlog |].
  destruct (getIssueDetails_sent input remote env req Hlog)
    as (key' & Hkey' & Hurl & Hmethod & Hbody & Hdone).
  rewrite Hkey in Hkey'. injection Hkey' as <-.
  split; [exact Hurl |]. split; [exact Hmethod |]. split; [exact Hbody |].
  intros res data fields refs d Hres Hok Hjson Hf Hsub Hrefs Hd.
  assert (Hdesc : commands.getIssueDetails.description_text (JObj fields) = Fulfilled d).
  { destruct Hd as [(Hn & ->) | (blocks & Hb & ->)].
    - now apply description_text_absent.
    - now apply description_text_flattens. }
  apply (Hdone (JObj data)); [unfold received; now rewrite Hres, Hok |].
  unfold commands.getIssueDetails.project.
  cbn [get_prop settled_bind]. rewrite Hf.
  cbn [js_or truthy get_prop settled_bind]. rewrite Hdesc, Hsub.
  cbn [settled_bind js_or truthy as_array].
  rewrite (subtask_refs_project refs Hrefs). reflexivity.
Qed.

Lemma getIssueDetails_projects_the_issue_witness :
  fst (invoke GetIssueDetails [("issueIdOrKey", JStr "PROJ-9")]
         (answering
            (respond 200
               (JObj [("key", JStr "PROJ-9");
                      ("fields",
                       JObj [("summary", JStr "Parent");
                             ("status", JObj [("name", JStr "In Progress")]);
                             ("assignee", JNull);
                             ("customfield_10008", JStr "EPIC-1");
                             ("subtasks",
                              JArr [JObj [("key", JStr "PROJ-10");
                                          ("fields",
                                           JObj [("summary", JStr "Child")])];
                                    JObj [("key", JStr "PROJ-11")]])])]))
            sample_env) sample_env)
  = Fulfilled
      (JObj [("key", JStr "PROJ-9");
             ("summary", JStr "Parent");
             ("status", JStr "In Progress");
             ("assignee", JNull);
             ("description", JNull);
             ("epicLink", JStr "EPIC-1");
             ("subtasks",
              JArr [JObj [("key", JStr "PROJ-10"); ("summary", JStr "Child")];
                    JObj [("key", JStr "PROJ-11"); ("summary", JUndefined)]])]).
Proof.
  destruct (getIssueDetails_projects_the_issue
              [("issueIdOrKey", JStr "PROJ-9")]
              (answering
                 (respond 200
                    (JObj [("key", JStr "PROJ-9");
                           ("fields",
                            JObj [("summary", JStr "Parent");
                                  ("status", JObj [("name", JStr "In Progress")]);
                                  ("assignee", JNull);
                                  ("customfield_10008", JStr "EPIC-1");
                                  ("subtasks",
                                   JArr [JObj [("key", JStr "PROJ-10");
                                               ("fields",
                                                JObj [("summary", JStr "Child")])];
                                         JObj [("key", JStr "PROJ-11")]])])]))
                 sample_env) sample_env "PROJ-9" eq_refl eq_refl)
    as (req & _ & _ & _ & _ & Hresult).
  exact (Hresult _ _ _ _ JNull eq_refl eq_refl eq_refl eq_refl eq_refl
           ltac:(repeat constructor) (or_introl (conj eq_refl eq_refl))).
Defined.

(** ** Merging the caller's headers *)

Section Headers.

Context {V : Type}.

Lemma assoc_get_set (k name : string) (v : V) (o : list (string * V)) :
  assoc_get name (obj_set k v o)
  = if k =? name then Some v else assoc_get name o.
Proof.
  induction o as [| [a w] o IH]; cbn [obj_set assoc_get].
  - reflexivity.
  - destruct (String.eqb_spec a k) as [-> | Hak]; cbn [assoc_get].
    + destruct (k =? name); reflexivity.
    + rewrite IH. destruct (String.eqb_spec a name) as [-> | Han]; [| reflexivity].
      destruct (String.eqb_spec k name) as [-> | _]; [contradiction | reflexivity].
Qed.

Lemma assoc_get_app (name : string) (l1 l2 : list (string * V)) :
  assoc_get name (l1 ++ l2)
  = match assoc_get name l1 with
    | Some v => Some v
    | None => assoc_get name l2
    end.
Proof.
  induction l1 as [| [a w] l1 IH]; cbn; [reflexivity |].
  destruct (a =? name); auto.
Qed.

(** [Object.assign]: for each name, the last source entry wins, and the
    target's entry stays when the source has none. *)
Lemma assoc_get_assign (name : string) (target source : list (string * V)) :
  assoc_get name (obj_assign target source)
  = match assoc_get name (rev source) with
    | Some v => Some v
    | None => assoc_get name target
    end.
Proof.
  unfold obj_assign. revert target.
  induction source as [| [k v] source IH]; intros target; cbn [fold_left rev].
  - reflexivity.
  - rewrite IH, assoc_get_app, assoc_get_set. cbn [fst snd assoc_get].
    destruct (assoc_get name (rev source)); [reflexivity |].
    destruct (k =? name); reflexivity.
Qed.

Lemma assoc_get_none (name : string) (l : list (string * V)) :
  ~ In name (map fst l) -> assoc_get name l = None.
Proof.
  induction l as [| [a w] l IH]; cbn; [reflexivity |].
  intros H. destruct (String.eqb_spec a name) as [-> | _]; [tauto |].
  apply IH. tauto.
Qed.

Lemma assoc_get_in (name : string) (v : V) (l : list (string * V)) :
  NoDup (map fst l) -> In (name, v) l -> assoc_get name l = Some v.
Proof.
  induction l as [| [a w] l IH]; cbn; [tauto |].
  intros Hnd [Heq | Hin].
  - injection Heq as -> ->. now rewrite String.eqb_refl.
  - inversion Hnd as [| ? ? Hnotin Hnd']; subst.
    destruct (String.eqb_spec a name) as [-> | _].
    + exfalso. apply Hnotin. apply (in_map fst) in Hin. exact Hin.
    + now apply IH.
Qed.

Lemma assoc_get_some_in (name : string) (v : V) (l : list (string * V)) :
  assoc_get name l = Some v -> In (name, v) l.
Proof.
  induction l as [| [a w] l IH]; cbn; [discriminate |].
  destruct (String.eqb_spec a name) as [-> | _].
  - intros H. injection H as ->. now left.
  - intros H. right. now apply IH.
Qed.

(** With unique keys, as in an object, the order of the entries does not
    matter to a lookup. *)
Lemma assoc_get_rev (name : string) (l : list (string * V)) :
  NoDup (map fst l) -> assoc_get name (rev l) = assoc_get name l.
Proof.
  intros Hnd.
  assert (Hnd' : NoDup (map fst (rev l))) by (rewrite map_rev; now apply NoDup_rev).
  destruct (assoc_get name l) as [v |] eqn:Hl.
  - apply assoc_get_in; [exact Hnd' |].
    apply in_rev. rewrite rev_involutive. now apply assoc_get_some_in.
  - destruct (assoc_get name (rev l)) as [v |] eqn:Hr; [| reflexivity].
    apply assoc_get_some_in, in_rev in Hr.
    rewrite (assoc_get_in name v l Hnd Hr) in Hl. discriminate Hl.
Qed.

End Headers.

(** X15. The request layer merges the caller's headers over its own: with
    the configuration in place, the one request it sends carries, for every
    header name, the caller's value when the caller gave one, and otherwise
    the layer's own [Authorization] or [Accept] value (and no header of that
    name if it is neither). *)
Theorem caller_headers_override_the_defaults :
  forall (path : string) (options : RequestInit) (env : Env) (caller : Headers)
         (name : string),
    configured env = true ->
    headers options = Some caller ->
    NoDup (map fst caller) ->
    exists req h,
      (forall remote, snd (call remote (jiraRequest path options) env) = [req])
      /\ headers (init req) = Some h
      /\ assoc_get name h
         = match assoc_get name caller with
           | Some v => Some v
           | None => assoc_get name (base_headers env)
           end.
Proof.
  intros path options env caller name Hc Hcaller Hnd.
  destruct (jiraRequest_sends path options env Hc)
    as (req & _ & _ & _ & Hheaders & Hexec).
  exists req. eexists. split; [| split; [exact Hheaders |]].
  - intros remote. rewrite call_snd, Hexec. reflexivity.
  - rewrite Hcaller, assoc_get_assign, (assoc_get_rev name caller Hnd). reflexivity.
Qed.

Lemma caller_headers_override_the_defaults_witness :
  exists req h,
    (forall remote,
        snd (call remote
               (jiraRequest "/rest/api/3/issue"
                  {| method := Some "POST";
                     headers := Some [("Accept", "text/plain");
                                      ("Content-Type", "application/json")];
                     body := BodyJs (JStr "{}") |})
               sample_env) = [req])
    /\ headers (init req) = Some h
    /\ assoc_get "Accept" h = Some "text/plain".
Proof.
  exact (caller_headers_override_the_defaults "/rest/api/3/issue"
           {| method := Some "POST";
              headers := Some [("Accept", "text/plain");
                               ("Content-Type", "application/json")];
              body := BodyJs (JStr "{}") |}
           sample_env
           [("Accept", "text/plain"); ("Content-Type", "application/json")]
           "Accept" eq_refl eq_refl
           ltac:(repeat constructor; cbn; intuition discriminate)).
Defined.

(** ** The requests and the successes of a batch *)

Section FirstRequest.

Context {A : Type}.

Lemma first_request_bind {B : Type} (t : Task A) (f : A -> Task B) (env : Env) :
  awaits t env = true ->
  first_request (bind t f) env = first_request t env
  /\ awaits (bind t f) env = true.
Proof.
  induction t as [a | e | k IH | req k _]; cbn; intros H;
    try discriminate H; auto.
Qed.

Lemma first_request_try_catch (t : Task A) (h : Exn -> Task A) (env : Env) :
  awaits t env = true ->
  first_request (try_catch t h) env = first_request t env.
Proof.
  induction t as [a | e | k IH | req k _]; cbn; intros H;
    try discriminate H; auto.
Qed.

End FirstRequest.

Lemma jiraRequest_awaits (path : string) (options : RequestInit) (env : Env) :
  awaits (jiraRequest path options) env = configured env.
Proof.
  unfold jiraRequest, getJiraConfig, configured. cbn [bind awaits].
  destruct (env_or_empty env "JIRA_BASE_URL" =? "");
    destruct (env_or_empty env "JIRA_EMAIL" =? "");
    destruct (env_or_empty env "JIRA_API_TOKEN" =? ""); reflexivity.
Qed.

Lemma flat_map_singletons {A B : Type} (f : A -> list B) (l : list A) :
  (forall x, In x l -> List.length (f x) = 1) ->
  List.length (flat_map f l) = List.length l.
Proof.
  induction l as [| x l IH]; cbn; intros H; [reflexivity |].
  rewrite length_app, H, IH by auto. reflexivity.
Qed.

(** X16. With a project key, the configuration in place and a non-empty
    array of non-null items, [batchCreateIssues] sends exactly the requests
    that [jiraApi.createIssue] sends for each item's payload (project key,
    summary, description, issue type, assignee), one per item, in item
    order, whether or not earlier items fail. *)
Theorem batchCreateIssues_sends_one_create_per_item :
  forall (input : Obj) (remote : Remote) (env : Env) (items : list JsVal),
    truthy (obj_get "projectKey" input) = true ->
    obj_get "issues" input = JArr items ->
    items <> [] ->
    Forall (fun issue => nullish issue = false) items ->
    configured env = true ->
    snd (invoke BatchCreateIssues input remote env)
    = flat_map (fun issue =>
                  snd (call remote
                         (jiraApi.createIssue
                            (item_payload (obj_get "projectKey" input) issue)) env))
        items
    /\ List.length (snd (invoke BatchCreateIssues input remote env))
       = List.length items.
Proof.
  intros input remote env items Hkey Hissues Hitems Hpresent Hc.
  assert (Hlog : snd (invoke BatchCreateIssues input remote env)
                 = flat_map (fun issue =>
                               snd (call remote
                                      (jiraApi.createIssue
                                         (item_payload (obj_get "projectKey" input) issue))
                                      env)) items).
  { rewrite batch_log, Hissues. unfold falsy. rewrite Hkey.
    cbn [negb isArray orb elements].
    destruct items as [| i0 rest]; [contradiction Hitems; reflexivity |].
    cbn [List.length Nat.eqb].
    rewrite !flat_map_concat_map. f_equal.
    apply map_ext_in. intros issue Hin.
    rewrite Forall_forall in Hpresent.
    rewrite (create_one_unfold _ _ (Hpresent issue Hin)).
    assert (Ha : awaits (jiraApi.createIssue
                           (item_payload (obj_get "projectKey" input) issue)) env = true).
    { unfold jiraApi.createIssue. cbv zeta. now rewrite jiraRequest_awaits. }
    rewrite first_request_try_catch
      by (apply first_request_bind; exact Ha).
    rewrite (proj1 (first_request_bind _ _ env Ha)).
    symmetry. apply call_one_shot_log.
    unfold jiraApi.createIssue. cbv zeta. apply jiraRequest_one_shot. }
  split; [exact Hlog |].
  rewrite Hlog. apply flat_map_singletons. intros issue _.
  unfold jiraApi.createIssue. cbv zeta.
  match goal with
  | |- context [jiraRequest ?path ?options] =>
      destruct (jiraRequest_sends path options env Hc) as (req & _ & _ & _ & _ & Hexec)
  end.
  now rewrite call_snd, Hexec.
Qed.

Lemma batchCreateIssues_sends_one_create_per_item_witness :
  snd (invoke BatchCreateIssues sample_batch first_refused sample_env)
  = (snd (call first_refused
            (jiraApi.createIssue
               [("projectKey", JStr "PROJ"); ("summary", JStr "Task 1");
                ("description", JUndefined); ("issueType", JStr "Task");
                ("assignee", JUndefined)]) sample_env)
     ++ snd (call first_refused
               (jiraApi.createIssue
                  [("projectKey", JStr "PROJ"); ("summary", JStr "Task 2");
                   ("description", JStr "Desc 2"); ("issueType", JStr "Bug");
                   ("assignee", JStr "user2")]) sample_env))%list
  /\ List.length (snd (invoke BatchCreateIssues sample_batch first_refused sample_env))
     = 2.
Proof.
  destruct (batchCreateIssues_sends_one_create_per_item sample_batch first_refused
              sample_env (elements (obj_get "issues" sample_batch))
              eq_refl eq_refl ltac:(discriminate) ltac:(repeat constructor) eq_refl)
    as (Hlog & Hlen).
  split; [| exact Hlen].
  rewrite Hlog. reflexivity.
Defined.

(** X17. In a batch, an item whose create call succeeds is answered by
    [{key, url, success: true}]: with a project key, non-null items and the
    configuration in place, if the reply to the request of item [i] is 2xx
    with a JSON object whose key is [k], and the configuration is still
    complete when that callback resumes, then the outcome at position [i]
    is [{key: k, url: baseURL ++ "/browse/" ++ k, success: true}]. *)
Theorem batchCreateIssues_reports_created_items :
  forall (input : Obj) (remote : Remote) (env env' : Env) (items : list JsVal)
         (i : nat) (issue : JsVal) (res : Response) (created : Obj) (k : string),
    truthy (obj_get "projectKey" input) = true ->
    obj_get "issues" input = JArr items ->
    Forall (fun issue => nullish issue = false) items ->
    nth_error items i = Some issue ->
    configured env = true ->
    (forall req, remote i req = {| settled := Fulfilled res; env_after := env' |}) ->
    ok res = true ->
    json res = Fulfilled (JObj created) ->
    obj_get "key" created = JStr k ->
    configured env' = true ->
    exists outcomes,
      fst (invoke BatchCreateIssues input remote env) = Fulfilled (JArr outcomes)
      /\ nth_error outcomes i
         = Some (JObj [("key", JStr k);
                       ("url", JStr (env_or_empty env' "JIRA_BASE_URL"
                                     ++ "/browse/" ++ k));
                       ("success", JBool true)]).
Proof.
  intros input remote env env' items i issue res created k
         Hkey Hissues Hpresent Hi Hc Hremote Hok Hjson Hk Hc'.
  assert (Hitems : items <> []) by (intros ->; destruct i; discriminate Hi).
  destruct (batch_outcomes input env items Hkey Hissues Hitems Hpresent remote)
    as (outcomes & Hrun & _ & Hnth).
  exists outcomes. split; [exact Hrun |].
  destruct (Hnth i issue Hi) as (v & Hv & Hone).
  rewrite Hv. f_equal.
  assert (Hp : nullish issue = false).
  { rewrite Forall_forall in Hpresent. apply Hpresent. eapply nth_error_In, Hi. }
  rewrite (create_one_unfold _ _ Hp) in Hone.
  unfold jiraApi.createIssue in Hone. cbv zeta in Hone.
  match type of Hone with
  | context [try_catch (bind (jiraRequest ?path ?options) ?f) (fun e => Ret (@?g e))] =>
      destruct (guarded_configured path options f g env ltac:(auto 20 with sync_db) Hc)
        as (req & _ & _ & _ & _ & Hguard)
  end.
  destruct (Hguard (alone remote i)) as (_ & _ & Hdone).
  rewrite (Hdone (JObj created)) in Hone
    by (unfold alone, received; rewrite Hremote; cbn [settled]; now rewrite Hok).
  unfold alone in Hone. rewrite Hremote in Hone. cbn [env_after] in Hone.
  rewrite exec_try_catch, exec_bind in Hone. cbn [get_prop lift exec] in Hone.
  rewrite Hk, exec_bind, getJiraConfig_exec in Hone. cbn [process_env] in Hone.
  rewrite Hc' in Hone. cbn in Hone. now injection Hone as <-.
Qed.

Lemma batchCreateIssues_reports_created_items_witness :
  exists outcomes,
    fst (invoke BatchCreateIssues sample_batch first_refused sample_env)
    = Fulfilled (JArr outcomes)
    /\ nth_error outcomes 1
       = Some (JObj [("key", JStr "PROJ-1");
                     ("url", JStr "https://your-domain.atlassian.net/browse/PROJ-1");
                     ("success", JBool true)]).
Proof.
  exact (batchCreateIssues_reports_created_items sample_batch first_refused
           sample_env sample_env (elements (obj_get "issues" sample_batch)) 1 _
           created_PROJ_1 [("key", JStr "PROJ-1")] "PROJ-1"
           eq_refl eq_refl ltac:(repeat constructor) eq_refl eq_refl
           (fun _ => eq_refl) eq_refl eq_refl eq_refl eq_refl).
Defined.

(** ** Descriptions with nodes that carry no text *)

Section LooseFlatten.

Import commands.getIssueDetails.

Lemma inline_nodes_read (nodes : list JsVal) (texts : list string) :
  Forall2 inline_node nodes texts ->
  exists vs,
    map_settled (fun t => get_prop t "text") nodes = Fulfilled vs
    /\ map_settled join_element vs = Fulfilled texts.
Proof.
  induction 1 as [| t s nodes texts (Ht & Hs) _ (vs & IH & Hvs)]; cbn.
  - exists []. split; reflexivity.
  - rewrite (get_prop_present t "text" Ht), IH. cbn [settled_bind].
    eexists. split; [reflexivity |]. cbn [map_settled]. rewrite Hvs.
    destruct Hs as [-> | (Hn & ->)]; [reflexivity |].
    unfold join_element. now rewrite Hn.
Qed.

Lemma any_block_line (c : JsVal) (line : string) :
  any_block c line ->
  exists v, block_text c = Fulfilled v /\ join_element v = Fulfilled line.
Proof.
  intros (Hc & [(Hn & ->) | (nodes & texts & Hcontent & Hnodes & ->)]);
    unfold block_text; rewrite (get_prop_present c "content" Hc);
    cbn [settled_bind].
  - rewrite Hn. exists JUndefined. split; reflexivity.
  - rewrite Hcontent. cbn [nullish as_array settled_bind].
    destruct (inline_nodes_read nodes texts Hnodes) as (vs & -> & Hvs).
    cbn [settled_bind]. unfold join. rewrite Hvs. cbn [settled_bind].
    eexists. split; reflexivity.
Qed.

Lemma any_blocks_lines (cs : list JsVal) (lines : list string) :
  Forall2 any_block cs lines ->
  exists vs,
    map_settled block_text cs = Fulfilled vs
    /\ map_settled join_element vs = Fulfilled lines.
Proof.
  induction 1 as [| c line cs lines Hc _ (vs & IH & Hvs)]; cbn.
  - exists []. split; reflexivity.
  - destruct (any_block_line c line Hc) as (v & -> & Hv). rewrite IH.
    cbn [settled_bind]. eexists. split; [reflexivity |].
    cbn [map_settled]. now rewrite Hv, Hvs.
Qed.

Lemma description_text_lines (fields desc : Obj) (cs : list JsVal)
    (lines : list string) :
  obj_get "description" fields = JObj desc ->
  obj_get "content" desc = JArr cs ->
  Forall2 any_block cs lines ->
  description_text (JObj fields)
  = Fulfilled (JStr (String.concat newline lines)).
Proof.
  intros Hd Hc Hcs. unfold description_text.
  cbn [get_prop settled_bind]. rewrite Hd. cbn [get_prop_opt get_prop].
  rewrite Hc. cbn [truthy settled_bind as_array].
  destruct (any_blocks_lines cs lines Hcs) as (vs & -> & Hvs).
  cbn [settled_bind]. unfold join. now rewrite Hvs.
Qed.

End LooseFlatten.

(** X18. The flattening of a description does not require text everywhere:
    when the issue has been fetched and its description's content is an
    array of blocks, none of them null, a block without content gives an
    empty line, a node without a text property gives an empty string between
    the spaces of its block, and the description is the lines joined by
    newlines. *)
Theorem getIssueDetails_flattens_textless_nodes :
  forall (input : Obj) (remote : Remote) (env : Env) (req : Request)
         (res : Response) (data fields desc : Obj) (cs : list JsVal)
         (lines : list string),
    snd (invoke GetIssueDetails input remote env) = [req] ->
    settled (remote 0 req) = Fulfilled res ->
    ok res = true ->
    json res = Fulfilled (JObj data) ->
    obj_get "fields" data = JObj fields ->
    subtask_list (obj_get "subtasks" fields) ->
    obj_get "description" fields = JObj desc ->
    obj_get "content" desc = JArr cs ->
    Forall2 any_block cs lines ->
    exists out,
      fst (invoke GetIssueDetails input remote env) = Fulfilled (JObj out)
      /\ obj_get "description" out = JStr (String.concat newline lines).
Proof.
  intros input remote env req res data fields desc cs lines
         Hlog Hres Hok Hjson Hf Hs Hd Hcontent Hcs.
  destruct (project_description data fields _ Hf Hs
              (description_text_lines fields desc cs lines Hd Hcontent Hcs))
    as (out & Hp & Hout).
  exists out. split; [| exact Hout].
  destruct (getIssueDetails_sent input remote env req Hlog)
    as (key & _ & _ & _ & _ & Hdone).
  apply (Hdone (JObj data)); [| exact Hp].
  unfold received. now rewrite Hres, Hok.
Qed.

Lemma getIssueDetails_flattens_textless_nodes_witness :
  exists out,
    fst (invoke GetIssueDetails [("issueIdOrKey", JStr "PROJ-7")]
           (answering (respond 200 (JObj ruled_issue)) sample_env) sample_env)
    = Fulfilled (JObj out)
    /\ obj_get "description" out = JStr (newline ++ "x ").
Proof.
  apply (getIssueDetails_flattens_textless_nodes
           [("issueIdOrKey", JStr "PROJ-7")]
           (answering (respond 200 (JObj ruled_issue)) sample_env) sample_env
           _ (respond 200 (JObj ruled_issue)) ruled_issue
           [("description", JObj ruled_description)] ruled_description
           [JObj [("type", JStr "rule")];
            JObj [("content",
                   JArr [JObj [("text", JStr "x")];
                         JObj [("type", JStr "hardBreak")]])]]
           [""; "x "]
           eq_refl eq_refl eq_refl eq_refl eq_refl
           (or_introl eq_refl) eq_refl eq_refl).
  constructor.
  - split; [reflexivity |]. left. split; reflexivity.
  - constructor; [| constructor].
    split; [reflexivity |]. right.
    exists [JObj [("text", JStr "x")]; JObj [("type", JStr "hardBreak")]], ["x"; ""].
    split; [reflexivity |]. split; [| reflexivity].
    constructor; [split; [reflexivity | left; reflexivity] |].
    constructor; [split; [reflexivity | right; split; reflexivity] | constructor].
Defined.

(** X19. [createIssue] does not check the reply for a key: with its
    required fields and the configuration in place, also when the command
    resumes, a 2xx reply whose JSON is an object gives [{key, url}] with
    whatever the object holds under [key], rendered into the URL as a
    template literal renders it, so a reply without a key is answered by a
    URL that ends in [/browse/undefined]; when what it holds cannot be
    rendered, the command returns [{error: true, message}] with the
    TypeError of the conversion. *)
Theorem createIssue_renders_any_key :
  forall (input : Obj) (remote : Remote) (env env' : Env) (res : Response)
         (issue : Obj),
    truthy (obj_get "projectKey" input) = true ->
    truthy (obj_get "summary" input) = true ->
    truthy (obj_get "issueType" input) = true ->
    configured env = true ->
    (forall req, remote 0 req = {| settled := Fulfilled res; env_after := env' |}) ->
    ok res = true ->
    json res = Fulfilled (JObj issue) ->
    configured env' = true ->
    (obj_get "key" issue = JUndefined ->
     fst (invoke CreateIssue input remote env)
     = Fulfilled (JObj [("key", JUndefined);
                        ("url", JStr (env_or_empty env' "JIRA_BASE_URL"
                                      ++ "/browse/undefined"))]))
    /\ (forall shown,
           to_string (obj_get "key" issue) = Fulfilled shown ->
           fst (invoke CreateIssue input remote env)
           = Fulfilled (JObj [("key", obj_get "key" issue);
                              ("url", JStr (env_or_empty env' "JIRA_BASE_URL"
                                            ++ "/browse/" ++ shown))]))
    /\ (forall e,
           to_string (obj_get "key" issue) = Rejected e ->
           fst (invoke CreateIssue input remote env) = Fulfilled (error_result e)).
Proof.
  intros input remote env env' res issue Hp Hs Ht Hc Hremote Hok Hjson Hc'.
  assert (Hrun : fst (invoke CreateIssue input remote env)
                 = match to_string (obj_get "key" issue) with
                   | Fulfilled shown =>
                       Fulfilled (JObj [("key", obj_get "key" issue);
                                        ("url", JStr (env_or_empty env' "JIRA_BASE_URL"
                                                      ++ "/browse/" ++ shown))])
                   | Rejected e => Fulfilled (error_result e)
                   end).
  { cbn [invoke]. unfold commands.createIssue.run, falsy.
    rewrite Hp, Hs, Ht. cbn [negb orb].
    unfold jiraApi.createIssue. cbv zeta.
    match goal with
    | |- context [try_catch (bind (jiraRequest ?path ?options) ?f) _] =>
        destruct (guarded_configured path options f error_result env
                    ltac:(auto 20 with sync_db) Hc)
          as (req & _ & _ & _ & _ & Hrun)
    end.
    destruct (Hrun remote) as (_ & _ & Hdone).
    rewrite (Hdone (JObj issue))
      by (unfold received; rewrite Hremote; cbn [settled]; now rewrite Hok).
    rewrite Hremote. cbn [env_after].
    rewrite exec_try_catch, exec_bind. cbn [get_prop lift exec].
    rewrite exec_bind, getJiraConfig_exec. cbn [process_env]. rewrite Hc'.
    rewrite exec_bind, exec_lift.
    destruct (to_string (obj_get "key" issue)); reflexivity. }
  split; [| split].
  - intros Hkey. rewrite Hrun, Hkey. reflexivity.
  - intros shown Hshown. rewrite Hrun, Hshown. reflexivity.
  - intros e He. rewrite Hrun, He. reflexivity.
Qed.

Lemma createIssue_renders_any_key_witness :
  fst (invoke CreateIssue
         [("projectKey", JStr "PROJ"); ("summary", JStr "Test Ticket");
          ("issueType", JStr "Task")]
         (answering (respond 201 (JObj [("id", JStr "10001")])) sample_env) sample_env)
  = Fulfilled (JObj [("key", JUndefined);
                     ("url", JStr "https://your-domain.atlassian.net/browse/undefined")])
  /\ fst (invoke CreateIssue
            [("projectKey", JStr "PROJ"); ("summary", JStr "Test Ticket");
             ("issueType", JStr "Task")]
            (answering (respond 201 (JObj [("key", JObj [("toString", JNull)])]))
               sample_env) sample_env)
     = Fulfilled (error_message "Cannot convert object to primitive value").
Proof.
  split.
  - exact (proj1 (createIssue_renders_any_key
                    [("projectKey", JStr "PROJ"); ("summary", JStr "Test Ticket");
                     ("issueType", JStr "Task")]
                    (answering (respond 201 (JObj [("id", JStr "10001")])) sample_env)
                    sample_env sample_env (respond 201 (JObj [("id", JStr "10001")]))
                    [("id", JStr "10001")]
                    eq_refl eq_refl eq_refl eq_refl (fun _ => eq_refl)
                    eq_refl eq_refl eq_refl)
             eq_refl).
  - exact (proj2 (proj2 (createIssue_renders_any_key
                    [("projectKey", JStr "PROJ"); ("summary", JStr "Test Ticket");
                     ("issueType", JStr "Task")]
                    (answering (respond 201 (JObj [("key", JObj [("toString", JNull)])]))
                       sample_env)
                    sample_env sample_env
                    (respond 201 (JObj [("key", JObj [("toString", JNull)])]))
                    [("key", JObj [("toString", JNull)])]
                    eq_refl eq_refl eq_refl eq_refl (fun _ => eq_refl)
                    eq_refl eq_refl eq_refl))
             TypeError_convert eq_refl).
Defined.

(** ** Keys that cannot be rendered *)

(** X20. An issue key that is an object with an own [toString] property
    cannot be rendered into the URL: given such a key, [getIssueDetails],
    [getTask], [updateTask] and [deleteTask], and [logWork] when it also has
    a time-spent value, return [{error: true, message}] with the TypeError
    of the conversion and send nothing, whatever the environment and the
    remote. *)
Theorem unrenderable_key_is_reported :
  forall (input : Obj) (remote : Remote) (env : Env) (props : Obj),
    has_own "toString" props = true ->
    (obj_get "issueIdOrKey" input = JObj props ->
     forall c,
       c = GetIssueDetails \/ c = GetTask \/ c = UpdateTask \/ c = DeleteTask ->
       invoke c input remote env
       = (Fulfilled (error_message "Cannot convert object to primitive value"), []))
    /\ (obj_get "issueKey" input = JObj props ->
        truthy (obj_get "timeSpent" input) = true ->
        invoke LogWork input remote env
        = (Fulfilled (error_message "Cannot convert object to primitive value"), [])).
Proof.
  intros input remote env props Hown. split.
  - intros Hkey c [-> | [-> | [-> | ->]]]; cbn [invoke];
      unfold commands.getTask.run, commands.getIssueDetails.run,
        commands.updateTask.run, commands.deleteTask.run,
        jiraApi.getIssue, jiraApi.updateIssue, jiraApi.deleteIssue;
      cbn [obj_get String.eqb Ascii.eqb Bool.eqb];
      rewrite Hkey; cbn [to_string]; rewrite Hown; reflexivity.
  - intros Hkey Htime. cbn [invoke]. unfold commands.logWork.run, falsy.
    rewrite Hkey, Htime. cbn [truthy negb orb].
    unfold jiraApi.addWorklog. cbv zeta. cbn [to_string]. rewrite Hown.
    reflexivity.
Qed.

Lemma unrenderable_key_is_reported_witness :
  invoke DeleteTask [("issueIdOrKey", JObj [("id", JInt 7); ("toString", JStr "PROJ-7")])]
    (answering (respond 200 JNull) sample_env) sample_env
  = (Fulfilled (error_message "Cannot convert object to primitive value"), []).
Proof.
  apply (proj1 (unrenderable_key_is_reported
                  [("issueIdOrKey", JObj [("id", JInt 7); ("toString", JStr "PROJ-7")])]
                  (answering (respond 200 JNull) sample_env) sample_env
                  [("id", JInt 7); ("toString", JStr "PROJ-7")] eq_refl)
           eq_refl DeleteTask).
  right; right; right; reflexivity.
Defined.
